(** * Gestor de eventos Acestream: record validation, launch command,
      volume cleanup, status polling, CSV store and the batch engine.

    Shallow embedding of [9._Crear_contenedores_desde_CSV_c.py].

    Conventions of the embedding.
    - A Python [str] is a [string]; its characters are the code points below
      256.  A Python [int] is a [Z].  A value that is a [str] or [None] is an
      [option string].
    - Exceptions are values of [Excepcion]; code that can raise returns a
      [Res].  Code with effects runs in the monad [M] over [Mundo].
    - The outside world (the container runtime, the status endpoint, the
      volume directory, the host platform) answers through [Entorno], as a
      function of the actions performed so far.
    - The CSV file is held at the level of parsed rows; the header row of the
      file is [cabeceras], as [_inicializar_csv] and every rewrite leave it.
    - Log lines and prints are not modelled, except that the engine's
      per-record step returns which of its reporting branches ran. *)

From Stdlib Require Import String Ascii List ZArith Bool Lia Arith.
From Stdlib Require Import DecimalString DecimalPos.
Import ListNotations.
Open Scope string_scope.
Open Scope Z_scope.

(** ** Characters and strings *)

Definition entre (lo hi : nat) (c : ascii) : bool :=
  (Nat.leb lo (nat_of_ascii c) && Nat.leb (nat_of_ascii c) hi)%bool.

Definition es_digito (c : ascii) : bool := entre 48 57 c.
Definition es_mayuscula (c : ascii) : bool := entre 65 90 c.
Definition es_minuscula (c : ascii) : bool := entre 97 122 c.
Definition es_alfanumerico (c : ascii) : bool :=
  (es_minuscula c || es_mayuscula c || es_digito c)%bool.
Definition es_caracter (n : nat) (c : ascii) : bool :=
  Nat.eqb (nat_of_ascii c) n.

(** [str.isspace] on the code points below 256. *)
Definition es_espacio (c : ascii) : bool :=
  (entre 9 13 c || entre 28 32 c || es_caracter 133 c || es_caracter 160 c)%bool.

Fixpoint quitar_izquierda (l : list ascii) : list ascii :=
  match l with
  | c :: l' => if es_espacio c then quitar_izquierda l' else l
  | [] => []
  end.

(** [str.strip()] *)
Definition strip (s : string) : string :=
  string_of_list_ascii
    (rev (quitar_izquierda (rev (quitar_izquierda (list_ascii_of_string s))))).

(** Truth value of a [str]: non-empty. *)
Definition no_vacia (s : string) : bool :=
  match s with EmptyString => false | _ => true end.

(** [str(n)] for an [int]. *)
Definition str_de_int (n : Z) : string := NilZero.string_of_int (Z.to_int n).

Definition valor_digito (c : ascii) : Z := Z.of_nat (nat_of_ascii c) - 48.

(** The digits of [int(s)] after the sign: one digit, then digits each
    optionally preceded by a single underscore. *)
Fixpoint leer_digitos (acc : Z) (l : list ascii) : option Z :=
  match l with
  | [] => Some acc
  | c :: l' =>
      if es_digito c then leer_digitos (10 * acc + valor_digito c) l'
      else if es_caracter 95 c then
        match l' with
        | d :: l'' =>
            if es_digito d then leer_digitos (10 * acc + valor_digito d) l''
            else None
        | [] => None
        end
      else None
  end.

Definition leer_natural (l : list ascii) : option Z :=
  match l with
  | c :: l' => if es_digito c then leer_digitos (valor_digito c) l' else None
  | [] => None
  end.

(** The whitespace [int] skips around a literal.  It is not that of
    [str.strip]: on the ASCII range [int] uses C's [isspace], which leaves
    out the separators U+001C to U+001F; the spaces U+0085 and U+00A0 are
    turned into blanks before the literal is read. *)
Definition es_blanco_de_int (c : ascii) : bool :=
  (entre 9 13 c || es_caracter 32 c || es_caracter 133 c
   || es_caracter 160 c)%bool.

Fixpoint quitar_blancos (l : list ascii) : list ascii :=
  match l with
  | c :: l' => if es_blanco_de_int c then quitar_blancos l' else l
  | [] => []
  end.

Definition sin_blancos (s : string) : string :=
  string_of_list_ascii
    (rev (quitar_blancos (rev (quitar_blancos (list_ascii_of_string s))))).

(** [int(s)] for a [str]: surrounding whitespace, an optional sign, decimal
    digits.  [None] stands for the [ValueError].  (The interpreter's cap on
    the number of digits of a literal is not modelled.) *)
Definition int_de_str (s : string) : option Z :=
  match list_ascii_of_string (sin_blancos s) with
  | c :: l =>
      if es_caracter 45 c then option_map Z.opp (leer_natural l)
      else if es_caracter 43 c then leer_natural l
      else leer_natural (c :: l)
  | [] => None
  end.

(** [repr(s)] for a [str]: single quotes, unless the text has a single
    quote and no double quote; the quote in use and the backslash are
    escaped, tab, newline and return have their letter, and the other
    characters that are not printable are written [\xhh]. *)
Definition comilla_simple : ascii := ascii_of_nat 39.
Definition comilla_doble : ascii := ascii_of_nat 34.
Definition barra_inversa : ascii := ascii_of_nat 92.

Definition es_imprimible (c : ascii) : bool :=
  (entre 32 126 c || (entre 161 255 c && negb (es_caracter 173 c)))%bool.

Definition cifra_hex (n : nat) : ascii :=
  ascii_of_nat (if Nat.ltb n 10 then 48 + n else 87 + n).

Definition escapar (comilla c : ascii) : list ascii :=
  if (Ascii.eqb c comilla || Ascii.eqb c barra_inversa)%bool
  then [barra_inversa; c]
  else if es_caracter 9 c then [barra_inversa; "t"%char]
  else if es_caracter 10 c then [barra_inversa; "n"%char]
  else if es_caracter 13 c then [barra_inversa; "r"%char]
  else if es_imprimible c then [c]
  else [barra_inversa; "x"%char;
        cifra_hex (Nat.div (nat_of_ascii c) 16);
        cifra_hex (Nat.modulo (nat_of_ascii c) 16)].

Definition repr (s : string) : string :=
  let l := list_ascii_of_string s in
  let comilla :=
    if (existsb (Ascii.eqb comilla_simple) l
        && negb (existsb (Ascii.eqb comilla_doble) l))%bool
    then comilla_doble else comilla_simple in
  string_of_list_ascii
    (comilla :: flat_map (escapar comilla) l ++ [comilla])%list.

(** The message of the [ValueError] of [int(s)]: the literal is shown as its
    [repr], cut at 200 characters. *)
Definition literal_invalido (s : string) : string :=
  "invalid literal for int() with base 10: " ++ substring 0 200 (repr s).

(** [PurePath.suffix] of a file name: from the last dot, unless that dot is
    the first or the last character. *)
Fixpoint ultimo_punto (l : list ascii) : option (list ascii) :=
  match l with
  | [] => None
  | c :: l' =>
      match ultimo_punto l' with
      | Some suf => Some suf
      | None => if es_caracter 46 c then Some l else None
      end
  end.

Definition suffix (nombre : string) : string :=
  match list_ascii_of_string nombre with
  | [] => ""
  | _ :: resto =>
      match ultimo_punto resto with
      | Some (p :: q :: suf) => string_of_list_ascii (p :: q :: suf)
      | _ => ""
      end
  end.

(** ** Regular expressions, as far as the two patterns of the source need *)

Inductive regex : Type :=
| Nada
| Eps
| Clase (p : ascii -> bool)
| Cat (r s : regex)
| Alt (r s : regex)
| Estrella (r : regex).

Fixpoint anulable (r : regex) : bool :=
  match r with
  | Nada => false
  | Eps => true
  | Clase _ => false
  | Cat r s => anulable r && anulable s
  | Alt r s => anulable r || anulable s
  | Estrella _ => true
  end.

Definition cat (r s : regex) : regex :=
  match r, s with
  | Nada, _ => Nada
  | _, Nada => Nada
  | Eps, _ => s
  | _, _ => Cat r s
  end.

Definition alt (r s : regex) : regex :=
  match r, s with
  | Nada, _ => s
  | _, Nada => r
  | _, _ => Alt r s
  end.

Fixpoint derivada (c : ascii) (r : regex) : regex :=
  match r with
  | Nada => Nada
  | Eps => Nada
  | Clase p => if p c then Eps else Nada
  | Cat r s =>
      alt (cat (derivada c r) s) (if anulable r then derivada c s else Nada)
  | Alt r s => alt (derivada c r) (derivada c s)
  | Estrella r => cat (derivada c r) (Estrella r)
  end.

Fixpoint acepta (r : regex) (l : list ascii) : bool :=
  match l with
  | [] => anulable r
  | c :: l' => acepta (derivada c r) l'
  end.

(** [r?], [r+] and [r{0,n}] *)
Definition opcional (r : regex) : regex := Alt Eps r.
Definition mas (r : regex) : regex := Cat r (Estrella r).
Fixpoint hasta (n : nat) (r : regex) : regex :=
  match n with
  | O => Eps
  | S k => opcional (Cat r (hasta k r))
  end.

(** [re.match('^' r '$', s)]: the whole of [s], or [s] without a final
    newline, is in the language of [r]. *)
Definition re_match (r : regex) (s : string) : bool :=
  let l := list_ascii_of_string s in
  acepta r l ||
  match rev l with
  | c :: l' => es_caracter 10 c && acepta r (rev l')
  | [] => false
  end.

(** [^[a-zA-Z0-9_-]+$] *)
Definition patron_nombre : regex :=
  mas (Clase (fun c => es_alfanumerico c || es_caracter 95 c || es_caracter 45 c)).

(** [[a-zA-Z0-9]([a-zA-Z0-9-]{0,61}[a-zA-Z0-9])?] *)
Definition patron_etiqueta : regex :=
  Cat (Clase es_alfanumerico)
      (opcional
         (Cat (hasta 61 (Clase (fun c => es_alfanumerico c || es_caracter 45 c)))
              (Clase es_alfanumerico))).

(** [^label(\.label)*$] *)
Definition patron_dominio : regex :=
  Cat patron_etiqueta (Estrella (Cat (Clase (es_caracter 46)) patron_etiqueta)).

(** ** Data *)

(** The dataclass [EventoConfig]. *)
Record EventoConfig : Type := {
  nombre : string;
  titulo : string;
  puerto : Z;
  tracker : string;
  source : string;
  host : string;
  bitrate : Z;
  token : string
}.

Inductive Excepcion : Type :=
| ValueError (msg : string)
| TypeError
| KeyError (clave : string)
| IndexError
| AttributeError
| RuntimeError (msg : string)
| CalledProcessError (stderr : string)
| RequestException.

Inductive Res (A : Type) : Type :=
| Ok (a : A)
| Lanza (e : Excepcion).
Arguments Ok {A} a.
Arguments Lanza {A} e.

(** A [dict] with [str] keys whose values are [str] or [None]: a row of
    [csv.DictReader], a decoded JSON object, the poller's result. *)
Definition Dict : Type := list (string * option string).
Definition Evento : Type := Dict.

(** [platform.system()] *)
Inductive Sistema : Type :=
| Windows
| Linux
| OtroSistema (nombre_sistema : string).

(** A direct child of the volume directory.  [borrable] tells whether
    [unlink] succeeds on it. *)
#[local] Set Warnings "-register-all".
Inductive Entrada : Type :=
| Archivo (nombre_archivo : string) (borrable : bool)
| Directorio (nombre_directorio : string) (hijos : list Entrada)
| Especial (nombre_especial : string).

Inductive EstadoRuta : Type :=
| NoExiste
| NoEsDirectorio
| Carpeta (entradas : list Entrada).

(** What [response.json()] gives: [None] when it raises [ValueError]. *)
Inductive Json : Type :=
| JObjeto (d : Dict)
| JNoObjeto.

Record Response : Type := {
  status_code : Z;
  cuerpo : option Json
}.

Inductive Respuesta : Type :=
| FalloTransporte
| Recibida (r : Response).

Inductive SalidaCmd : Type :=
| Salida (stdout : string)
| Fallo (stderr : string).

Inductive Accion : Type :=
| Subproceso (args : list string)
| HttpGet (url : string)
| Dormir (segundos : Z)
| CsvLeer
| CsvAnexar (fila : list string)
| CsvEscribir (filas : list (list string)).

(** The state the program acts on: the data rows of the CSV file, the
    directories behind the volume paths, and the actions performed so far
    (newest first). *)
Record Mundo : Type := {
  csv : list (list string);
  fs : string -> EstadoRuta;
  traza : list Accion
}.

Record Entorno : Type := {
  sistema : Sistema;
  subproceso : list Accion -> list string -> SalidaCmd;
  http : list Accion -> string -> Respuesta
}.

(** The branch of the engine's per-record step that ran. *)
Inductive Desenlace : Type :=
| ErrorAlProcesar (e : Excepcion)
| ErroresDeValidacion (errores : list string)
| ErrorAlObtenerContentId (e : Excepcion)
| ContentIdGuardado (content_id : option string).

(** ** The monad of effectful code *)

Definition M (A : Type) : Type := Mundo -> Mundo * Res A.

Definition ret {A : Type} (a : A) : M A := fun m => (m, Ok a).

Definition bind {A B : Type} (c : M A) (k : A -> M B) : M B :=
  fun m =>
    match c m with
    | (m', Ok a) => k a m'
    | (m', Lanza e) => (m', Lanza e)
    end.

Definition lanzar {A : Type} (e : Excepcion) : M A := fun m => (m, Lanza e).

(** [try: c except <clase>: h] *)
Definition atrapar {A : Type} (clase : Excepcion -> bool) (c : M A)
    (h : Excepcion -> M A) : M A :=
  fun m =>
    match c m with
    | (m', Lanza e) => if clase e then h e m' else (m', Lanza e)
    | r => r
    end.

Declare Scope m_scope.
Delimit Scope m_scope with m.
Notation "x <- c ;; k" := (bind c (fun x => k))
  (at level 61, c at next level, right associativity) : m_scope.
Notation "c ;; k" := (bind c (fun _ => k))
  (at level 61, right associativity) : m_scope.

Definition anotar (a : Accion) (m : Mundo) : Mundo :=
  {| csv := csv m; fs := fs m; traza := a :: traza m |}.

Definition es_Exception (e : Excepcion) : bool := true.
Definition es_ValueError (e : Excepcion) : bool :=
  match e with ValueError _ => true | _ => false end.
Definition es_RequestException (e : Excepcion) : bool :=
  match e with RequestException => true | _ => false end.
Definition es_CalledProcessError (e : Excepcion) : bool :=
  match e with CalledProcessError _ => true | _ => false end.

(** ** Dictionaries *)

(** [d.get(k)] with the key's presence kept apart from a [None] value. *)
Fixpoint dict_buscar (d : Dict) (k : string) : option (option string) :=
  match d with
  | [] => None
  | (k', v) :: d' => if String.eqb k' k then Some v else dict_buscar d' k
  end.

(** [d[k]] *)
Definition dict_indice (d : Dict) (k : string) : Res (option string) :=
  match dict_buscar d k with
  | Some v => Ok v
  | None => Lanza (KeyError k)
  end.

(** [d.get(k, defecto)] *)
Definition dict_get (d : Dict) (k : string) (defecto : option string)
    : option string :=
  match dict_buscar d k with
  | Some v => v
  | None => defecto
  end.

(** [d[k] = v] *)
Fixpoint dict_poner (d : Dict) (k : string) (v : option string) : Dict :=
  match d with
  | [] => [(k, v)]
  | (k', v') :: d' =>
      if String.eqb k' k then (k', v) :: d' else (k', v') :: dict_poner d' k v
  end.

(** Truth value of a [str] or [None]. *)
Definition verdadero (v : option string) : bool :=
  match v with
  | Some s => no_vacia s
  | None => false
  end.

(** [v == s] for [v] a [str] or [None] and [s] a [str]. *)
Definition igual_a (v : option string) (s : string) : bool :=
  match v with
  | Some s' => String.eqb s' s
  | None => false
  end.

(** ** The program *)

Definition cabeceras : list string :=
  ["name"; "title"; "port"; "service_access_token"; "tracker"; "source";
   "host"; "bitrate"; "content_id"].

Definition no_encontrado : string := "No encontrado".

Definition msg_agotado : string :=
  "No se pudo obtener el monitor después de varios intentos".

Definition err_nombre : string :=
  "Nombre inválido: use solo letras, números, guiones y guiones bajos".
Definition err_puerto : string :=
  "Puerto inválido: debe estar entre 1024 y 65535".
Definition err_host : string :=
  "Host inválido: debe ser una IP válida o un nombre de dominio".
Definition err_bitrate : string := "Bitrate inválido".
Definition err_titulo : string := "El título no puede estar vacío".
Definition err_source : string := "La fuente no puede estar vacía".

Definition extensiones_permitidas : list string := [".acelive"; ".sauth"].

Definition en_lista (s : string) (l : list string) : bool :=
  existsb (String.eqb s) l.

Definition is_file (e : Entrada) : bool :=
  match e with
  | Archivo _ _ => true
  | _ => false
  end.

Definition nombre_de (e : Entrada) : string :=
  match e with
  | Archivo n _ => n
  | Directorio n _ => n
  | Especial n => n
  end.

(** [archivo.unlink()]: [false] when it raises. *)
Definition unlink (e : Entrada) : bool :=
  match e with
  | Archivo _ b => b
  | _ => false
  end.

(** The [for archivo in ruta_base.iterdir()] loop: the counter and the
    children left in the directory. *)
Fixpoint recorrer (entradas : list Entrada) (archivos_eliminados : Z)
    : Z * list Entrada :=
  match entradas with
  | [] => (archivos_eliminados, [])
  | archivo :: resto =>
      if is_file archivo
         && negb (en_lista (suffix (nombre_de archivo)) extensiones_permitidas)
      then
        if unlink archivo then recorrer resto (archivos_eliminados + 1)
        else
          let (n, quedan) := recorrer resto archivos_eliminados in
          (n, archivo :: quedan)
      else
        let (n, quedan) := recorrer resto archivos_eliminados in
        (n, archivo :: quedan)
  end.

Definition ruta_base (s : Sistema) (nombre_volumen : string) : option string :=
  match s with
  | Windows =>
      Some ("\\wsl.localhost\docker-desktop\mnt\docker-desktop-disk\data\docker\volumes\"
              ++ nombre_volumen ++ "\_data")
  | Linux => Some ("/var/lib/docker/volumes/" ++ nombre_volumen ++ "/_data")
  | OtroSistema _ => None
  end.

Definition poner_ruta (f : string -> EstadoRuta) (ruta : string)
    (e : EstadoRuta) : string -> EstadoRuta :=
  fun r => if String.eqb r ruta then e else f r.

(** [limpiar_archivos_temporales] on a file system: the count returned and
    the file system left. *)
Definition limpiar_en (s : Sistema) (f : string -> EstadoRuta)
    (nombre_volumen : string) : Z * (string -> EstadoRuta) :=
  match ruta_base s nombre_volumen with
  | None => (0, f)
  | Some ruta =>
      match f ruta with
      | NoExiste => (0, f)
      | NoEsDirectorio => (0, f)
      | Carpeta entradas =>
          let (n, quedan) := recorrer entradas 0 in
          (n, poner_ruta f ruta (Carpeta quedan))
      end
  end.

(** [_construir_comando_docker] *)
Definition _construir_comando_docker (config : EventoConfig) : list string :=
  [ "docker"; "run"; "-d"; "--restart"; "unless-stopped";
    "--name"; nombre config;
    "-p"; str_de_int (puerto config) ++ ":" ++ str_de_int (puerto config) ++ "/tcp";
    "-p"; str_de_int (puerto config) ++ ":" ++ str_de_int (puerto config) ++ "/udp";
    "-v"; "acestreamengine_" ++ nombre config ++ ":/data";
    "lob666/acestreamengine";
    "--port"; str_de_int (puerto config);
    "--tracker"; tracker config;
    "--stream-source";
    "--name"; nombre config;
    "--title"; titulo config;
    "--publish-dir"; "/data";
    "--cache-dir"; "/data";
    "--skip-internal-tracker";
    "--quality"; "HD";
    "--category"; "amateur";
    "--service-access-token"; token config;
    "--service-remote-access";
    "--log-debug"; "1";
    "--max-peers"; "6";
    "--max-upload-slots"; "6";
    "--source-read-timeout"; "15";
    "--source-reconnect-interval"; "1";
    "--host"; host config;
    "--source"; source config;
    "--bitrate"; str_de_int (bitrate config) ].

(** One row of [csv.DictReader] under the header [campos]: missing values
    are [None]; values beyond the header are kept under no field name and
    are never read. *)
Fixpoint fila_a_evento (campos : list string) (fila : list string) : Evento :=
  match campos with
  | [] => []
  | c :: cs =>
      match fila with
      | [] => (c, None) :: fila_a_evento cs []
      | v :: vs => (c, Some v) :: fila_a_evento cs vs
      end
  end.

Definition fila_vacia (fila : list string) : bool :=
  match fila with [] => true | _ => false end.

(** The rows [csv.DictReader] yields: blank rows are skipped. *)
Definition leer_filas (filas : list (list string)) : list Evento :=
  map (fila_a_evento cabeceras) (filter (fun f => negb (fila_vacia f)) filas).

(** What [csv.writer] puts in a cell: [None] is written empty. *)
Definition celda (v : option string) : string :=
  match v with
  | Some s => s
  | None => ""
  end.

(** The body of the [for evento in eventos] loop of
    [_actualizar_content_id]: the row written for [evento]. *)
Definition fila_actualizada (nombre_buscado : string)
    (content_id : option string) (evento : Evento) : list string :=
  let evento :=
    if igual_a (dict_get evento "name" None) nombre_buscado
    then dict_poner evento "content_id" content_id
    else evento in
  map (fun campo => celda (dict_get evento campo (Some ""))) cabeceras.

(** [int(v)] for [v] a [str] or [None]. *)
Definition py_int (v : option string) : Res Z :=
  match v with
  | None => Lanza TypeError
  | Some s =>
      match int_de_str s with
      | Some n => Ok n
      | None => Lanza (ValueError (literal_invalido s))
      end
  end.

Definition y_luego {A B : Type} (r : Res A) (k : A -> Res B) : Res B :=
  match r with
  | Ok a => k a
  | Lanza e => Lanza e
  end.

(** The construction of [EventoConfig] in [crear_desde_csv], arguments
    evaluated in order.  A [None] among the [str] fields is turned into a
    [TypeError] here; no row of the file reaches that case
    (see [construir_config_fila]). *)
Definition construir_config (evento : Evento) : Res EventoConfig :=
  y_luego (dict_indice evento "name") (fun v_nombre =>
  y_luego (dict_indice evento "title") (fun v_titulo =>
  y_luego (dict_indice evento "port") (fun v_puerto =>
  y_luego (py_int v_puerto) (fun n_puerto =>
  y_luego (dict_indice evento "tracker") (fun v_tracker =>
  y_luego (dict_indice evento "source") (fun v_source =>
  y_luego (dict_indice evento "host") (fun v_host =>
  y_luego (dict_indice evento "bitrate") (fun v_bitrate =>
  y_luego (py_int v_bitrate) (fun n_bitrate =>
  y_luego (dict_indice evento "service_access_token") (fun v_token =>
  match v_nombre, v_titulo, v_tracker, v_source, v_host, v_token with
  | Some a, Some b, Some c, Some d, Some e, Some f =>
      Ok {| nombre := a; titulo := b; puerto := n_puerto; tracker := c;
            source := d; host := e; bitrate := n_bitrate; token := f |}
  | _, _, _, _, _, _ => Lanza TypeError
  end)))))))))).

(** [eventos[idx]] for an index already checked to be in range. *)
Definition nth_evento (eventos : list Evento) (idx : Z) : option Evento :=
  nth_error eventos (Z.to_nat idx).

Section Programa.

(** [ipaddress.ip_address(ip)] of the Python library: whether it accepts
    [ip]. *)
Variable ip_address : string -> bool.

Variable env : Entorno.

Open Scope m_scope.

Definition _es_ip_valida (ip : string) : bool := ip_address ip.

Definition _es_dominio_valido (dominio : string) : bool :=
  re_match patron_dominio dominio.

(** [EventoConfig.validar] *)
Definition validar (self : EventoConfig) : list string :=
  let errores : list string := [] in
  let errores :=
    if negb (no_vacia (nombre self)) || negb (re_match patron_nombre (nombre self))
    then (errores ++ [err_nombre])%list else errores in
  let errores :=
    if negb ((1024 <=? puerto self) && (puerto self <=? 65535))
    then (errores ++ [err_puerto])%list else errores in
  let errores :=
    if negb (_es_ip_valida (host self)) && negb (_es_dominio_valido (host self))
    then (errores ++ [err_host])%list else errores in
  let errores :=
    if negb ((0 <=? bitrate self) && (bitrate self <=? 10000000))
    then (errores ++ [err_bitrate])%list else errores in
  let errores :=
    if negb (no_vacia (strip (titulo self)))
    then (errores ++ [err_titulo])%list else errores in
  let errores :=
    if negb (no_vacia (strip (source self)))
    then (errores ++ [err_source])%list else errores in
  errores.


(** [subprocess.run(args, check=True, capture_output=True, text=True)]:
    the captured standard output. *)
Definition subprocess_run (args : list string) : M string :=
  fun m =>
    (anotar (Subproceso args) m,
     match subproceso env (traza m) args with
     | Salida out => Ok out
     | Fallo err => Lanza (CalledProcessError err)
     end).

(** [requests.get(url, timeout=10)] *)
Definition requests_get (url : string) : M Response :=
  fun m =>
    (anotar (HttpGet url) m,
     match http env (traza m) url with
     | Recibida r => Ok r
     | FalloTransporte => Lanza RequestException
     end).

(** [time.sleep(segundos)] *)
Definition sleep (segundos : Z) : M unit :=
  fun m => (anotar (Dormir segundos) m, Ok tt).

(** [response.json()] *)
Definition json (response : Response) : M Json :=
  match cuerpo response with
  | Some j => ret j
  | None => lanzar (ValueError "JSONDecodeError")
  end.

(** [monitor_data.get(k)] *)
Definition json_get (monitor_data : Json) (k : string) : M (option string) :=
  match monitor_data with
  | JObjeto d => ret (dict_get d k None)
  | JNoObjeto => lanzar AttributeError
  end.

Definition url_monitor (puerto : Z) : string :=
  "http://localhost:" ++ str_de_int puerto ++ "/app/" ++ str_de_int puerto
    ++ "/monitor".

(** One pass of the [for intento in range(intentos)] loop of
    [obtener_monitor], up to its [return] or to the end of the [try]:
    [Some] is the value returned. *)
Definition intento_monitor (puerto : Z) : M (option Dict) :=
  atrapar es_RequestException
    (response <- requests_get (url_monitor puerto) ;;
     if status_code response =? 200 then
       atrapar es_ValueError
         (monitor_data <- json response ;;
          content_id <- json_get monitor_data "content_id" ;;
          download_hash <- json_get monitor_data "download_hash" ;;
          if verdadero content_id && negb (igual_a content_id no_encontrado)
          then ret (Some [("content_id", content_id);
                          ("download_hash", download_hash)])
          else ret None)
         (fun _ => ret None)
     else ret None)
    (fun _ => ret None).

Fixpoint bucle_monitor (puerto : Z) (restantes : nat) : M Dict :=
  match restantes with
  | O => lanzar (RuntimeError msg_agotado)
  | S k =>
      r <- intento_monitor puerto ;;
      match r with
      | Some info => ret info
      | None => sleep 5 ;; bucle_monitor puerto k
      end
  end.

(** [obtener_monitor] *)
Definition obtener_monitor (contenedor_id : string) (puerto : Z)
    (intentos : Z) : M Dict :=
  sleep 15 ;;
  bucle_monitor puerto (Z.to_nat intentos).

(** [_leer_eventos_csv] *)
Definition _leer_eventos_csv : M (list Evento) :=
  fun m => (anotar CsvLeer m, Ok (leer_filas (csv m))).

(** [_guardar_evento] *)
Definition _guardar_evento (evento : list string) : M unit :=
  fun m =>
    if Nat.eqb (length evento) (length cabeceras) then
      ({| csv := (csv m ++ [evento])%list; fs := fs m;
          traza := CsvAnexar evento :: traza m |}, Ok tt)
    else
      (m, Lanza (ValueError
                   ("Número incorrecto de campos: esperado "
                      ++ str_de_int (Z.of_nat (length cabeceras))
                      ++ ", recibido "
                      ++ str_de_int (Z.of_nat (length evento)))))%string.

(** The file being rewritten: the header, then one row per event read. *)
Definition escribir_csv (filas : list (list string)) : M unit :=
  fun m =>
    ({| csv := filas; fs := fs m; traza := CsvEscribir filas :: traza m |},
     Ok tt).

(** [_actualizar_content_id] *)
Definition _actualizar_content_id (nombre_buscado : string)
    (content_id : option string) : M unit :=
  eventos <- _leer_eventos_csv ;;
  escribir_csv (map (fila_actualizada nombre_buscado content_id) eventos).

(** [limpiar_archivos_temporales] *)
Definition limpiar_archivos_temporales (nombre_volumen : string) : M Z :=
  fun m =>
    let (n, f) := limpiar_en (sistema env) (fs m) nombre_volumen in
    ({| csv := csv m; fs := f; traza := traza m |}, Ok n).

(** [parar_contenedor] *)
Definition parar_contenedor (contenedor_id : string) : M unit :=
  atrapar es_CalledProcessError
    (subprocess_run ["docker"; "stop"; contenedor_id] ;; ret tt)
    (fun e =>
       match e with
       | CalledProcessError err =>
           lanzar (RuntimeError ("Error al detener contenedor: " ++ err))
       | _ => lanzar e
       end).

(** [borrar_contenedor] *)
Definition borrar_contenedor (contenedor_id : string) : M unit :=
  atrapar es_CalledProcessError
    (subprocess_run ["docker"; "rm"; contenedor_id] ;; ret tt)
    (fun e =>
       match e with
       | CalledProcessError err =>
           lanzar (RuntimeError ("Error al eliminar contenedor: " ++ err))
       | _ => lanzar e
       end).

(** [verificar_y_limpiar_contenedor]; both handlers of the source log and
    raise again. *)
Definition verificar_y_limpiar_contenedor (nombre_evento : string) : M unit :=
  resultado <-
    subprocess_run ["docker"; "ps"; "-a"; "--filter";
                    "name=^" ++ nombre_evento ++ "$"; "--format"; "{{.ID}}"] ;;
  if no_vacia (strip resultado) then
    let contenedor_id := strip resultado in
    parar_contenedor contenedor_id ;;
    borrar_contenedor contenedor_id
  else ret tt.

(** [ejecutar_docker] *)
Definition ejecutar_docker (config : EventoConfig) : M unit :=
  let comando := _construir_comando_docker config in
  atrapar es_CalledProcessError
    (subprocess_run comando ;; ret tt)
    (fun e =>
       match e with
       | CalledProcessError err =>
           lanzar (RuntimeError ("Error al iniciar Docker: " ++ err))
       | _ => lanzar e
       end).

(** The arguments of the lookup of the running container. *)
Definition docker_ps (config : EventoConfig) : list string :=
  ["docker"; "ps"; "--filter"; "name=^" ++ nombre config ++ "$"; "--format";
   "{{.ID}}"].

(** The steps of the per-record cycle of [crear_desde_csv] from the
    eviction of a stale container to the settle delay. *)
Definition lanzar_contenedor (config : EventoConfig) : M unit :=
  verificar_y_limpiar_contenedor (nombre config) ;;
  let nombre_volumen := ("acestreamengine_" ++ nombre config)%string in
  archivos_eliminados <- limpiar_archivos_temporales nombre_volumen ;;
  ejecutar_docker config ;;
  sleep 10.

(** The inner [try] of [crear_desde_csv]: container id, poll, commit. *)
Definition resolver_content_id (config : EventoConfig) : M Desenlace :=
  atrapar es_Exception
    (resultado <- subprocess_run (docker_ps config) ;;
     let contenedor_id := strip resultado in
     info <- obtener_monitor contenedor_id (puerto config) 10 ;;
     let content_id := dict_get info "content_id" (Some no_encontrado) in
     _actualizar_content_id (nombre config) content_id ;;
     ret (ContentIdGuardado content_id))
    (fun e => ret (ErrorAlObtenerContentId e)).

(** The outer [try] of [crear_desde_csv] for one event. *)
Definition procesar_evento (evento : Evento) : M Desenlace :=
  atrapar es_Exception
    (match construir_config evento with
     | Lanza e => lanzar e
     | Ok config =>
         match validar config with
         | (_ :: _) as errores => ret (ErroresDeValidacion errores)
         | [] =>
             lanzar_contenedor config ;;
             resolver_content_id config
         end
     end)
    (fun e => ret (ErrorAlProcesar e)).

(** The [for idx in indices] loop of [crear_desde_csv]. *)
Fixpoint bucle_indices (eventos : list Evento) (indices : list Z) : M unit :=
  match indices with
  | [] => ret tt
  | idx :: resto =>
      if (0 <=? idx) && (idx <? Z.of_nat (length eventos)) then
        match nth_evento eventos idx with
        | Some evento =>
            procesar_evento evento ;; bucle_indices eventos resto
        | None => lanzar IndexError
        end
      else
        lanzar (ValueError ("Índice " ++ str_de_int (idx + 1) ++ " fuera de rango"))
  end.

(** [crear_desde_csv] *)
Definition crear_desde_csv (indices : list Z) : M unit :=
  eventos <- _leer_eventos_csv ;;
  bucle_indices eventos indices.

Close Scope m_scope.

End Programa.

(** ** The menu *)

(** The lines typed in answer to the eight prompts of
    [solicitar_datos_evento]. *)
Record Respuestas : Type := {
  r_nombre : string;
  r_titulo : string;
  r_puerto : string;
  r_tracker : string;
  r_source : string;
  r_host : string;
  r_bitrate : string;
  r_token : string
}.

(** [s or defecto] *)
Definition o_bien (s defecto : string) : string :=
  if no_vacia s then s else defecto.

Definition tracker_por_defecto : string :=
  "udp://tracker.opentrackr.org:1337/announce".

(** [solicitar_datos_evento], as a function of the answers; the arguments of
    [EventoConfig] are evaluated in order, so that a port that is not an
    integer raises before the later prompts. *)
Definition solicitar_datos_evento (r : Respuestas) : Res EventoConfig :=
  let v_nombre := strip (r_nombre r) in
  let v_titulo := strip (r_titulo r) in
  y_luego (py_int (Some (o_bien (strip (r_puerto r)) "8642"))) (fun v_puerto =>
  let v_tracker := o_bien (strip (r_tracker r)) tracker_por_defecto in
  let v_source := strip (r_source r) in
  let v_host := strip (r_host r) in
  y_luego (py_int (Some (o_bien (strip (r_bitrate r)) "697587"))) (fun v_bitrate =>
  let v_token := o_bien (strip (r_token r)) "12345" in
  Ok {| nombre := v_nombre; titulo := v_titulo; puerto := v_puerto;
        tracker := v_tracker; source := v_source; host := v_host;
        bitrate := v_bitrate; token := v_token |})).

(** The row [main] hands to [_guardar_evento] for a new event. *)
Definition fila_nueva (config : EventoConfig) : list string :=
  [nombre config; titulo config; str_de_int (puerto config); token config;
   tracker config; source config; host config; str_de_int (bitrate config);
   ""].

(** [s.split(',')] *)
Fixpoint partir (l : list ascii) : list (list ascii) :=
  match l with
  | [] => [[]]
  | c :: l' =>
      if es_caracter 44 c then [] :: partir l'
      else
        match partir l' with
        | x :: xs => (c :: x) :: xs
        | [] => [[c]]
        end
  end.

Definition split_comas (s : string) : list string :=
  map string_of_list_ascii (partir (list_ascii_of_string s)).

(** [[int(idx.strip()) - 1 for idx in trozos]] *)
Fixpoint indices_de (trozos : list string) : Res (list Z) :=
  match trozos with
  | [] => Ok []
  | idx :: resto =>
      y_luego (py_int (Some (strip idx))) (fun n =>
      y_luego (indices_de resto) (fun l => Ok (n - 1 :: l)))
  end.

(** The branch of menu option 1 that ran. *)
Inductive Alta : Type :=
| DatosIlegibles (e : Excepcion)
| DatosRechazados (errores : list string)
| ErrorAlCrearEvento (e : Excepcion)
| EventoGuardado.

(** The branch of menu option 3 that ran. *)
Inductive Lote : Type :=
| SinEventos
| ErrorAlCrearContenedores (e : Excepcion)
| ContenedoresCreados
| ErrorInesperado (e : Excepcion).

Section Menu.

Variable ip_address : string -> bool.
Variable env : Entorno.

Open Scope m_scope.

(** [mostrar_eventos_csv]: the events read, the listing being printed. *)
Definition mostrar_eventos_csv : M (list Evento) :=
  eventos <- _leer_eventos_csv ;;
  match eventos with
  | [] => ret []
  | _ => ret eventos
  end.

(** One pass of the loop of [main] with option 1 chosen. *)
Definition opcion_crear_evento (r : Respuestas) : M Alta :=
  atrapar es_Exception
    (match solicitar_datos_evento r with
     | Lanza e => lanzar e
     | Ok config =>
         match validar ip_address config with
         | (_ :: _) as errores => ret (DatosRechazados errores)
         | [] =>
             atrapar es_Exception
               (verificar_y_limpiar_contenedor env (nombre config) ;;
                _guardar_evento (fila_nueva config) ;;
                ret EventoGuardado)
               (fun e => ret (ErrorAlCrearEvento e))
         end
     end)
    (fun e => ret (DatosIlegibles e)).

(** One pass of the loop of [main] with option 3 chosen; [entrada] is the
    line typed for the selection, asked for only when there are events. *)
Definition opcion_crear_contenedores (entrada : string) : M Lote :=
  atrapar es_Exception
    (eventos <- mostrar_eventos_csv ;;
     match eventos with
     | [] => ret SinEventos
     | _ =>
         let indices_str := strip entrada in
         atrapar es_Exception
           (match indices_de (split_comas indices_str) with
            | Lanza e => lanzar e
            | Ok indices =>
                crear_desde_csv ip_address env indices ;;
                ret ContenedoresCreados
            end)
           (fun e => ret (ErrorAlCrearContenedores e))
     end)
    (fun e => ret (ErrorInesperado e)).

Close Scope m_scope.

End Menu.

(** ** The file under the store *)

(** The CSV file: absent, or its rows with the header row first. *)
Definition Fichero : Type := option (list (list string)).

(** [_inicializar_csv] *)
Definition _inicializar_csv (f : Fichero) : Fichero :=
  match f with
  | None => Some [cabeceras]
  | Some _ => f
  end.

(** [dict(zip(campos, fila))] *)
Fixpoint dict_de_pares (campos fila : list string) (d : Dict) : Dict :=
  match campos, fila with
  | c :: cs, v :: vs => dict_de_pares cs vs (dict_poner d c (Some v))
  | _, _ => d
  end.

(** A row of [csv.DictReader] under any header: the fields of the header
    beyond the row are set to [None]. *)
Definition evento_de_fila (campos fila : list string) : Evento :=
  fold_left (fun d key => dict_poner d key None)
    (skipn (length fila) campos) (dict_de_pares campos fila []).

(** [_leer_eventos_csv] on the file: [None] when the file is absent and
    [open] raises. *)
Definition leer_fichero (f : Fichero) : option (list Evento) :=
  match f with
  | None => None
  | Some [] => Some []
  | Some (campos :: filas) =>
      Some (map (evento_de_fila campos)
              (filter (fun fila => negb (fila_vacia fila)) filas))
  end.

(** [_guardar_evento] on the file; mode ['a'] creates an absent file. *)
Definition guardar_en_fichero (evento : list string) (f : Fichero)
    : Res Fichero :=
  if Nat.eqb (length evento) (length cabeceras) then
    Ok (Some (match f with
              | None => [evento]
              | Some filas => filas ++ [evento]
              end)%list)
  else
    Lanza (ValueError
             ("Número incorrecto de campos: esperado "
                ++ str_de_int (Z.of_nat (length cabeceras))
                ++ ", recibido "
                ++ str_de_int (Z.of_nat (length evento)))).

(** The [for evento in eventos] loop of [_actualizar_content_id] writing to
    the file opened anew: the rows written, and the [KeyError] of
    [evento['name']] if it is raised. *)
Fixpoint reescribir (nombre_buscado : string) (content_id : option string)
    (eventos : list Evento) : list (list string) * Res unit :=
  match eventos with
  | [] => ([], Ok tt)
  | evento :: resto =>
      match dict_indice evento "name" with
      | Lanza e => ([], Lanza e)
      | Ok v =>
          let evento :=
            if igual_a v nombre_buscado
            then dict_poner evento "content_id" content_id
            else evento in
          let fila :=
            map (fun campo => celda (dict_get evento campo (Some ""))) cabeceras in
          let (filas, r) := reescribir nombre_buscado content_id resto in
          (fila :: filas, r)
      end
  end.

(** [_actualizar_content_id] on the file: [None] when the file is absent. *)
Definition actualizar_fichero (nombre_buscado : string)
    (content_id : option string) (f : Fichero) : option (Fichero * Res unit) :=
  match leer_fichero f with
  | None => None
  | Some eventos =>
      let (filas, r) := reescribir nombre_buscado content_id eventos in
      Some (Some (cabeceras :: filas), r)
  end.

(** ** Vocabulary of the statements *)

(** Requests sent to the status endpoint, and writes to the CSV file, among
    the actions of a trace. *)
Definition es_http (a : Accion) : bool :=
  match a with HttpGet _ => true | _ => false end.
Definition es_escritura (a : Accion) : bool :=
  match a with CsvAnexar _ | CsvEscribir _ => true | _ => false end.
Definition es_subproceso (a : Accion) : bool :=
  match a with Subproceso _ => true | _ => false end.

Definition peticiones (t : list Accion) : nat := length (filter es_http t).
Definition escrituras (t : list Accion) : nat := length (filter es_escritura t).
Definition operaciones (t : list Accion) : nat :=
  length (filter es_subproceso t).

(** The trace after [k] attempts of the poller that failed, from [t]. *)
Fixpoint tras_fallos (url : string) (k : nat) (t : list Accion)
    : list Accion :=
  match k with
  | O => t
  | S j => Dormir 5 :: HttpGet url :: tras_fallos url j t
  end.

(** The trace when the poller makes its attempt number [k] (from 0), the
    earlier ones having failed: [t] is the trace before the call. *)
Definition traza_intento (url : string) (k : nat) (t : list Accion)
    : list Accion :=
  tras_fallos url k (Dormir 15 :: t).

(** The sequence of responses the poller meets from trace [t]. *)
Definition respuesta_n (env : Entorno) (puerto : Z) (t : list Accion)
    (k : nat) : Respuesta :=
  http env (traza_intento (url_monitor puerto) k t) (url_monitor puerto).

(** A response with HTTP 200 and a JSON object whose [content_id] is a
    non-empty string other than the sentinel; [info] is what the poller
    returns for it. *)
Definition utilizable (r : Respuesta) (info : Dict) : Prop :=
  exists d cid,
    r = Recibida {| status_code := 200; cuerpo := Some (JObjeto d) |}
    /\ dict_get d "content_id" None = Some cid
    /\ cid <> "" /\ cid <> no_encontrado
    /\ info = [("content_id", Some cid);
               ("download_hash", dict_get d "download_hash" None)].

(** A response that makes the poller try again: a transport failure, a
    status other than 200, a body that is not JSON, or a JSON object whose
    [content_id] is absent, null, empty or the sentinel. *)
Definition no_lista (r : Respuesta) : Prop :=
  r = FalloTransporte
  \/ exists resp,
       r = Recibida resp
       /\ (status_code resp <> 200
           \/ cuerpo resp = None
           \/ exists d,
                cuerpo resp = Some (JObjeto d)
                /\ (dict_get d "content_id" None = None
                    \/ dict_get d "content_id" None = Some ""
                    \/ dict_get d "content_id" None = Some no_encontrado)).

(** A child the cleanup removes: a regular file whose extension is not
    allowed and whose deletion succeeds. *)
Definition se_elimina (e : Entrada) : bool :=
  match e with
  | Archivo n b => negb (en_lista (suffix n) extensiones_permitidas) && b
  | _ => false
  end.

(** Every field other than the port passes its check. *)
Definition demas_campos_validos (ip_address : string -> bool)
    (c : EventoConfig) : Prop :=
  no_vacia (nombre c) = true
  /\ re_match patron_nombre (nombre c) = true
  /\ (ip_address (host c) = true \/ re_match patron_dominio (host c) = true)
  /\ 0 <= bitrate c <= 10000000
  /\ no_vacia (strip (titulo c)) = true
  /\ no_vacia (strip (source c)) = true.

(** The positions of [_construir_comando_docker] that hold values of the
    record; every other position holds a fixed word. *)
Definition posiciones_de_valores : list nat :=
  [6; 8; 10; 12; 15; 17; 20; 22; 33; 46; 48; 50]%nat.

Fixpoint enmascarar_desde (i : nat) (l : list string) : list (option string) :=
  match l with
  | [] => []
  | x :: l' =>
      (if existsb (Nat.eqb i) posiciones_de_valores then None else Some x)
        :: enmascarar_desde (S i) l'
  end.

(** A command with the values of the record blanked out. *)
Definition enmascarar (l : list string) : list (option string) :=
  enmascarar_desde 0 l.

(** The row of the file with its last column replaced. *)
Definition con_content_id (fila : list string) (c : string) : list string :=
  (firstn 8 fila ++ [c])%list.

(** A row with as many fields as the header, as [_guardar_evento] demands
    of the rows it appends. *)
Definition nueve (fila : list string) : Prop := length fila = 9%nat.

(** What a commit makes of a row: the last column is replaced when the
    first one is the name looked for. *)
Definition actualiza_fila (buscado : string) (content_id : option string)
    (fila : list string) : list string :=
  if igual_a (nth_error fila 0) buscado
  then con_content_id fila (celda content_id)
  else fila.

(** An effectful step that leaves the CSV file alone. *)
Definition conserva {A : Type} (c : M A) : Prop :=
  forall m m' r,
    c m = (m', r) ->
    csv m' = csv m /\ escrituras (traza m') = escrituras (traza m).

(** ** Vocabulary of the further statements *)

(** The words a pattern denotes. *)
Inductive en_lenguaje : regex -> list ascii -> Prop :=
| L_eps : en_lenguaje Eps []
| L_clase (p : ascii -> bool) (c : ascii) :
    p c = true -> en_lenguaje (Clase p) [c]
| L_cat (r s : regex) (l1 l2 : list ascii) :
    en_lenguaje r l1 -> en_lenguaje s l2 -> en_lenguaje (Cat r s) (l1 ++ l2)
| L_alt_izq (r s : regex) (l : list ascii) :
    en_lenguaje r l -> en_lenguaje (Alt r s) l
| L_alt_der (r s : regex) (l : list ascii) :
    en_lenguaje s l -> en_lenguaje (Alt r s) l
| L_estrella_nada (r : regex) : en_lenguaje (Estrella r) []
| L_estrella_mas (r : regex) (l1 l2 : list ascii) :
    en_lenguaje r l1 -> en_lenguaje (Estrella r) l2 ->
    en_lenguaje (Estrella r) (l1 ++ l2).

(** The character classes of the two patterns: [[a-zA-Z0-9_-]] and
    [[a-zA-Z0-9-]]. *)
Definition clase_nombre (c : ascii) : bool :=
  es_alfanumerico c || es_caracter 95 c || es_caracter 45 c.
Definition clase_etiqueta (c : ascii) : bool :=
  es_alfanumerico c || es_caracter 45 c.

Definition salto : ascii := ascii_of_nat 10.
Definition punto : ascii := ascii_of_nat 46.

(** [l] is [l0], or [l0] followed by one newline. *)
Definition salvo_salto_final (l l0 : list ascii) : Prop :=
  l = l0 \/ l = (l0 ++ [salto])%list.

(** A DNS label as the domain pattern has it: 1 to 63 characters, letters,
    digits and hyphens, the first and the last not a hyphen. *)
Definition es_etiqueta (l : list ascii) : Prop :=
  (1 <= length l <= 63)%nat
  /\ Forall (fun c => clase_etiqueta c = true) l
  /\ (exists c, hd_error l = Some c /\ es_alfanumerico c = true)
  /\ (exists d, hd_error (rev l) = Some d /\ es_alfanumerico d = true).

(** Labels joined by dots. *)
Definition unir_etiquetas (e : list ascii) (es : list (list ascii))
    : list ascii :=
  (e ++ concat (map (cons punto) es))%list.

(** The number a run of decimal digits stands for, read from the left with
    [acc] the value of the digits already read. *)
Fixpoint valor_uint (acc : Z) (d : Decimal.uint) : Z :=
  match d with
  | Decimal.Nil => acc
  | Decimal.D0 l => valor_uint (10 * acc + 0) l
  | Decimal.D1 l => valor_uint (10 * acc + 1) l
  | Decimal.D2 l => valor_uint (10 * acc + 2) l
  | Decimal.D3 l => valor_uint (10 * acc + 3) l
  | Decimal.D4 l => valor_uint (10 * acc + 4) l
  | Decimal.D5 l => valor_uint (10 * acc + 5) l
  | Decimal.D6 l => valor_uint (10 * acc + 6) l
  | Decimal.D7 l => valor_uint (10 * acc + 7) l
  | Decimal.D8 l => valor_uint (10 * acc + 8) l
  | Decimal.D9 l => valor_uint (10 * acc + 9) l
  end.

Definition sin_espacios (l : list ascii) : Prop :=
  Forall (fun c => es_espacio c = false) l.

(** The seconds slept along a trace. *)
Fixpoint dormido (t : list Accion) : Z :=
  match t with
  | [] => 0
  | Dormir s :: t' => s + dormido t'
  | _ :: t' => dormido t'
  end.

(** A step that makes at most [h] requests to the endpoint, [w] writes to
    the file and [o] container commands, and sleeps at most [s] seconds. *)
Definition acotado {A : Type} (h w o : nat) (s : Z) (c : M A) : Prop :=
  forall m m' r,
    c m = (m', r) ->
    (peticiones (traza m') <= peticiones (traza m) + h)%nat
    /\ (escrituras (traza m') <= escrituras (traza m) + w)%nat
    /\ (operaciones (traza m') <= operaciones (traza m) + o)%nat
    /\ dormido (traza m') <= dormido (traza m) + s.

(** Row by row, [filas'] has nine fields and the first eight of
    [filas]. *)
Definition solo_content_id (filas filas' : list (list string)) : Prop :=
  Forall2 (fun f f' => nueve f' /\ firstn 8 f' = firstn 8 f) filas filas'.

Definition en_rango (n : nat) (idx : Z) : Prop := 0 <= idx < Z.of_nat n.

(** A file that begins with the header of the program. *)
Definition con_cabecera (f : Fichero) : Prop :=
  exists filas, f = Some (cabeceras :: filas).

(** A file name the cleanup spares: a non-empty stem followed by one of the
    allowed extensions. *)
Definition nombre_protegido (n : string) : Prop :=
  exists stem ext,
    n = stem ++ ext /\ stem <> "" /\ In ext extensiones_permitidas.



(** What a commit for [buscado] writes for a row of the file, cell by cell:
    the cell of the row at each of the nine columns, empty where the row is
    shorter, and the committed value in the last column when the first
    cell is the name. *)
Definition fila_normalizada (buscado : string) (content_id : option string)
    (fila fila' : list string) : Prop :=
  length fila' = 9%nat
  /\ forall j,
       (j < 9)%nat ->
       nth j fila' "" =
         if (Nat.eqb j 8 && igual_a (nth_error fila 0) buscado)%bool
         then celda content_id
         else nth j fila "".


(** The response with status 200 and a JSON body that is not an object. *)
Definition respuesta_no_objeto : Respuesta :=
  Recibida {| status_code := 200; cuerpo := Some JNoObjeto |}.



(** ** Concrete worlds *)

Definition ip_ninguna : string -> bool := fun _ => false.

Definition config_demo : EventoConfig :=
  {| nombre := "demo"; titulo := "Canal demo"; puerto := 8642;
     tracker := "udp://tracker.opentrackr.org:1337/announce";
     source := "http://10.0.0.9/stream.ts"; host := "10.0.0.5";
     bitrate := 600000; token := "12345" |}.

Definition fila_de (c : EventoConfig) (content_id : string) : list string :=
  [nombre c; titulo c; str_de_int (puerto c); token c; tracker c; source c;
   host c; str_de_int (bitrate c); content_id].

Definition fila_demo : list string := fila_de config_demo "".

Definition sin_volumenes : string -> EstadoRuta := fun _ => NoExiste.

Definition mundo_demo : Mundo :=
  {| csv := [fila_demo]; fs := sin_volumenes; traza := [] |}.

(** No container exists beforehand; every command succeeds; the lookup of
    the running container prints its id. *)
Definition docker_demo (t : list Accion) (args : list string) : SalidaCmd :=
  match args with
  | "docker" :: "ps" :: "--filter" :: _ => Salida "c0ffee
"
  | _ => Salida ""
  end.

Definition objeto_con (content_id : string) : Respuesta :=
  Recibida {| status_code := 200;
              cuerpo := Some (JObjeto [("content_id", Some content_id)]) |}.

(** The endpoint is not up for two requests; the third one answers. *)
Definition http_tercero (t : list Accion) (url : string) : Respuesta :=
  if Nat.eqb (peticiones t) 2 then objeto_con "abc123" else FalloTransporte.

Definition env_demo : Entorno :=
  {| sistema := Linux; subproceso := docker_demo; http := http_tercero |}.

(** The endpoint never answers. *)
Definition env_mudo : Entorno :=
  {| sistema := Linux; subproceso := docker_demo;
     http := fun _ _ => FalloTransporte |}.

(** The endpoint always answers with an empty [content_id]. *)
Definition env_vacio : Entorno :=
  {| sistema := Linux; subproceso := docker_demo;
     http := fun _ _ => objeto_con "" |}.

(** The endpoint answers with JSON that is not an object. *)
Definition env_lista : Entorno :=
  {| sistema := Linux; subproceso := docker_demo;
     http := fun _ _ => Recibida {| status_code := 200;
                                    cuerpo := Some JNoObjeto |} |}.

Definition volumen_demo : list Entrada :=
  [Archivo "a.acelive" true; Archivo "b.sauth" true; Archivo "c.tmp" true].

Definition fs_demo : string -> EstadoRuta :=
  poner_ruta sin_volumenes "/var/lib/docker/volumes/acestreamengine_demo/_data"
    (Carpeta volumen_demo).


Definition evento_demo : Evento := fila_a_evento cabeceras fila_demo.

(** The worlds the cycle of the demo record goes through when the endpoint
    never answers: after the launch, after the lookup of the container,
    after the poll. *)
Definition mundo_lanzado : Mundo :=
  fst (lanzar_contenedor env_mudo config_demo mundo_demo).
Definition mundo_resuelto : Mundo :=
  fst (subprocess_run env_mudo (docker_ps config_demo) mundo_lanzado).
Definition mundo_agotado : Mundo :=
  fst (obtener_monitor env_mudo "c0ffee" 8642 10 mundo_resuelto).

(** A store that already holds the demo record twice. *)
Definition mundo_repetido : Mundo :=
  {| csv := [fila_demo; fila_de config_demo "viejo"]; fs := sin_volumenes;
     traza := [] |}.

(** A store edited by hand: after the demo row, a row of another name with
    a tenth field, and a row of a third name with two fields only. *)
Definition fila_larga : list string :=
  ["otro"; "Canal dos"; "8643"; "12345"; "udp://t"; "http://s"; "10.0.0.6";
   "600000"; "viejo"; "nota"].

Definition fila_corta : list string := ["tercero"; "Canal tres"].

Definition mundo_editado : Mundo :=
  {| csv := [fila_demo; fila_larga; fila_corta]; fs := sin_volumenes;
     traza := [] |}.

(** * Properties *)

(** ** Record validation *)

Lemma en_rango_sii (lo hi x : Z) :
  (lo <=? x) && (x <=? hi) = true <-> lo <= x <= hi.
Proof.
  rewrite andb_true_iff, !Z.leb_le. tauto.
Qed.

Lemma en_rango_sii_estricto (hi x : Z) :
  (0 <=? x) && (x <? hi) = true <-> 0 <= x < hi.
Proof.
  rewrite andb_true_iff, Z.leb_le, Z.ltb_lt. tauto.
Qed.

Lemma mensajes_distintos :
  err_nombre <> err_puerto /\ err_host <> err_puerto
  /\ err_bitrate <> err_puerto /\ err_titulo <> err_puerto
  /\ err_source <> err_puerto.
Proof.
  repeat split; discriminate.
Qed.

(** The port violation is reported exactly when the port is out of range,
    whatever the other fields are. *)
Lemma violacion_de_puerto_sii (ip : string -> bool) (c : EventoConfig) :
  In err_puerto (validar ip c) <-> ~ (1024 <= puerto c <= 65535).
Proof.
  destruct mensajes_distintos as (Hn & Hh & Hb & Ht & Hs).
  rewrite <- en_rango_sii. unfold validar.
  destruct (negb (no_vacia (nombre c)) || negb (re_match patron_nombre (nombre c)));
    destruct ((1024 <=? puerto c) && (puerto c <=? 65535));
    destruct (negb (_es_ip_valida ip (host c)) && negb (_es_dominio_valido (host c)));
    destruct (negb ((0 <=? bitrate c) && (bitrate c <=? 10000000)));
    destruct (negb (no_vacia (strip (titulo c))));
    destruct (negb (no_vacia (strip (source c))));
    simpl; intuition congruence.
Qed.

Lemma validar_demas_validos (ip : string -> bool) (c : EventoConfig) :
  demas_campos_validos ip c ->
  validar ip c =
    if (1024 <=? puerto c) && (puerto c <=? 65535) then [] else [err_puerto].
Proof.
  intros (Hn1 & Hn2 & Hh & Hb & Ht & Hs).
  apply en_rango_sii in Hb.
  unfold validar, _es_ip_valida, _es_dominio_valido.
  rewrite Hn1, Hn2, Hb, Ht, Hs. simpl.
  assert (Hhost : negb (ip (host c)) && negb (re_match patron_dominio (host c)) = false).
  { destruct Hh as [H | H]; rewrite H; simpl; auto using andb_false_r. }
  rewrite Hhost.
  destruct ((1024 <=? puerto c) && (puerto c <=? 65535)); reflexivity.
Qed.

(** C5.  For a record whose other fields are valid, [validar] reports the
    port violation, and so rejects the record, exactly when the port is
    outside [1024, 65535]; inside that range the list of violations is
    empty.  In particular port 80 is rejected and port 8642 is accepted. *)
Theorem validar_puerto (ip : string -> bool) (c : EventoConfig) :
  demas_campos_validos ip c ->
  (In err_puerto (validar ip c) <-> ~ (1024 <= puerto c <= 65535))
  /\ (~ (1024 <= puerto c <= 65535) -> validar ip c = [err_puerto])
  /\ (1024 <= puerto c <= 65535 -> validar ip c = [])
  /\ (puerto c = 80 -> validar ip c = [err_puerto])
  /\ (puerto c = 8642 -> validar ip c = []).
Proof.
  intros Hv. pose proof (validar_demas_validos ip c Hv) as E.
  split; [apply violacion_de_puerto_sii|].
  destruct ((1024 <=? puerto c) && (puerto c <=? 65535)) eqn:R.
  - apply en_rango_sii in R. repeat split; intros; try assumption; lia.
  - assert (~ (1024 <= puerto c <= 65535)) as N.
    { rewrite <- en_rango_sii, R. discriminate. }
    repeat split; intros; try assumption; lia.
Qed.

Lemma construir_config_nueve (n t p tk tr s h b cid : string) :
  construir_config (fila_a_evento cabeceras [n; t; p; tk; tr; s; h; b; cid]) =
    match int_de_str p, int_de_str b with
    | Some zp, Some zb =>
        Ok {| nombre := n; titulo := t; puerto := zp; tracker := tr;
              source := s; host := h; bitrate := zb; token := tk |}
    | None, _ => Lanza (ValueError (literal_invalido p))
    | Some _, None => Lanza (ValueError (literal_invalido b))
    end.
Proof.
  unfold construir_config. simpl. unfold py_int.
  destruct (int_de_str p); simpl; [|reflexivity].
  destruct (int_de_str b); reflexivity.
Qed.

(** The [TypeError] that [construir_config] raises for a [None] among the
    [str] fields is not reached from a row of the file: a row that has its
    bitrate column has all the columns before it. *)
Lemma construir_config_fila (fila : list string) :
  (8 <= length fila)%nat ->
  construir_config (fila_a_evento cabeceras fila) <> Lanza TypeError.
Proof.
  intros Hl.
  destruct fila as [|n [|t [|p [|tk [|tr [|s [|h [|b resto]]]]]]]];
    simpl in Hl; try lia.
  unfold construir_config. simpl. unfold py_int.
  destruct (int_de_str p); simpl; [|discriminate].
  destruct (int_de_str b); simpl; [|discriminate].
  destruct resto; discriminate.
Qed.


(** ** Launch command *)

(** C7.  For any two records the command has the same length, 51 words, and
    the same fixed words at the same positions; the remaining positions hold
    the values of the record, and equal field values give equal commands. *)
Theorem comando_estable (c1 c2 : EventoConfig) :
  length (_construir_comando_docker c1) = 51%nat
  /\ length (_construir_comando_docker c1) = length (_construir_comando_docker c2)
  /\ enmascarar (_construir_comando_docker c1)
       = enmascarar (_construir_comando_docker c2)
  /\ map (fun i => nth i (_construir_comando_docker c1) "") posiciones_de_valores
       = [nombre c1;
          str_de_int (puerto c1) ++ ":" ++ str_de_int (puerto c1) ++ "/tcp";
          str_de_int (puerto c1) ++ ":" ++ str_de_int (puerto c1) ++ "/udp";
          "acestreamengine_" ++ nombre c1 ++ ":/data";
          str_de_int (puerto c1); tracker c1; nombre c1; titulo c1; token c1;
          host c1; source c1; str_de_int (bitrate c1)]
  /\ (forall i w, nth_error (enmascarar (_construir_comando_docker c1)) i = Some (Some w) ->
        nth_error (_construir_comando_docker c2) i = Some w)
  /\ (nombre c1 = nombre c2 -> titulo c1 = titulo c2 -> puerto c1 = puerto c2 ->
      tracker c1 = tracker c2 -> source c1 = source c2 -> host c1 = host c2 ->
      bitrate c1 = bitrate c2 -> token c1 = token c2 ->
      _construir_comando_docker c1 = _construir_comando_docker c2).
Proof.
  repeat split; try reflexivity.
  - intros i w H.
    do 51 (destruct i as [|i]; [simpl in H; try discriminate; injection H as <-; reflexivity|]).
    destruct i; discriminate.
  - intros H1 H2 H3 H4 H5 H6 H7 H8. unfold _construir_comando_docker.
    rewrite H1, H2, H3, H4, H5, H6, H7, H8. reflexivity.
Qed.

(** ** Volume cleanup *)

Lemma recorrer_filtra (entradas : list Entrada) (acc : Z) :
  recorrer entradas acc =
    (acc + Z.of_nat (length (filter se_elimina entradas)),
     filter (fun e => negb (se_elimina e)) entradas).
Proof.
  revert acc. induction entradas as [|e es IH]; intros acc.
  - simpl. f_equal. lia.
  - cbn [recorrer filter].
    destruct e as [n b | n hijos | n]; cbn [is_file nombre_de unlink se_elimina andb negb].
    + destruct (en_lista (suffix n) extensiones_permitidas); simpl.
      * rewrite IH. reflexivity.
      * destruct b; simpl; rewrite IH; [f_equal; simpl length; lia | reflexivity].
    + rewrite IH. reflexivity.
    + rewrite IH. reflexivity.
Qed.

Lemma longitud_filtros {A : Type} (p : A -> bool) (l : list A) :
  (length (filter p l) + length (filter (fun x => negb (p x)) l) = length l)%nat.
Proof.
  induction l as [|x l IH]; simpl; [reflexivity|].
  destruct (p x); simpl; lia.
Qed.

(** C8.  On an unsupported platform, or when the path behind the volume
    does not exist or is not a directory, the cleanup returns 0 and leaves
    the file system as it was.  Otherwise it removes from the directory
    exactly the regular files whose extension is not allowed and whose
    deletion succeeds, and returns their number: directories (with all they
    hold), allowed files and files whose deletion fails stay, and no other
    path changes.  A volume with [a.acelive], [b.sauth] and [c.tmp] loses
    [c.tmp] alone and the count is 1. *)
Theorem limpieza_de_volumen (s : Sistema) (f : string -> EstadoRuta)
    (nombre_volumen : string) :
  match ruta_base s nombre_volumen with
  | None => limpiar_en s f nombre_volumen = (0, f)
  | Some ruta =>
      match f ruta with
      | NoExiste => limpiar_en s f nombre_volumen = (0, f)
      | NoEsDirectorio => limpiar_en s f nombre_volumen = (0, f)
      | Carpeta entradas =>
          exists quedan,
            limpiar_en s f nombre_volumen =
              (Z.of_nat (length (filter se_elimina entradas)),
               poner_ruta f ruta (Carpeta quedan))
            /\ quedan = filter (fun e => negb (se_elimina e)) entradas
            /\ (length (filter se_elimina entradas)
                = length entradas - length quedan)%nat
            /\ (forall e, In e quedan <-> In e entradas /\ se_elimina e = false)
            /\ (forall n hijos,
                  In (Directorio n hijos) entradas ->
                  In (Directorio n hijos) quedan)
            /\ (forall n b,
                  In (Archivo n b) entradas ->
                  en_lista (suffix n) extensiones_permitidas = true ->
                  In (Archivo n b) quedan)
            /\ (forall n,
                  In (Archivo n false) entradas -> In (Archivo n false) quedan)
            /\ (forall n,
                  en_lista (suffix n) extensiones_permitidas = false ->
                  ~ In (Archivo n true) quedan)
            /\ (forall r,
                  r <> ruta ->
                  snd (limpiar_en s f nombre_volumen) r = f r)
      end
  end
  /\ limpiar_en Linux fs_demo "acestreamengine_demo" =
       (1, poner_ruta fs_demo
             "/var/lib/docker/volumes/acestreamengine_demo/_data"
             (Carpeta [Archivo "a.acelive" true; Archivo "b.sauth" true])).
Proof.
  split; [|reflexivity].
  unfold limpiar_en.
  destruct (ruta_base s nombre_volumen) as [ruta|]; [|reflexivity].
  destruct (f ruta) as [| |entradas]; try reflexivity.
  rewrite recorrer_filtra.
  exists (filter (fun e => negb (se_elimina e)) entradas).
  assert (Hin : forall e,
             In e (filter (fun e => negb (se_elimina e)) entradas)
             <-> In e entradas /\ se_elimina e = false).
  { intros e. rewrite filter_In, negb_true_iff. tauto. }
  split; [reflexivity|]. split; [reflexivity|].
  split; [pose proof (longitud_filtros se_elimina entradas); lia|].
  split; [exact Hin|].
  split; [intros n hijos H; apply Hin; split; [exact H | reflexivity]|].
  split.
  { intros n b H Hs. apply Hin. split; [exact H|]. unfold se_elimina.
    rewrite Hs. reflexivity. }
  split.
  { intros n H. apply Hin. split; [exact H|]. unfold se_elimina.
    apply andb_false_r. }
  split.
  { intros n Hs H. apply Hin in H. destruct H as [_ H]. unfold se_elimina in H.
    rewrite Hs in H. discriminate. }
  intros r Hr. simpl. unfold poner_ruta.
  destruct (String.eqb_spec r ruta); [contradiction | reflexivity].
Qed.

(** ** The CSV store *)

Lemma fila_actualizada_nueve (buscado : string) (content_id : option string)
    (fila : list string) :
  nueve fila ->
  fila_actualizada buscado content_id (fila_a_evento cabeceras fila) =
    if igual_a (nth_error fila 0) buscado
    then con_content_id fila (celda content_id)
    else fila.
Proof.
  unfold nueve. intros Hl.
  destruct fila as [|n [|t [|p [|tk [|tr [|s [|h [|b [|cid [|x resto]]]]]]]]]];
    simpl in Hl; try lia.
  unfold fila_actualizada. simpl.
  destruct (String.eqb n buscado); reflexivity.
Qed.

Lemma leer_filas_nueve (filas : list (list string)) :
  Forall nueve filas ->
  leer_filas filas = map (fila_a_evento cabeceras) filas.
Proof.
  unfold leer_filas. intros H. f_equal.
  induction H as [|fila filas Hf _ IH]; [reflexivity|].
  simpl. destruct fila; [discriminate Hf|]. simpl. f_equal. exact IH.
Qed.

Lemma actualizar_nueve (buscado : string) (content_id : option string)
    (m : Mundo) :
  Forall nueve (csv m) ->
  _actualizar_content_id buscado content_id m =
    ({| csv := map (actualiza_fila buscado content_id) (csv m);
        fs := fs m;
        traza := CsvEscribir (map (actualiza_fila buscado content_id) (csv m))
                   :: CsvLeer :: traza m |}, Ok tt).
Proof.
  intros H.
  unfold _actualizar_content_id, bind, _leer_eventos_csv, escribir_csv. simpl.
  rewrite (leer_filas_nueve _ H), map_map.
  assert (E : map (fun x => fila_actualizada buscado content_id
                              (fila_a_evento cabeceras x)) (csv m)
              = map (actualiza_fila buscado content_id) (csv m)).
  { apply map_ext_in. intros fila Hin. apply fila_actualizada_nueve.
    rewrite Forall_forall in H. apply H, Hin. }
  rewrite E. reflexivity.
Qed.

Lemma con_content_id_columnas (fila : list string) (c : string) :
  nueve fila ->
  nueve (con_content_id fila c)
  /\ nth_error (con_content_id fila c) 8 = Some c
  /\ forall j, j <> 8%nat ->
       nth_error (con_content_id fila c) j = nth_error fila j.
Proof.
  unfold nueve. intros Hl.
  destruct fila as [|n [|t [|p [|tk [|tr [|s [|h [|b [|cid [|x resto]]]]]]]]]];
    simpl in Hl; try lia.
  repeat split.
  intros j Hj.
  do 8 (destruct j as [|j]; [reflexivity|]).
  destruct j as [|j]; [congruence|]. destruct j; reflexivity.
Qed.

Lemma igual_a_sii (v : option string) (s : string) :
  igual_a v s = true <-> v = Some s.
Proof.
  destruct v as [s'|]; simpl.
  - rewrite String.eqb_eq. split; congruence.
  - split; discriminate.
Qed.

(** What a rewrite makes of any row, of nine fields or not: nine cells, each
    the field of the row at that column, or empty when the row is shorter;
    the last one is the committed value when the name matches.  Fields
    beyond the ninth are not written back. *)
Lemma fila_actualizada_columnas (buscado : string)
    (content_id : option string) (fila : list string) :
  length (fila_actualizada buscado content_id (fila_a_evento cabeceras fila))
    = 9%nat
  /\ forall j,
       (j < 9)%nat ->
       nth j (fila_actualizada buscado content_id
                (fila_a_evento cabeceras fila)) ""
       = if Nat.eqb j 8 && igual_a (nth_error fila 0) buscado
         then celda content_id
         else nth j fila "".
Proof.
  split; [unfold fila_actualizada; rewrite length_map; reflexivity|].
  intros j Hj.
  destruct fila as [|n [|t [|p [|tk [|tr [|s [|h [|b [|cid resto]]]]]]]]];
    unfold fila_actualizada; simpl;
    try destruct (String.eqb n buscado);
    do 9 (destruct j as [|j]; [reflexivity|]); lia.
Qed.

(** Every write of the program leaves rows of nine fields: an append is
    refused otherwise, and a rewrite emits one cell per header column. *)
Lemma esquema_conservado (m : Mundo) :
  (forall evento m',
     Forall nueve (csv m) ->
     _guardar_evento evento m = (m', Ok tt) -> Forall nueve (csv m'))
  /\ (forall buscado content_id,
        Forall nueve (csv (fst (_actualizar_content_id buscado content_id m)))).
Proof.
  split.
  - intros evento m' H. unfold _guardar_evento.
    destruct (Nat.eqb (length evento) (length cabeceras)) eqn:E;
      [|discriminate].
    intros [= <-]. simpl. apply Forall_app. split; [exact H|].
    constructor; [|constructor]. apply Nat.eqb_eq in E. exact E.
  - intros buscado content_id. simpl.
    apply Forall_forall. intros fila Hin.
    apply in_map_iff in Hin. destruct Hin as (ev & <- & _).
    unfold nueve, fila_actualizada. rewrite length_map. reflexivity.
Qed.

(** C3.  On a store whose rows have the nine fields of the header, a commit
    for a name rewrites the store with the same rows in the same order:
    a row with another name is written back as it was, and a row with that
    name differs at most in its last column, [content_id], which holds the
    committed value. *)
Theorem actualizar_solo_content_id (buscado : string)
    (content_id : option string) (m : Mundo) :
  Forall nueve (csv m) ->
  exists m',
    _actualizar_content_id buscado content_id m = (m', Ok tt)
    /\ length (csv m') = length (csv m)
    /\ Forall nueve (csv m')
    /\ forall i fila,
         nth_error (csv m) i = Some fila ->
         exists fila',
           nth_error (csv m') i = Some fila'
           /\ (forall j, j <> 8%nat -> nth_error fila' j = nth_error fila j)
           /\ (nth_error fila 0 <> Some buscado -> fila' = fila)
           /\ (nth_error fila 0 = Some buscado ->
               nth_error fila' 8 = Some (celda content_id)).
Proof.
  intros H. rewrite (actualizar_nueve _ _ _ H).
  eexists. split; [reflexivity|]. simpl.
  split; [apply length_map|].
  split.
  { pose proof (proj2 (esquema_conservado m) buscado content_id) as E.
    rewrite (actualizar_nueve _ _ _ H) in E. exact E. }
  intros i fila Hi.
  assert (Hf : nueve fila).
  { rewrite Forall_forall in H. apply H. eapply nth_error_In, Hi. }
  exists (actualiza_fila buscado content_id fila).
  split; [rewrite nth_error_map, Hi; reflexivity|].
  destruct (con_content_id_columnas fila (celda content_id) Hf) as (_ & H8 & Hj).
  unfold actualiza_fila.
  destruct (igual_a (nth_error fila 0) buscado) eqn:E.
  - apply igual_a_sii in E. repeat split; auto. intros N. contradiction.
  - assert (nth_error fila 0 <> Some buscado) as N.
    { intros C. apply igual_a_sii in C. congruence. }
    repeat split; auto. intros C. contradiction.
Qed.

(** C10.  An append is accepted whatever names the store already holds, the
    field count being the only check; and a commit for a name writes the
    committed value into every row that bears that name. *)
Theorem nombres_repetidos (evento : list string) (n : string)
    (content_id : option string) (m : Mundo) :
  nueve evento ->
  Forall nueve (csv m) ->
  nth_error evento 0 = Some n ->
  exists m1 m2,
    _guardar_evento evento m = (m1, Ok tt)
    /\ csv m1 = (csv m ++ [evento])%list
    /\ _actualizar_content_id n content_id m1 = (m2, Ok tt)
    /\ length (csv m2) = S (length (csv m))
    /\ forall i fila,
         nth_error (csv m1) i = Some fila ->
         nth_error fila 0 = Some n ->
         nth_error (csv m2) i = Some (con_content_id fila (celda content_id)).
Proof.
  intros He Hm Hn.
  assert (G : _guardar_evento evento m =
              ({| csv := (csv m ++ [evento])%list; fs := fs m;
                  traza := CsvAnexar evento :: traza m |}, Ok tt)).
  { unfold _guardar_evento. unfold nueve in He. rewrite He. reflexivity. }
  assert (H1 : Forall nueve (csv m ++ [evento])%list).
  { apply Forall_app. split; [exact Hm | repeat constructor; exact He]. }
  eexists. eexists. split; [exact G|]. simpl.
  split; [reflexivity|].
  split; [apply actualizar_nueve; exact H1|]. simpl.
  split; [rewrite length_map, length_app; simpl; lia|].
  intros i fila Hi Hf.
  rewrite nth_error_map, Hi. cbn [option_map]. unfold actualiza_fila.
  assert (E : igual_a (nth_error fila 0) n = true)
    by (apply igual_a_sii; exact Hf).
  rewrite E. reflexivity.
Qed.

(** ** Steps that leave the CSV file alone *)

Create HintDb conserva.

Lemma conserva_ret {A : Type} (a : A) : conserva (ret a).
Proof. intros m m' r [= <- _]. auto. Qed.

Lemma conserva_lanzar {A : Type} (e : Excepcion) : conserva (@lanzar A e).
Proof. intros m m' r [= <- _]. auto. Qed.

Lemma conserva_bind {A B : Type} (c : M A) (k : A -> M B) :
  conserva c -> (forall a, conserva (k a)) -> conserva (bind c k).
Proof.
  intros Hc Hk m m' r. unfold bind.
  destruct (c m) as [m1 [a|e]] eqn:E; intros H.
  - destruct (Hc _ _ _ E) as [C1 C2]. destruct (Hk a _ _ _ H) as [K1 K2].
    split; congruence.
  - injection H as <- _. exact (Hc _ _ _ E).
Qed.

Lemma conserva_atrapar {A : Type} (clase : Excepcion -> bool) (c : M A)
    (h : Excepcion -> M A) :
  conserva c -> (forall e, conserva (h e)) -> conserva (atrapar clase c h).
Proof.
  intros Hc Hh m m' r. unfold atrapar.
  destruct (c m) as [m1 [a|e]] eqn:E; intros H.
  - injection H as <- _. exact (Hc _ _ _ E).
  - destruct (Hc _ _ _ E) as [C1 C2]. destruct (clase e).
    + destruct (Hh e _ _ _ H) as [K1 K2]. split; congruence.
    + injection H as <- _. auto.
Qed.

Lemma conserva_subprocess_run (env : Entorno) (args : list string) :
  conserva (subprocess_run env args).
Proof. intros m m' r [= <- _]. auto. Qed.

Lemma conserva_requests_get (env : Entorno) (url : string) :
  conserva (requests_get env url).
Proof. intros m m' r [= <- _]. auto. Qed.

Lemma conserva_sleep (segundos : Z) : conserva (sleep segundos).
Proof. intros m m' r [= <- _]. auto. Qed.

Lemma conserva_json (response : Response) : conserva (json response).
Proof.
  unfold json. destruct (cuerpo response);
    [apply conserva_ret | apply conserva_lanzar].
Qed.

Lemma conserva_json_get (j : Json) (k : string) : conserva (json_get j k).
Proof.
  destruct j; [apply conserva_ret | apply conserva_lanzar].
Qed.

Lemma conserva_limpiar (env : Entorno) (nombre_volumen : string) :
  conserva (limpiar_archivos_temporales env nombre_volumen).
Proof.
  intros m m' r. unfold limpiar_archivos_temporales.
  destruct (limpiar_en (sistema env) (fs m) nombre_volumen).
  intros [= <- _]. auto.
Qed.

#[local] Hint Resolve conserva_ret conserva_lanzar conserva_subprocess_run
  conserva_requests_get conserva_sleep conserva_json conserva_json_get
  conserva_limpiar : conserva.

Ltac paso_conserva :=
  first
    [ apply conserva_bind; [|intros ?]
    | apply conserva_atrapar; [|intros ?]
    | match goal with
      | |- conserva (if ?b then _ else _) => destruct b
      | |- conserva (match ?e with CalledProcessError _ => _ | _ => _ end) =>
          destruct e
      end
    | solve [auto with conserva] ].

Lemma conserva_intento_monitor (env : Entorno) (puerto : Z) :
  conserva (intento_monitor env puerto).
Proof. unfold intento_monitor. repeat paso_conserva. Qed.

Lemma conserva_bucle_monitor (env : Entorno) (puerto : Z) (n : nat) :
  conserva (bucle_monitor env puerto n).
Proof.
  induction n as [|n IH]; simpl; [apply conserva_lanzar|].
  apply conserva_bind; [apply conserva_intento_monitor|].
  intros [info|]; [apply conserva_ret|].
  apply conserva_bind; [apply conserva_sleep | intros _; exact IH].
Qed.

Lemma conserva_obtener_monitor (env : Entorno) (id : string)
    (puerto intentos : Z) :
  conserva (obtener_monitor env id puerto intentos).
Proof.
  unfold obtener_monitor.
  apply conserva_bind; [apply conserva_sleep|].
  intros _. apply conserva_bucle_monitor.
Qed.

Lemma conserva_parar (env : Entorno) (id : string) :
  conserva (parar_contenedor env id).
Proof. unfold parar_contenedor. repeat paso_conserva. Qed.

Lemma conserva_borrar (env : Entorno) (id : string) :
  conserva (borrar_contenedor env id).
Proof. unfold borrar_contenedor. repeat paso_conserva. Qed.

Lemma conserva_ejecutar_docker (env : Entorno) (config : EventoConfig) :
  conserva (ejecutar_docker env config).
Proof. unfold ejecutar_docker. repeat paso_conserva. Qed.

#[local] Hint Resolve conserva_obtener_monitor conserva_parar conserva_borrar
  conserva_ejecutar_docker : conserva.

Lemma conserva_verificar (env : Entorno) (nombre_evento : string) :
  conserva (verificar_y_limpiar_contenedor env nombre_evento).
Proof. unfold verificar_y_limpiar_contenedor. repeat paso_conserva. Qed.

#[local] Hint Resolve conserva_verificar : conserva.

Lemma conserva_lanzar_contenedor (env : Entorno) (config : EventoConfig) :
  conserva (lanzar_contenedor env config).
Proof. unfold lanzar_contenedor. repeat paso_conserva. Qed.

(** ** Status poller *)

Lemma intento_monitor_eq (env : Entorno) (puerto : Z) (m : Mundo) :
  intento_monitor env puerto m =
    (anotar (HttpGet (url_monitor puerto)) m,
     match http env (traza m) (url_monitor puerto) with
     | FalloTransporte => Ok None
     | Recibida r =>
         if status_code r =? 200 then
           match cuerpo r with
           | None => Ok None
           | Some JNoObjeto => Lanza AttributeError
           | Some (JObjeto d) =>
               if verdadero (dict_get d "content_id" None)
                  && negb (igual_a (dict_get d "content_id" None) no_encontrado)
               then Ok (Some [("content_id", dict_get d "content_id" None);
                              ("download_hash", dict_get d "download_hash" None)])
               else Ok None
           end
         else Ok None
     end).
Proof.
  unfold intento_monitor, atrapar, bind, requests_get.
  destruct (http env (traza m) (url_monitor puerto)) as [|r]; [reflexivity|].
  cbn [es_RequestException].
  destruct (status_code r =? 200); [|reflexivity].
  unfold json. destruct (cuerpo r) as [[d|]|]; try reflexivity.
  cbn [json_get ret].
  destruct (verdadero (dict_get d "content_id" None)
            && negb (igual_a (dict_get d "content_id" None) no_encontrado));
    reflexivity.
Qed.

Lemma intento_utilizable (env : Entorno) (puerto : Z) (m : Mundo) (info : Dict) :
  utilizable (http env (traza m) (url_monitor puerto)) info ->
  intento_monitor env puerto m =
    (anotar (HttpGet (url_monitor puerto)) m, Ok (Some info)).
Proof.
  intros (d & cid & Hr & Hc & Hne & Hns & ->).
  rewrite intento_monitor_eq, Hr. cbn [status_code cuerpo]. rewrite Hc.
  change (200 =? 200) with true. cbv iota.
  assert (V : verdadero (Some cid) = true) by (destruct cid; [congruence | reflexivity]).
  assert (I : igual_a (Some cid) no_encontrado = false)
    by (apply String.eqb_neq; exact Hns).
  rewrite V, I. reflexivity.
Qed.

Lemma intento_no_lista (env : Entorno) (puerto : Z) (m : Mundo) :
  no_lista (http env (traza m) (url_monitor puerto)) ->
  intento_monitor env puerto m =
    (anotar (HttpGet (url_monitor puerto)) m, Ok None).
Proof.
  intros H. rewrite intento_monitor_eq.
  destruct H as [-> | (resp & -> & H)]; [reflexivity|].
  destruct H as [H | [H | (d & Hd & H)]].
  - apply Z.eqb_neq in H. rewrite H. reflexivity.
  - rewrite H. destruct (status_code resp =? 200); reflexivity.
  - rewrite Hd. destruct (status_code resp =? 200); [|reflexivity].
    destruct H as [-> | [-> | ->]]; reflexivity.
Qed.

Lemma intento_resultado (env : Entorno) (puerto : Z) (m m' : Mundo)
    (info : Dict) :
  intento_monitor env puerto m = (m', Ok (Some info)) ->
  exists cid dh,
    info = [("content_id", Some cid); ("download_hash", dh)]
    /\ cid <> "" /\ cid <> no_encontrado.
Proof.
  rewrite intento_monitor_eq. intros [= _ H].
  destruct (http env (traza m) (url_monitor puerto)) as [|r]; [discriminate|].
  destruct (status_code r =? 200); [|discriminate].
  destruct (cuerpo r) as [[d|]|]; try discriminate.
  destruct (dict_get d "content_id" None) as [cid|] eqn:E; [|discriminate].
  destruct (verdadero (Some cid)) eqn:V; [|discriminate].
  destruct (igual_a (Some cid) no_encontrado) eqn:I; [discriminate|].
  injection H as <-. exists cid, (dict_get d "download_hash" None).
  split; [reflexivity|]. split.
  - intros ->. discriminate.
  - apply String.eqb_neq. exact I.
Qed.

Lemma tras_fallos_desplaza (url : string) (k : nat) (t : list Accion) :
  tras_fallos url k (Dormir 5 :: HttpGet url :: t) =
    Dormir 5 :: HttpGet url :: tras_fallos url k t.
Proof.
  induction k as [|k IH]; simpl; [reflexivity | rewrite IH; reflexivity].
Qed.

Lemma peticiones_tras_fallos (url : string) (k : nat) (t : list Accion) :
  peticiones (tras_fallos url k t) = (k + peticiones t)%nat.
Proof.
  induction k as [|k IH]; [reflexivity|].
  change (peticiones (tras_fallos url (S k) t))
    with (S (peticiones (tras_fallos url k t))).
  rewrite IH. reflexivity.
Qed.

Lemma bucle_monitor_exito (env : Entorno) (puerto : Z) :
  forall (n k : nat) (info : Dict) (m : Mundo),
    (k < n)%nat ->
    (forall j, (j < k)%nat ->
       no_lista (http env (tras_fallos (url_monitor puerto) j (traza m))
                   (url_monitor puerto))) ->
    utilizable (http env (tras_fallos (url_monitor puerto) k (traza m))
                  (url_monitor puerto)) info ->
    exists m',
      bucle_monitor env puerto n m = (m', Ok info)
      /\ traza m' =
           HttpGet (url_monitor puerto)
             :: tras_fallos (url_monitor puerto) k (traza m).
Proof.
  induction n as [|n IH]; intros k info m Hk Hfallos Hok; [lia|].
  cbn [bucle_monitor]. unfold bind at 1.
  destruct k as [|k].
  - rewrite (intento_utilizable env puerto m info Hok).
    eexists. split; reflexivity.
  - rewrite (intento_no_lista env puerto m (Hfallos 0%nat ltac:(lia))).
    unfold bind, sleep.
    destruct (IH k info (anotar (Dormir 5) (anotar (HttpGet (url_monitor puerto)) m)))
      as (m' & E & T).
    + lia.
    + intros j Hj. cbn [anotar traza]. rewrite tras_fallos_desplaza.
      apply (Hfallos (S j)). lia.
    + cbn [anotar traza]. rewrite tras_fallos_desplaza. exact Hok.
    + exists m'. split; [exact E|]. rewrite T. cbn [anotar traza].
      rewrite tras_fallos_desplaza. reflexivity.
Qed.

Lemma bucle_monitor_agotado (env : Entorno) (puerto : Z) :
  forall (n : nat) (m : Mundo),
    (forall j, (j < n)%nat ->
       no_lista (http env (tras_fallos (url_monitor puerto) j (traza m))
                   (url_monitor puerto))) ->
    exists m',
      bucle_monitor env puerto n m = (m', Lanza (RuntimeError msg_agotado))
      /\ traza m' = tras_fallos (url_monitor puerto) n (traza m).
Proof.
  induction n as [|n IH]; intros m Hfallos.
  - exists m. split; reflexivity.
  - cbn [bucle_monitor]. unfold bind at 1.
    rewrite (intento_no_lista env puerto m (Hfallos 0%nat ltac:(lia))).
    unfold bind, sleep.
    destruct (IH (anotar (Dormir 5) (anotar (HttpGet (url_monitor puerto)) m)))
      as (m' & E & T).
    + intros j Hj. cbn [anotar traza]. rewrite tras_fallos_desplaza.
      apply (Hfallos (S j)). lia.
    + exists m'. split; [exact E|]. rewrite T. cbn [anotar traza].
      rewrite tras_fallos_desplaza. reflexivity.
Qed.

Lemma bucle_monitor_resultado (env : Entorno) (puerto : Z) :
  forall (n : nat) (m m' : Mundo) (info : Dict),
    bucle_monitor env puerto n m = (m', Ok info) ->
    exists cid dh,
      info = [("content_id", Some cid); ("download_hash", dh)]
      /\ cid <> "" /\ cid <> no_encontrado.
Proof.
  induction n as [|n IH]; intros m m' info; [discriminate|].
  cbn [bucle_monitor]. unfold bind at 1.
  destruct (intento_monitor env puerto m) as [m1 [[i|]|e]] eqn:E.
  - intros [= <- <-]. eapply intento_resultado, E.
  - unfold bind, sleep. apply IH.
  - discriminate.
Qed.

(** C2, as the code has it.  Let the responses met by the poller be
    numbered from 0.  If response [k], with [k] below [intentos], is the
    first one with HTTP 200 and a JSON object whose [content_id] is a
    non-empty string other than the sentinel, every earlier one being a
    transport failure, another status, an undecodable body or an object
    without such a [content_id], then the poller returns the two fields of
    that response after exactly [k + 1] requests.  If all the first
    [intentos] responses are of the latter kinds, it raises the
    [RuntimeError] after exactly [intentos] requests. *)
Theorem obtener_monitor_acotado (env : Entorno) (contenedor_id : string)
    (puerto intentos : Z) (m : Mundo) :
  0 <= intentos ->
  (forall k info,
     (k < Z.to_nat intentos)%nat ->
     (forall j, (j < k)%nat -> no_lista (respuesta_n env puerto (traza m) j)) ->
     utilizable (respuesta_n env puerto (traza m) k) info ->
     exists m',
       obtener_monitor env contenedor_id puerto intentos m = (m', Ok info)
       /\ peticiones (traza m') = (peticiones (traza m) + k + 1)%nat)
  /\ ((forall j, (j < Z.to_nat intentos)%nat ->
         no_lista (respuesta_n env puerto (traza m) j)) ->
      exists m',
        obtener_monitor env contenedor_id puerto intentos m
          = (m', Lanza (RuntimeError msg_agotado))
        /\ Z.of_nat (peticiones (traza m'))
           = Z.of_nat (peticiones (traza m)) + intentos).
Proof.
  intros Hpos. unfold respuesta_n, traza_intento, obtener_monitor. split.
  - intros k info Hk Hfallos Hok. unfold bind, sleep.
    destruct (bucle_monitor_exito env puerto (Z.to_nat intentos) k info
                (anotar (Dormir 15) m) Hk Hfallos Hok) as (m' & E & T).
    exists m'. split; [exact E|]. rewrite T.
    change (peticiones (HttpGet (url_monitor puerto)
              :: tras_fallos (url_monitor puerto) k (traza (anotar (Dormir 15) m))))
      with (S (peticiones (tras_fallos (url_monitor puerto) k
                             (traza (anotar (Dormir 15) m))))).
    rewrite peticiones_tras_fallos.
    change (peticiones (traza (anotar (Dormir 15) m))) with (peticiones (traza m)).
    lia.
  - intros Hfallos. unfold bind, sleep.
    destruct (bucle_monitor_agotado env puerto (Z.to_nat intentos)
                (anotar (Dormir 15) m) Hfallos) as (m' & E & T).
    exists m'. split; [exact E|]. rewrite T, peticiones_tras_fallos.
    change (peticiones (traza (anotar (Dormir 15) m))) with (peticiones (traza m)).
    lia.
Qed.

Lemma obtener_monitor_resultado (env : Entorno) (id : string)
    (puerto intentos : Z) (m m' : Mundo) (info : Dict) :
  obtener_monitor env id puerto intentos m = (m', Ok info) ->
  exists cid dh,
    info = [("content_id", Some cid); ("download_hash", dh)]
    /\ cid <> "" /\ cid <> no_encontrado.
Proof.
  unfold obtener_monitor, bind, sleep. apply bucle_monitor_resultado.
Qed.

(** ** The engine *)

Lemma resolver_content_id_eq (env : Entorno) (config : EventoConfig)
    (m : Mundo) :
  resolver_content_id env config m =
    match subprocess_run env (docker_ps config) m with
    | (m1, Lanza e) => (m1, Ok (ErrorAlObtenerContentId e))
    | (m1, Ok out) =>
        match obtener_monitor env (strip out) (puerto config) 10 m1 with
        | (m2, Lanza e) => (m2, Ok (ErrorAlObtenerContentId e))
        | (m2, Ok info) =>
            let content_id := dict_get info "content_id" (Some no_encontrado) in
            (fst (_actualizar_content_id (nombre config) content_id m2),
             Ok (ContentIdGuardado content_id))
        end
    end.
Proof.
  unfold resolver_content_id, atrapar. unfold bind at 1.
  destruct (subprocess_run env (docker_ps config) m) as [m1 [out|e]];
    [|reflexivity].
  unfold bind at 1.
  destruct (obtener_monitor env (strip out) (puerto config) 10 m1)
    as [m2 [info|e]]; reflexivity.
Qed.

Lemma resolver_content_id_ok (env : Entorno) (config : EventoConfig)
    (m : Mundo) :
  exists m' d, resolver_content_id env config m = (m', Ok d).
Proof.
  rewrite resolver_content_id_eq.
  destruct (subprocess_run env (docker_ps config) m) as [m1 [out|e]];
    [|eauto].
  destruct (obtener_monitor env (strip out) (puerto config) 10 m1)
    as [m2 [info|e]]; eauto.
Qed.

Lemma procesar_evento_eq (ip : string -> bool) (env : Entorno)
    (evento : Evento) (config : EventoConfig) (m : Mundo) :
  construir_config evento = Ok config ->
  validar ip config = [] ->
  procesar_evento ip env evento m =
    match lanzar_contenedor env config m with
    | (m1, Ok _) => resolver_content_id env config m1
    | (m1, Lanza e) => (m1, Ok (ErrorAlProcesar e))
    end.
Proof.
  intros Hc Hv. unfold procesar_evento, atrapar. rewrite Hc, Hv.
  unfold bind.
  destruct (lanzar_contenedor env config m) as [m1 [[]|e]]; [|reflexivity].
  destruct (resolver_content_id_ok env config m1) as (m' & d & E).
  rewrite E. reflexivity.
Qed.

(** The per-record step never raises: some reporting branch runs. *)
Lemma procesar_evento_ok (ip : string -> bool) (env : Entorno)
    (evento : Evento) (m : Mundo) :
  exists m' d, procesar_evento ip env evento m = (m', Ok d).
Proof.
  unfold procesar_evento, atrapar.
  match goal with |- context [match ?c m with _ => _ end] =>
    destruct (c m) as [m1 [d|e]] end; do 2 eexists; reflexivity.
Qed.

Lemma bucle_indices_paso (ip : string -> bool) (env : Entorno)
    (eventos : list Evento) (idx : Z) (resto : list Z) (evento : Evento)
    (m : Mundo) :
  0 <= idx < Z.of_nat (length eventos) ->
  nth_evento eventos idx = Some evento ->
  bucle_indices ip env eventos (idx :: resto) m =
    bucle_indices ip env eventos resto (fst (procesar_evento ip env evento m)).
Proof.
  intros Hr Hn. cbn [bucle_indices].
  apply en_rango_sii_estricto in Hr. rewrite Hr, Hn. unfold bind.
  destruct (procesar_evento_ok ip env evento m) as (m' & d & E).
  rewrite E. reflexivity.
Qed.

(** C4.  When the cycle of a record reaches the poll and the poll raises,
    as it does with the [RuntimeError] of exhausted attempts, the step for
    that record ends in its reporting branch: the rows of the file are as
    before, no write to the file was made, and the batch goes on with the
    next index. *)
Theorem sondeo_agotado (ip : string -> bool) (env : Entorno)
    (evento : Evento) (config : EventoConfig) (m m1 m2 m3 : Mundo)
    (out : string) (e : Excepcion) :
  construir_config evento = Ok config ->
  validar ip config = [] ->
  lanzar_contenedor env config m = (m1, Ok tt) ->
  subprocess_run env (docker_ps config) m1 = (m2, Ok out) ->
  obtener_monitor env (strip out) (puerto config) 10 m2 = (m3, Lanza e) ->
  procesar_evento ip env evento m = (m3, Ok (ErrorAlObtenerContentId e))
  /\ csv m3 = csv m
  /\ escrituras (traza m3) = escrituras (traza m)
  /\ forall eventos idx resto,
       0 <= idx < Z.of_nat (length eventos) ->
       nth_evento eventos idx = Some evento ->
       bucle_indices ip env eventos (idx :: resto) m =
         bucle_indices ip env eventos resto m3.
Proof.
  intros Hc Hv Hl Hp Ho.
  assert (E : procesar_evento ip env evento m
              = (m3, Ok (ErrorAlObtenerContentId e))).
  { rewrite (procesar_evento_eq ip env evento config m Hc Hv), Hl.
    rewrite resolver_content_id_eq, Hp, Ho. reflexivity. }
  destruct (conserva_lanzar_contenedor env config _ _ _ Hl) as [C1 W1].
  destruct (conserva_subprocess_run env _ _ _ _ Hp) as [C2 W2].
  destruct (conserva_obtener_monitor env _ _ _ _ _ _ Ho) as [C3 W3].
  split; [exact E|].
  split; [congruence|].
  split; [congruence|].
  intros eventos idx resto Hr Hn.
  rewrite (bucle_indices_paso ip env eventos idx resto evento m Hr Hn), E.
  reflexivity.
Qed.

(** C9.  When the cycle of a record commits a content id, the value comes
    from a poll that returned a dictionary holding the key [content_id]
    with a non-empty string other than the sentinel, so that the engine's
    default for a missing key is not what is committed; the file is the
    one read rewritten with that value, by a single write.  Every result of
    the poller, in the cycle or not, has that shape. *)
Theorem content_id_confirmado (ip : string -> bool) (env : Entorno)
    (evento : Evento) (m m' : Mundo) (v : option string) :
  procesar_evento ip env evento m = (m', Ok (ContentIdGuardado v)) ->
  exists config cid,
    construir_config evento = Ok config
    /\ v = Some cid
    /\ cid <> ""
    /\ cid <> no_encontrado
    /\ (exists id m1 m2 info,
          obtener_monitor env id (puerto config) 10 m1 = (m2, Ok info)
          /\ dict_buscar info "content_id" = Some (Some cid)
          /\ dict_get info "content_id" (Some no_encontrado) = Some cid)
    /\ csv m' = map (fila_actualizada (nombre config) (Some cid))
                    (leer_filas (csv m))
    /\ escrituras (traza m') = S (escrituras (traza m))
    /\ forall id p n w w' info,
         obtener_monitor env id p n w = (w', Ok info) ->
         exists c dh,
           info = [("content_id", Some c); ("download_hash", dh)]
           /\ c <> "" /\ c <> no_encontrado.
Proof.
  intros H.
  destruct (construir_config evento) as [config|e0] eqn:Hc.
  2:{ unfold procesar_evento, atrapar in H. rewrite Hc in H. discriminate H. }
  destruct (validar ip config) as [|x errores] eqn:Hv.
  2:{ unfold procesar_evento, atrapar in H. rewrite Hc, Hv in H.
      discriminate H. }
  rewrite (procesar_evento_eq ip env evento config m Hc Hv) in H.
  destruct (lanzar_contenedor env config m) as [m1 [[]|e1]] eqn:Hl;
    [|discriminate H].
  rewrite resolver_content_id_eq in H.
  destruct (subprocess_run env (docker_ps config) m1) as [m2 [out|e2]] eqn:Hp;
    [|discriminate H].
  destruct (obtener_monitor env (strip out) (puerto config) 10 m2)
    as [m3 [info|e3]] eqn:Ho; [|discriminate H].
  destruct (obtener_monitor_resultado env _ _ _ _ _ _ Ho)
    as (cid & dh & -> & Hne & Hns).
  destruct (conserva_lanzar_contenedor env config _ _ _ Hl) as [C1 W1].
  destruct (conserva_subprocess_run env _ _ _ _ Hp) as [C2 W2].
  destruct (conserva_obtener_monitor env _ _ _ _ _ _ Ho) as [C3 W3].
  injection H as <- <-.
  exists config, cid.
  split; [reflexivity|]. split; [reflexivity|].
  split; [exact Hne|]. split; [exact Hns|].
  split.
  { exists (strip out), m2, m3, [("content_id", Some cid); ("download_hash", dh)].
    split; [exact Ho|]. split; reflexivity. }
  split; [cbn; rewrite C3, C2, C1; reflexivity|].
  split; [cbn; fold (escrituras (traza m3)); congruence|].
  intros id p n w w' info. apply obtener_monitor_resultado.
Qed.

Lemma bucle_indices_app (ip : string -> bool) (env : Entorno)
    (eventos : list Evento) (pre post : list Z) :
  forall m,
    bucle_indices ip env eventos (pre ++ post) m =
      match bucle_indices ip env eventos pre m with
      | (m', Ok _) => bucle_indices ip env eventos post m'
      | (m', Lanza e) => (m', Lanza e)
      end.
Proof.
  induction pre as [|idx pre IH]; intros m; [reflexivity|].
  cbn [app bucle_indices].
  destruct ((0 <=? idx) && (idx <? Z.of_nat (length eventos)));
    [|reflexivity].
  destruct (nth_evento eventos idx) as [evento|]; [|reflexivity].
  unfold bind.
  destruct (procesar_evento ip env evento m) as [m1 [d|e]];
    [apply IH | reflexivity].
Qed.

Lemma bucle_indices_en_rango (ip : string -> bool) (env : Entorno)
    (eventos : list Evento) (indices : list Z) :
  Forall (fun i => 0 <= i < Z.of_nat (length eventos)) indices ->
  forall m, exists m', bucle_indices ip env eventos indices m = (m', Ok tt).
Proof.
  induction 1 as [|idx indices Hr _ IH]; intros m.
  - exists m. reflexivity.
  - destruct (nth_evento eventos idx) as [evento|] eqn:Hn.
    + rewrite (bucle_indices_paso ip env eventos idx indices evento m Hr Hn).
      apply IH.
    + unfold nth_evento in Hn. apply nth_error_None in Hn. lia.
Qed.

(** C1, as the code has it.  The range check is made when the loop reaches
    an index.  With every index of [pre] in range and [idx] out of range,
    the batch [pre ++ idx :: post] ends in the [ValueError] for [idx] in the
    world the batch [pre] alone leaves: the records before [idx] have been
    processed, nothing at or after [idx] is.  When the first index of the
    batch is the one out of range, the world has only been read. *)
Theorem indice_fuera_de_rango (ip : string -> bool) (env : Entorno)
    (pre : list Z) (idx : Z) (post : list Z) (m : Mundo) :
  Forall (fun i => 0 <= i < Z.of_nat (length (leer_filas (csv m)))) pre ->
  ~ (0 <= idx < Z.of_nat (length (leer_filas (csv m)))) ->
  exists m',
    crear_desde_csv ip env pre m = (m', Ok tt)
    /\ crear_desde_csv ip env (pre ++ idx :: post) m =
         (m', Lanza (ValueError
                       ("Índice " ++ str_de_int (idx + 1) ++ " fuera de rango")))
    /\ (pre = [] -> m' = anotar CsvLeer m).
Proof.
  intros Hpre Hidx.
  unfold crear_desde_csv, bind, _leer_eventos_csv.
  destruct (bucle_indices_en_rango ip env _ pre Hpre (anotar CsvLeer m))
    as (m' & E).
  exists m'. split; [exact E|]. split.
  - rewrite bucle_indices_app, E. cbn [bucle_indices].
    destruct ((0 <=? idx) && (idx <? Z.of_nat (length (leer_filas (csv m)))))
      eqn:R; [|reflexivity].
    apply en_rango_sii_estricto in R. contradiction.
  - intros ->. cbn in E. injection E as <-. reflexivity.
Qed.

(** * The statements at concrete worlds *)

(** Port 8642 with the other fields of the demo record valid: no
    violation. *)
Lemma validar_puerto_testigo :
  demas_campos_validos ip_ninguna config_demo
  /\ validar ip_ninguna config_demo = [].
Proof.
  assert (H : demas_campos_validos ip_ninguna config_demo).
  { unfold demas_campos_validos.
    split; [reflexivity|]. split; [reflexivity|].
    split; [right; reflexivity|].
    split; [simpl; lia|]. split; reflexivity. }
  split; [exact H|].
  destruct (validar_puerto ip_ninguna config_demo H) as (_ & _ & _ & _ & E).
  apply E. reflexivity.
Defined.


(** A commit for [demo] on the store of the demo world. *)
Lemma actualizar_solo_content_id_testigo :
  Forall nueve (csv mundo_demo)
  /\ exists m',
       _actualizar_content_id "demo" (Some "abc123") mundo_demo = (m', Ok tt)
       /\ length (csv m') = length (csv mundo_demo).
Proof.
  assert (H : Forall nueve (csv mundo_demo)).
  { repeat constructor. }
  split; [exact H|].
  destruct (actualizar_solo_content_id "demo" (Some "abc123") mundo_demo H)
    as (m' & E & L & _).
  exists m'. split; assumption.
Defined.

(** A commit for [demo] on the store edited by hand.  The rows of the two
    other names do not come back as they were: the row of ten fields loses
    its tenth, and the row of two fields is written with nine, so that the
    record read from it has an empty port where it had none. *)
Lemma filas_ajenas_normalizadas :
  snd (_actualizar_content_id "demo" (Some "abc123") mundo_editado) = Ok tt
  /\ nth_error (csv mundo_editado) 1 = Some fila_larga
  /\ nth_error fila_larga 0 <> Some "demo"
  /\ nth_error
       (csv (fst (_actualizar_content_id "demo" (Some "abc123") mundo_editado)))
       1
     = Some (firstn 9 fila_larga)
  /\ firstn 9 fila_larga <> fila_larga
  /\ nth_error (csv mundo_editado) 2 = Some fila_corta
  /\ nth_error fila_corta 0 <> Some "demo"
  /\ nth_error
       (csv (fst (_actualizar_content_id "demo" (Some "abc123") mundo_editado)))
       2
     = Some ["tercero"; "Canal tres"; ""; ""; ""; ""; ""; ""; ""]
  /\ dict_indice (fila_a_evento cabeceras fila_corta) "port" = Ok None
  /\ dict_indice
       (fila_a_evento cabeceras
          ["tercero"; "Canal tres"; ""; ""; ""; ""; ""; ""; ""]) "port"
     = Ok (Some "").
Proof.
  repeat split; try reflexivity; discriminate.
Qed.

(** A third row named [demo] is appended to a store that holds two, and a
    commit reaches the three of them. *)
Lemma nombres_repetidos_testigo :
  nueve fila_demo
  /\ Forall nueve (csv mundo_repetido)
  /\ nth_error fila_demo 0 = Some "demo"
  /\ exists m1 m2,
       _guardar_evento fila_demo mundo_repetido = (m1, Ok tt)
       /\ _actualizar_content_id "demo" (Some "abc123") m1 = (m2, Ok tt)
       /\ csv m2 = [fila_de config_demo "abc123"; fila_de config_demo "abc123";
                    fila_de config_demo "abc123"].
Proof.
  assert (H1 : nueve fila_demo) by reflexivity.
  assert (H2 : Forall nueve (csv mundo_repetido)) by (repeat constructor).
  assert (H3 : nth_error fila_demo 0 = Some "demo") by reflexivity.
  split; [exact H1|]. split; [exact H2|]. split; [exact H3|].
  destruct (nombres_repetidos fila_demo "demo" (Some "abc123") mundo_repetido
              H1 H2 H3) as (m1 & m2 & G & _ & A & _ & _).
  exists m1, m2. split; [exact G|]. split; [exact A|].
  vm_compute in G. injection G as <-.
  vm_compute in A. injection A as <-. reflexivity.
Defined.

(** The endpoint answers with an empty [content_id]: the field is present
    and is not the sentinel, and the poller goes on to its ten attempts and
    raises. *)
Lemma content_id_vacio_no_devuelto :
  (exists d,
     respuesta_n env_vacio 8642 (traza mundo_demo) 0
       = Recibida {| status_code := 200; cuerpo := Some (JObjeto d) |}
     /\ dict_buscar d "content_id" = Some (Some "")
     /\ "" <> no_encontrado)
  /\ snd (obtener_monitor env_vacio "c0ffee" 8642 10 mundo_demo)
     = Lanza (RuntimeError msg_agotado)
  /\ peticiones (traza (fst (obtener_monitor env_vacio "c0ffee" 8642 10 mundo_demo)))
     = 10%nat.
Proof.
  split.
  - exists [("content_id", Some "")].
    split; [reflexivity|]. split; [reflexivity | discriminate].
  - split; reflexivity.
Qed.

(** A JSON body that is not an object is outside the statement above: the
    lookup of [content_id] raises [AttributeError], which no handler of the
    poller catches, and the poll ends at that request. *)
Lemma cuerpo_no_objeto_lanza :
  snd (obtener_monitor env_lista "c0ffee" 8642 10 mundo_demo)
    = Lanza AttributeError
  /\ peticiones (traza (fst (obtener_monitor env_lista "c0ffee" 8642 10 mundo_demo)))
     = 1%nat.
Proof.
  split; reflexivity.
Qed.

(** The endpoint answers at the third request: the poller returns then. *)
Lemma obtener_monitor_acotado_testigo :
  0 <= 10
  /\ exists m',
       obtener_monitor env_demo "c0ffee" 8642 10 mundo_demo
         = (m', Ok [("content_id", Some "abc123"); ("download_hash", None)])
       /\ peticiones (traza m') = 3%nat.
Proof.
  assert (H : 0 <= 10) by lia.
  split; [exact H|].
  destruct (obtener_monitor_acotado env_demo "c0ffee" 8642 10 mundo_demo H)
    as [Hexito _].
  apply (Hexito 2%nat).
  - vm_compute. repeat constructor.
  - intros j Hj. destruct j as [|[|j]]; [left; reflexivity | left; reflexivity|].
    exfalso. lia.
  - exists [("content_id", Some "abc123")], "abc123".
    split; [reflexivity|]. split; [reflexivity|].
    split; [discriminate|]. split; [discriminate | reflexivity].
Defined.

(** The endpoint never answers: the poll of the demo record is exhausted,
    and the file is as before. *)
Lemma sondeo_agotado_testigo :
  construir_config evento_demo = Ok config_demo
  /\ validar ip_ninguna config_demo = []
  /\ lanzar_contenedor env_mudo config_demo mundo_demo = (mundo_lanzado, Ok tt)
  /\ subprocess_run env_mudo (docker_ps config_demo) mundo_lanzado
     = (mundo_resuelto, Ok "c0ffee
")
  /\ obtener_monitor env_mudo (strip "c0ffee
") (puerto config_demo) 10 mundo_resuelto
     = (mundo_agotado, Lanza (RuntimeError msg_agotado))
  /\ procesar_evento ip_ninguna env_mudo evento_demo mundo_demo
     = (mundo_agotado, Ok (ErrorAlObtenerContentId (RuntimeError msg_agotado)))
  /\ csv mundo_agotado = csv mundo_demo.
Proof.
  assert (H1 : construir_config evento_demo = Ok config_demo) by reflexivity.
  assert (H2 : validar ip_ninguna config_demo = []) by reflexivity.
  assert (H3 : lanzar_contenedor env_mudo config_demo mundo_demo
               = (mundo_lanzado, Ok tt)) by reflexivity.
  assert (H4 : subprocess_run env_mudo (docker_ps config_demo) mundo_lanzado
               = (mundo_resuelto, Ok "c0ffee
")) by reflexivity.
  assert (H5 : obtener_monitor env_mudo (strip "c0ffee
") (puerto config_demo) 10 mundo_resuelto
               = (mundo_agotado, Lanza (RuntimeError msg_agotado)))
    by reflexivity.
  destruct (sondeo_agotado ip_ninguna env_mudo evento_demo config_demo
              mundo_demo mundo_lanzado mundo_resuelto mundo_agotado _ _
              H1 H2 H3 H4 H5) as (E & C & _).
  repeat (split; [assumption|]). assumption.
Defined.

(** The endpoint answers [abc123] at the third request: that is what the
    cycle of the demo record commits. *)
Lemma content_id_confirmado_testigo :
  procesar_evento ip_ninguna env_demo evento_demo mundo_demo
    = (fst (procesar_evento ip_ninguna env_demo evento_demo mundo_demo),
       Ok (ContentIdGuardado (Some "abc123")))
  /\ exists config cid,
       construir_config evento_demo = Ok config
       /\ Some "abc123" = Some cid /\ cid <> "" /\ cid <> no_encontrado.
Proof.
  assert (H : procesar_evento ip_ninguna env_demo evento_demo mundo_demo
              = (fst (procesar_evento ip_ninguna env_demo evento_demo mundo_demo),
                 Ok (ContentIdGuardado (Some "abc123")))) by reflexivity.
  split; [exact H|].
  destruct (content_id_confirmado ip_ninguna env_demo evento_demo mundo_demo
              _ _ H) as (config & cid & A & B & C & D & _).
  exists config, cid. repeat (split; [assumption|]). assumption.
Defined.

(** The batch [0; 1] on a store of one record: index 1 is out of range and
    the error is raised, after the record at index 0 has had its three
    container commands and its write to the file. *)
Lemma lote_procesado_antes_del_error :
  ~ (0 <= 1 < Z.of_nat (length (leer_filas (csv mundo_demo))))
  /\ snd (crear_desde_csv ip_ninguna env_demo [0; 1] mundo_demo)
     = Lanza (ValueError "Índice 2 fuera de rango")
  /\ operaciones (traza (fst (crear_desde_csv ip_ninguna env_demo [0; 1] mundo_demo)))
     = 3%nat
  /\ escrituras (traza (fst (crear_desde_csv ip_ninguna env_demo [0; 1] mundo_demo)))
     = 1%nat
  /\ csv (fst (crear_desde_csv ip_ninguna env_demo [0; 1] mundo_demo))
     = [fila_de config_demo "abc123"].
Proof.
  split; [simpl; lia|]. repeat split; reflexivity.
Qed.

(** The same batch, read through the statement. *)
Lemma indice_fuera_de_rango_testigo :
  Forall (fun i => 0 <= i < Z.of_nat (length (leer_filas (csv mundo_demo)))) [0]
  /\ ~ (0 <= 1 < Z.of_nat (length (leer_filas (csv mundo_demo))))
  /\ exists m',
       crear_desde_csv ip_ninguna env_demo [0] mundo_demo = (m', Ok tt)
       /\ crear_desde_csv ip_ninguna env_demo [0; 1] mundo_demo
          = (m', Lanza (ValueError "Índice 2 fuera de rango")).
Proof.
  assert (H1 : Forall (fun i => 0 <= i < Z.of_nat (length (leer_filas (csv mundo_demo)))) [0]).
  { constructor; [simpl; lia | constructor]. }
  assert (H2 : ~ (0 <= 1 < Z.of_nat (length (leer_filas (csv mundo_demo))))).
  { simpl. lia. }
  split; [exact H1|]. split; [exact H2|].
  destruct (indice_fuera_de_rango ip_ninguna env_demo [0] 1 [] mundo_demo H1 H2)
    as (m' & A & B & _).
  exists m'. split; [exact A | exact B].
Defined.

(** * Further properties *)

(** ** The pattern matcher *)

Lemma anulable_sii (r : regex) : anulable r = true <-> en_lenguaje r [].
Proof.
  induction r as [| |p|r IHr s IHs|r IHr s IHs|r IHr]; simpl.
  - split; [discriminate | intros H; inversion H].
  - split; [constructor | reflexivity].
  - split; [discriminate | intros H; inversion H].
  - rewrite andb_true_iff, IHr, IHs. split.
    + intros [H1 H2]. exact (L_cat r s [] [] H1 H2).
    + intros H. inversion H as [| |r' s' l1 l2 H1 H2 E1 E2| | | |]; subst.
      apply app_eq_nil in E2. destruct E2 as [-> ->]. auto.
  - rewrite orb_true_iff, IHr, IHs. split.
    + intros [H|H]; [apply L_alt_izq | apply L_alt_der]; exact H.
    + intros H. inversion H; subst; auto.
  - split; [constructor | reflexivity].
Qed.

Lemma sin_palabras (l : list ascii) : ~ en_lenguaje Nada l.
Proof. intros H. inversion H. Qed.

Lemma cat_sii (r s : regex) (l : list ascii) :
  en_lenguaje (cat r s) l <-> en_lenguaje (Cat r s) l.
Proof.
  assert (N1 : forall s', en_lenguaje Nada l <-> en_lenguaje (Cat Nada s') l).
  { intros s'. split; intros H; [inversion H|].
    inversion H as [| |r0 s0 l1 l2 H1 H2| | | |]; subst. inversion H1. }
  assert (N2 : forall r', en_lenguaje Nada l <-> en_lenguaje (Cat r' Nada) l).
  { intros r'. split; intros H; [inversion H|].
    inversion H as [| |r0 s0 l1 l2 H1 H2| | | |]; subst. inversion H2. }
  assert (E : forall s', en_lenguaje s' l <-> en_lenguaje (Cat Eps s') l).
  { intros s'. split; intros H.
    - exact (L_cat Eps s' [] l L_eps H).
    - inversion H as [| |r0 s0 l1 l2 H1 H2| | | |]; subst.
      inversion H1; subst. exact H2. }
  destruct r; destruct s; simpl;
    try apply N1; try apply N2; try apply E; reflexivity.
Qed.

Lemma alt_sii (r s : regex) (l : list ascii) :
  en_lenguaje (alt r s) l <-> en_lenguaje (Alt r s) l.
Proof.
  assert (N1 : forall s', en_lenguaje s' l <-> en_lenguaje (Alt Nada s') l).
  { intros s'. split; intros H; [apply L_alt_der; exact H|].
    inversion H as [| | |r0 s0 l0 H1|r0 s0 l0 H1| |]; subst;
      [inversion H1 | exact H1]. }
  assert (N2 : forall r', en_lenguaje r' l <-> en_lenguaje (Alt r' Nada) l).
  { intros r'. split; intros H; [apply L_alt_izq; exact H|].
    inversion H as [| | |r0 s0 l0 H1|r0 s0 l0 H1| |]; subst;
      [exact H1 | inversion H1]. }
  destruct r; destruct s; simpl;
    try apply N1; try apply N2; reflexivity.
Qed.

Lemma en_cat_sii (r s : regex) (l : list ascii) :
  en_lenguaje (Cat r s) l <->
  exists l1 l2, l = (l1 ++ l2)%list /\ en_lenguaje r l1 /\ en_lenguaje s l2.
Proof.
  split.
  - intros H. inversion H as [| |r0 s0 l1 l2 H1 H2| | | |]; subst. eauto.
  - intros (l1 & l2 & -> & H1 & H2). constructor; assumption.
Qed.

Lemma en_alt_sii (r s : regex) (l : list ascii) :
  en_lenguaje (Alt r s) l <-> en_lenguaje r l \/ en_lenguaje s l.
Proof.
  split.
  - intros H. inversion H; subst; auto.
  - intros [H|H]; [apply L_alt_izq | apply L_alt_der]; exact H.
Qed.

Lemma estrella_cabeza (r : regex) (c : ascii) (l : list ascii) :
  en_lenguaje (Estrella r) (c :: l) ->
  exists l1 l2,
    l = (l1 ++ l2)%list /\ en_lenguaje r (c :: l1) /\ en_lenguaje (Estrella r) l2.
Proof.
  intros H. remember (Estrella r) as e eqn:He. remember (c :: l) as w eqn:Hw.
  revert l Hw.
  induction H as [| | | | | |r0 l1 l2 H1 _ H2 IH2]; try discriminate.
  injection He as ->. intros l Hw.
  destruct l1 as [|c1 l1].
  - simpl in Hw. apply IH2; [reflexivity | exact Hw].
  - simpl in Hw. injection Hw as -> <-. eauto.
Qed.

Lemma derivada_sii (r : regex) :
  forall (c : ascii) (l : list ascii),
    en_lenguaje (derivada c r) l <-> en_lenguaje r (c :: l).
Proof.
  induction r as [| |p|r IHr s IHs|r IHr s IHs|r IHr]; intros c l; simpl.
  - split; intros H; inversion H.
  - split; intros H; inversion H.
  - destruct (p c) eqn:E; split; intros H.
    + inversion H; subst. constructor. exact E.
    + inversion H; subst. constructor.
    + inversion H.
    + inversion H; subst. congruence.
  - rewrite alt_sii, en_alt_sii, cat_sii, !en_cat_sii. split.
    + intros [(l1 & l2 & -> & H1 & H2) | H].
      * exists (c :: l1), l2. split; [reflexivity|]. split; [|exact H2].
        apply IHr. exact H1.
      * destruct (anulable r) eqn:A; [|inversion H].
        exists [], (c :: l). split; [reflexivity|].
        split; [apply anulable_sii; exact A | apply IHs; exact H].
    + intros (l1 & l2 & E & H1 & H2). destruct l1 as [|c1 l1].
      * right. simpl in E. subst l2.
        apply anulable_sii in H1. rewrite H1. apply IHs. exact H2.
      * left. simpl in E. injection E as <- ->.
        exists l1, l2. split; [reflexivity|]. split; [|exact H2].
        apply IHr. exact H1.
  - rewrite alt_sii, !en_alt_sii, IHr, IHs. reflexivity.
  - rewrite cat_sii, en_cat_sii. split.
    + intros (l1 & l2 & -> & H1 & H2).
      apply IHr in H1. exact (L_estrella_mas r (c :: l1) l2 H1 H2).
    + intros H. apply estrella_cabeza in H.
      destruct H as (l1 & l2 & -> & H1 & H2).
      exists l1, l2. split; [reflexivity|]. split; [|exact H2].
      apply IHr. exact H1.
Qed.

(** The matcher decides membership in the language of the pattern. *)
Lemma acepta_sii (l : list ascii) :
  forall r : regex, acepta r l = true <-> en_lenguaje r l.
Proof.
  induction l as [|c l IH]; intros r; simpl.
  - apply anulable_sii.
  - rewrite IH. apply derivada_sii.
Qed.

Lemma es_caracter_sii (n : nat) (c : ascii) :
  es_caracter n c = true -> c = ascii_of_nat n.
Proof.
  unfold es_caracter. intros H. apply Nat.eqb_eq in H.
  rewrite <- H. symmetry. apply ascii_nat_embedding.
Qed.

Lemma estrella_sii (r : regex) (l : list ascii) :
  en_lenguaje (Estrella r) l <->
  exists ls, l = concat ls /\ Forall (en_lenguaje r) ls.
Proof.
  split.
  - intros H. remember (Estrella r) as e eqn:He.
    induction H as [| | | | |r0|r0 l1 l2 H1 _ H2 IH2]; try discriminate.
    + exists []. split; [reflexivity | constructor].
    + injection He as ->. destruct (IH2 eq_refl) as (ls & -> & F).
      exists (l1 :: ls). split; [reflexivity | constructor; assumption].
  - intros (ls & -> & F). induction F as [|x ls Hx _ IH]; simpl.
    + constructor.
    + constructor; assumption.
Qed.

Lemma en_clase_sii (p : ascii -> bool) (l : list ascii) :
  en_lenguaje (Clase p) l <-> exists c, l = [c] /\ p c = true.
Proof.
  split.
  - intros H. inversion H; subst. eauto.
  - intros (c & -> & H). constructor. exact H.
Qed.

Lemma estrella_clase_sii (p : ascii -> bool) (l : list ascii) :
  en_lenguaje (Estrella (Clase p)) l <-> Forall (fun c => p c = true) l.
Proof.
  rewrite estrella_sii. split.
  - intros (ls & -> & F). induction F as [|x ls Hx _ IH]; simpl.
    + constructor.
    + apply en_clase_sii in Hx. destruct Hx as (c & -> & Hc).
      simpl. constructor; assumption.
  - intros F. exists (map (fun c => [c]) l). split.
    + induction l as [|c l IH]; simpl; [reflexivity|].
      inversion F; subst. f_equal. apply IH. assumption.
    + induction F as [|c l Hc _ IH]; simpl; constructor.
      * constructor. exact Hc.
      * exact IH.
Qed.

Lemma mas_clase_sii (p : ascii -> bool) (l : list ascii) :
  en_lenguaje (mas (Clase p)) l <-> l <> [] /\ Forall (fun c => p c = true) l.
Proof.
  unfold mas. rewrite en_cat_sii. split.
  - intros (l1 & l2 & -> & H1 & H2).
    apply en_clase_sii in H1. destruct H1 as (c & -> & Hc).
    apply estrella_clase_sii in H2. split; [discriminate|].
    simpl. constructor; assumption.
  - intros [Hne F]. destruct l as [|c l]; [contradiction|].
    inversion F; subst. exists [c], l. split; [reflexivity|].
    split; [constructor; assumption | apply estrella_clase_sii; assumption].
Qed.

Lemma hasta_clase_sii (p : ascii -> bool) (n : nat) :
  forall l : list ascii,
    en_lenguaje (hasta n (Clase p)) l <->
    (length l <= n)%nat /\ Forall (fun c => p c = true) l.
Proof.
  induction n as [|n IH]; intros l; simpl.
  - split.
    + intros H. inversion H; subst. split; [simpl; lia | constructor].
    + intros [Hl _]. destruct l; [constructor | simpl in Hl; lia].
  - unfold opcional. rewrite en_alt_sii, en_cat_sii. split.
    + intros [H | (l1 & l2 & -> & H1 & H2)].
      * inversion H; subst. split; [simpl; lia | constructor].
      * apply en_clase_sii in H1. destruct H1 as (c & -> & Hc).
        apply IH in H2. destruct H2 as [Hl F].
        split; [simpl; lia | simpl; constructor; assumption].
    + intros [Hl F]. destruct l as [|c l]; [left; constructor|].
      right. inversion F; subst. exists [c], l. split; [reflexivity|].
      split; [constructor; assumption|]. apply IH.
      split; [simpl in Hl; lia | assumption].
Qed.

Lemma alfanumerico_en_etiqueta (c : ascii) :
  es_alfanumerico c = true -> clase_etiqueta c = true.
Proof.
  unfold clase_etiqueta. intros ->. reflexivity.
Qed.

Lemma patron_etiqueta_sii (l : list ascii) :
  en_lenguaje patron_etiqueta l <-> es_etiqueta l.
Proof.
  unfold patron_etiqueta, opcional, es_etiqueta.
  change (fun c : ascii => es_alfanumerico c || es_caracter 45 c)
    with clase_etiqueta.
  rewrite en_cat_sii. split.
  - intros (l1 & l2 & -> & H1 & H2).
    apply en_clase_sii in H1. destruct H1 as (c & -> & Hc).
    apply en_alt_sii in H2. destruct H2 as [H2 | H2].
    + inversion H2; subst. simpl.
      split; [lia|]. split; [repeat constructor; apply alfanumerico_en_etiqueta; exact Hc|].
      split; exists c; auto.
    + apply en_cat_sii in H2. destruct H2 as (mid & l3 & -> & Hm & Hd).
      apply hasta_clase_sii in Hm. destruct Hm as [Hl F].
      apply en_clase_sii in Hd. destruct Hd as (d & -> & Hd).
      split; [simpl; rewrite length_app; simpl; lia|].
      split.
      { simpl. constructor; [apply alfanumerico_en_etiqueta; exact Hc|].
        apply Forall_app. split; [exact F|].
        repeat constructor. apply alfanumerico_en_etiqueta. exact Hd. }
      split; [exists c; auto|].
      exists d. split; [|exact Hd].
      simpl. rewrite rev_app_distr. reflexivity.
  - intros (Hl & F & (c & Hc & Ac) & (d & Hd & Ad)).
    destruct l as [|c0 rest]; [discriminate Hc|].
    simpl in Hc. injection Hc as ->.
    exists [c], rest. split; [reflexivity|].
    split; [constructor; exact Ac|].
    apply en_alt_sii.
    destruct rest as [|x rest']; [left; constructor|].
    right.
    destruct (@exists_last _ (x :: rest') ltac:(discriminate)) as (mid & d0 & E).
    rewrite E in *. clear E x rest'.
    apply en_cat_sii. exists mid, [d0]. split; [reflexivity|].
    inversion F as [|? ? _ F']; subst.
    apply Forall_app in F'. destruct F' as [Fm _].
    simpl in Hd. rewrite rev_app_distr in Hd. simpl in Hd. injection Hd as ->.
    split; [|constructor; exact Ad].
    apply hasta_clase_sii. split; [|exact Fm].
    simpl in Hl. rewrite length_app in Hl. simpl in Hl. lia.
Qed.

Lemma patron_dominio_sii (l : list ascii) :
  en_lenguaje patron_dominio l <->
  exists e es, l = unir_etiquetas e es /\ Forall es_etiqueta (e :: es).
Proof.
  unfold patron_dominio, unir_etiquetas. rewrite en_cat_sii. split.
  - intros (l1 & l2 & -> & H1 & H2).
    apply patron_etiqueta_sii in H1. apply estrella_sii in H2.
    destruct H2 as (ls & -> & F).
    assert (G : exists es, ls = map (cons punto) es /\ Forall es_etiqueta es).
    { induction F as [|x ls Hx _ IH].
      - exists []. split; [reflexivity | constructor].
      - destruct IH as (es & -> & Fe).
        apply en_cat_sii in Hx. destruct Hx as (d & e & -> & Hd & He).
        apply en_clase_sii in Hd. destruct Hd as (c & -> & Hc).
        apply es_caracter_sii in Hc. subst c.
        apply patron_etiqueta_sii in He.
        exists (e :: es). split; [reflexivity | constructor; assumption]. }
    destruct G as (es & -> & Fe).
    exists l1, es. split; [reflexivity | constructor; assumption].
  - intros (e & es & -> & F). inversion F as [|? ? He Fe]; subst.
    exists e, (concat (map (cons punto) es)). split; [reflexivity|].
    split; [apply patron_etiqueta_sii; exact He|].
    apply estrella_sii. exists (map (cons punto) es). split; [reflexivity|].
    apply Forall_map. apply Forall_impl with (2 := Fe).
    intros x Hx. apply (L_cat (Clase (es_caracter 46)) patron_etiqueta [punto] x).
    + constructor. reflexivity.
    + apply patron_etiqueta_sii. exact Hx.
Qed.

(** [re.match] with the end anchor: the pattern spans the text, or the text
    without one final newline. *)
Lemma re_match_sii (r : regex) (s : string) :
  re_match r s = true <->
  exists l0,
    en_lenguaje r l0 /\ salvo_salto_final (list_ascii_of_string s) l0.
Proof.
  unfold re_match, salvo_salto_final.
  set (l := list_ascii_of_string s). rewrite orb_true_iff. split.
  - intros [H | H].
    + exists l. split; [apply acepta_sii; exact H | left; reflexivity].
    + destruct (rev l) as [|c l'] eqn:E; [discriminate|].
      apply andb_true_iff in H. destruct H as [Hc H].
      apply es_caracter_sii in Hc. subst c.
      exists (rev l'). split; [apply acepta_sii; exact H|]. right.
      rewrite <- (rev_involutive l), E. reflexivity.
  - intros (l0 & H & [E | E]).
    + left. rewrite E. apply acepta_sii. exact H.
    + right. rewrite E, rev_app_distr. simpl.
      rewrite rev_involutive. apply acepta_sii. exact H.
Qed.

Lemma mensajes_todos_distintos :
  NoDup [err_nombre; err_puerto; err_host; err_bitrate; err_titulo; err_source].
Proof.
  repeat constructor; simpl; intuition discriminate.
Qed.

Lemma no_vacia_falso (s : string) : no_vacia s = false <-> s = "".
Proof.
  destruct s; simpl; split; congruence.
Qed.

(** The list [validar] returns, check by check. *)
Lemma validar_forma (ip : string -> bool) (c : EventoConfig) :
  validar ip c =
    ((if negb (no_vacia (nombre c)) || negb (re_match patron_nombre (nombre c))
      then [err_nombre] else [])
     ++ (if negb ((1024 <=? puerto c) && (puerto c <=? 65535))
         then [err_puerto] else [])
     ++ (if negb (ip (host c)) && negb (re_match patron_dominio (host c))
         then [err_host] else [])
     ++ (if negb ((0 <=? bitrate c) && (bitrate c <=? 10000000))
         then [err_bitrate] else [])
     ++ (if negb (no_vacia (strip (titulo c))) then [err_titulo] else [])
     ++ (if negb (no_vacia (strip (source c))) then [err_source] else []))%list.
Proof.
  unfold validar, _es_ip_valida, _es_dominio_valido.
  destruct (negb (no_vacia (nombre c)) || negb (re_match patron_nombre (nombre c)));
    destruct (negb ((1024 <=? puerto c) && (puerto c <=? 65535)));
    destruct (negb (ip (host c)) && negb (re_match patron_dominio (host c)));
    destruct (negb ((0 <=? bitrate c) && (bitrate c <=? 10000000)));
    destruct (negb (no_vacia (strip (titulo c))));
    destruct (negb (no_vacia (strip (source c)))); reflexivity.
Qed.

Lemma en_condicional (b : bool) (x y : string) :
  In y (if b then [x] else []) <-> b = true /\ y = x.
Proof.
  destruct b; simpl; intuition congruence.
Qed.

Lemma validar_en (ip : string -> bool) (c : EventoConfig) (e : string) :
  In e (validar ip c) <->
  (negb (no_vacia (nombre c)) || negb (re_match patron_nombre (nombre c)) = true
   /\ e = err_nombre)
  \/ (negb ((1024 <=? puerto c) && (puerto c <=? 65535)) = true
      /\ e = err_puerto)
  \/ (negb (ip (host c)) && negb (re_match patron_dominio (host c)) = true
      /\ e = err_host)
  \/ (negb ((0 <=? bitrate c) && (bitrate c <=? 10000000)) = true
      /\ e = err_bitrate)
  \/ (negb (no_vacia (strip (titulo c))) = true /\ e = err_titulo)
  \/ (negb (no_vacia (strip (source c))) = true /\ e = err_source).
Proof.
  rewrite validar_forma, !in_app_iff, !en_condicional. reflexivity.
Qed.

Lemma violacion_de_nombre_sii (ip : string -> bool) (c : EventoConfig) :
  In err_nombre (validar ip c) <->
  negb (no_vacia (nombre c)) || negb (re_match patron_nombre (nombre c)) = true.
Proof.
  rewrite validar_en. intuition discriminate.
Qed.

Lemma violacion_de_host_sii (ip : string -> bool) (c : EventoConfig) :
  In err_host (validar ip c) <->
  negb (ip (host c)) && negb (re_match patron_dominio (host c)) = true.
Proof.
  rewrite validar_en. intuition discriminate.
Qed.

(** ** Record validation, check by check *)

(** X1.  [validar] evaluates its six checks independently: each violation
    is in the list exactly when its own check fails, whatever the other
    fields are; no violation is listed twice, and nothing else is listed. *)
Theorem validar_violaciones (ip : string -> bool) (c : EventoConfig) :
  (In err_nombre (validar ip c) <->
     nombre c = "" \/ re_match patron_nombre (nombre c) = false)
  /\ (In err_puerto (validar ip c) <-> ~ (1024 <= puerto c <= 65535))
  /\ (In err_host (validar ip c) <->
        ip (host c) = false /\ re_match patron_dominio (host c) = false)
  /\ (In err_bitrate (validar ip c) <-> ~ (0 <= bitrate c <= 10000000))
  /\ (In err_titulo (validar ip c) <-> strip (titulo c) = "")
  /\ (In err_source (validar ip c) <-> strip (source c) = "")
  /\ NoDup (validar ip c)
  /\ incl (validar ip c)
       [err_nombre; err_puerto; err_host; err_bitrate; err_titulo; err_source].
Proof.
  split.
  { rewrite violacion_de_nombre_sii, orb_true_iff, !negb_true_iff,
      no_vacia_falso. reflexivity. }
  split; [apply violacion_de_puerto_sii|].
  split.
  { rewrite violacion_de_host_sii, andb_true_iff, !negb_true_iff.
    reflexivity. }
  split.
  { rewrite validar_en, <- en_rango_sii.
    destruct ((0 <=? bitrate c) && (bitrate c <=? 10000000)); simpl;
      intuition discriminate. }
  split.
  { rewrite validar_en, <- no_vacia_falso.
    destruct (no_vacia (strip (titulo c))); simpl; intuition discriminate. }
  split.
  { rewrite validar_en, <- no_vacia_falso.
    destruct (no_vacia (strip (source c))); simpl; intuition discriminate. }
  split.
  - rewrite validar_forma.
    destruct (negb (no_vacia (nombre c)) || negb (re_match patron_nombre (nombre c)));
      destruct (negb ((1024 <=? puerto c) && (puerto c <=? 65535)));
      destruct (negb (ip (host c)) && negb (re_match patron_dominio (host c)));
      destruct (negb ((0 <=? bitrate c) && (bitrate c <=? 10000000)));
      destruct (negb (no_vacia (strip (titulo c))));
      destruct (negb (no_vacia (strip (source c))));
      simpl; repeat constructor; simpl; intuition discriminate.
  - intros e H. apply validar_en in H. simpl.
    destruct H as [[_ ->]|[[_ ->]|[[_ ->]|[[_ ->]|[[_ ->]|[_ ->]]]]]]; auto 10.
Qed.

(** X2.  The name check passes exactly for a non-empty run of letters,
    digits, underscores and hyphens, optionally followed by one newline:
    the end anchor of the pattern lets a final newline through. *)
Theorem nombre_aceptado_sii (ip : string -> bool) (c : EventoConfig) :
  ~ In err_nombre (validar ip c) <->
  exists l0,
    l0 <> []
    /\ Forall (fun x => clase_nombre x = true) l0
    /\ salvo_salto_final (list_ascii_of_string (nombre c)) l0.
Proof.
  rewrite violacion_de_nombre_sii, not_true_iff_false, orb_false_iff,
    !negb_false_iff, re_match_sii.
  unfold patron_nombre.
  change (fun c0 : ascii => es_alfanumerico c0 || es_caracter 95 c0 || es_caracter 45 c0)
    with clase_nombre.
  split.
  - intros [_ (l0 & H & S)]. apply mas_clase_sii in H. destruct H as [Hne F].
    exists l0. auto.
  - intros (l0 & Hne & F & S). split.
    + destruct (nombre c) as [|a s]; [|reflexivity].
      destruct S as [S | S]; simpl in S.
      * congruence.
      * destruct l0; discriminate S.
    + exists l0. split; [apply mas_clase_sii; auto | exact S].
Qed.

(** X3.  The host check passes exactly when [ipaddress] accepts the host or
    the host is a sequence of DNS labels joined by dots (each of 1 to 63
    letters, digits and hyphens, not starting or ending with a hyphen),
    optionally followed by one newline. *)
Theorem host_aceptado_sii (ip : string -> bool) (c : EventoConfig) :
  ~ In err_host (validar ip c) <->
  ip (host c) = true
  \/ exists e es,
       Forall es_etiqueta (e :: es)
       /\ salvo_salto_final (list_ascii_of_string (host c)) (unir_etiquetas e es).
Proof.
  rewrite violacion_de_host_sii, not_true_iff_false, andb_false_iff,
    !negb_false_iff, re_match_sii.
  split.
  - intros [H | (l0 & H & S)]; [left; exact H|]. right.
    apply patron_dominio_sii in H. destruct H as (e & es & -> & F).
    exists e, es. auto.
  - intros [H | (e & es & F & S)]; [left; exact H|]. right.
    exists (unir_etiquetas e es). split; [|exact S].
    apply patron_dominio_sii. exists e, es. auto.
Qed.

(** ** Numbers written and read back *)



(** What [int] skips is whitespace for [str.strip] too; the converse fails
    at the separators U+001C to U+001F. *)
Lemma blanco_es_espacio (c : ascii) :
  es_blanco_de_int c = true -> es_espacio c = true.
Proof.
  unfold es_blanco_de_int, es_espacio, es_caracter, entre.
  rewrite !orb_true_iff, !andb_true_iff, !Nat.leb_le, !Nat.eqb_eq.
  intros [[[H|H]|H]|H]; auto.
  left. left. right. lia.
Qed.

Lemma no_espacio_no_blanco (c : ascii) :
  es_espacio c = false -> es_blanco_de_int c = false.
Proof.
  intros H. destruct (es_blanco_de_int c) eqn:E; [|reflexivity].
  apply blanco_es_espacio in E. congruence.
Qed.

Lemma quitar_blancos_sin_espacios (l : list ascii) :
  sin_espacios l -> quitar_blancos l = l.
Proof.
  intros H. destruct H as [|c l Hc _]; simpl; [reflexivity|].
  rewrite (no_espacio_no_blanco _ Hc). reflexivity.
Qed.

Lemma sin_blancos_sin_espacios (s : string) :
  sin_espacios (list_ascii_of_string s) -> sin_blancos s = s.
Proof.
  intros H. unfold sin_blancos.
  rewrite (quitar_blancos_sin_espacios _ H).
  rewrite quitar_blancos_sin_espacios by (apply Forall_rev; exact H).
  rewrite rev_involutive. apply string_of_list_ascii_of_string.
Qed.

Lemma quitar_blancos_final (a : list ascii) (c : ascii) :
  es_blanco_de_int c = false ->
  exists a', quitar_blancos (a ++ [c]) = (a' ++ [c])%list.
Proof.
  intros H. induction a as [|x a [a' IH]]; simpl.
  - rewrite H. exists []. reflexivity.
  - destruct (es_blanco_de_int x); [exists a'; exact IH|].
    exists (x :: a). reflexivity.
Qed.

(** A text that begins with one of the separators U+001C to U+001F is not
    an integer for [int], whatever follows, although [str.strip] would take
    the separator away: a port stored as such a separator followed by digits
    raises when the record is built. *)
Lemma separador_no_es_entero (c : ascii) (s : string) :
  entre 28 31 c = true ->
  es_espacio c = true
  /\ int_de_str (String c s) = None
  /\ py_int (Some (String c s))
     = Lanza (ValueError (literal_invalido (String c s))).
Proof.
  intros H.
  assert (N : (28 <= nat_of_ascii c <= 31)%nat).
  { unfold entre in H. apply andb_true_iff in H.
    rewrite !Nat.leb_le in H. exact H. }
  assert (B : es_blanco_de_int c = false).
  { unfold es_blanco_de_int, es_caracter, entre.
    rewrite !orb_false_iff, andb_false_iff, !Nat.leb_gt, !Nat.eqb_neq. lia. }
  assert (I : int_de_str (String c s) = None).
  { unfold int_de_str, sin_blancos. cbn [list_ascii_of_string quitar_blancos].
    rewrite B. cbn [rev].
    destruct (quitar_blancos_final (rev (list_ascii_of_string s)) c B)
      as [a' ->].
    rewrite rev_app_distr, list_ascii_of_string_of_list_ascii. cbn [rev app].
    assert (E45 : es_caracter 45 c = false)
      by (unfold es_caracter; apply Nat.eqb_neq; lia).
    assert (E43 : es_caracter 43 c = false)
      by (unfold es_caracter; apply Nat.eqb_neq; lia).
    assert (Ed : es_digito c = false).
    { unfold es_digito, entre. apply andb_false_iff. left.
      apply Nat.leb_gt. lia. }
    rewrite E45, E43. unfold leer_natural. rewrite Ed. reflexivity. }
  split; [|split; [exact I | unfold py_int; rewrite I; reflexivity]].
  unfold es_espacio, entre. rewrite !orb_true_iff, !andb_true_iff, !Nat.leb_le.
  left. left. right. lia.
Qed.

Lemma digitos_de_uint (d : Decimal.uint) :
  sin_espacios (list_ascii_of_string (NilEmpty.string_of_uint d))
  /\ forall acc,
       leer_digitos acc (list_ascii_of_string (NilEmpty.string_of_uint d))
       = Some (valor_uint acc d).
Proof.
  induction d as [|d [S IH]|d [S IH]|d [S IH]|d [S IH]|d [S IH]|d [S IH]
                  |d [S IH]|d [S IH]|d [S IH]|d [S IH]];
    (split; [try constructor; try reflexivity; try exact S
            | intros acc; simpl; try reflexivity; apply IH]).
Qed.

Lemma valor_uint_positivo (d : Decimal.uint) :
  forall p : positive, valor_uint (Zpos p) d = Zpos (Pos.of_uint_acc d p).
Proof.
  induction d; intros p; cbn [valor_uint Pos.of_uint_acc]; try reflexivity;
    match goal with
    | |- valor_uint ?z _ = _ =>
        match goal with
        | |- _ = Zpos (Pos.of_uint_acc _ ?q) =>
            replace z with (Zpos q) by lia
        end
    end; apply IHd.
Qed.

Lemma valor_uint_cero (d : Decimal.uint) :
  valor_uint 0 d = Z.of_N (Pos.of_uint d).
Proof.
  induction d; simpl; try reflexivity; try exact IHd;
    apply valor_uint_positivo.
Qed.

Lemma leer_natural_de_positivo (p : positive) :
  exists c l,
    list_ascii_of_string (NilEmpty.string_of_uint (Pos.to_uint p)) = c :: l
    /\ es_caracter 45 c = false
    /\ es_caracter 43 c = false
    /\ leer_natural (c :: l) = Some (Zpos p).
Proof.
  pose proof (Unsigned.of_to p) as E.
  pose proof (Unsigned.to_uint_nonnil p) as N.
  destruct (digitos_de_uint (Pos.to_uint p)) as [_ L].
  specialize (L 0). rewrite valor_uint_cero, E in L. simpl Z.of_N in L.
  destruct (Pos.to_uint p) as [|d|d|d|d|d|d|d|d|d|d]; [contradiction|..];
    simpl in L |- *; eexists; eexists;
    (split; [reflexivity|]); (split; [reflexivity|]);
    (split; [reflexivity|]); exact L.
Qed.

(** [int(str(n)) == n]: what is written for a port or a bitrate is read
    back as the same integer. *)
Lemma int_de_str_de_int (n : Z) : int_de_str (str_de_int n) = Some n.
Proof.
  unfold str_de_int, int_de_str.
  destruct n as [|p|p]; [reflexivity|..];
    simpl Z.to_int; unfold NilZero.string_of_int, NilZero.string_of_uint;
    pose proof (Unsigned.to_uint_nonnil p) as N;
    destruct (leer_natural_de_positivo p) as (c & l & E & H45 & H43 & R);
    destruct (digitos_de_uint (Pos.to_uint p)) as [S _].
  - assert (Q : NilEmpty.string_of_uint (Pos.to_uint p)
                = match Pos.to_uint p with
                  | Decimal.Nil => "0"
                  | _ => NilEmpty.string_of_uint (Pos.to_uint p)
                  end).
    { destruct (Pos.to_uint p); [contradiction|..]; reflexivity. }
    rewrite <- Q, (sin_blancos_sin_espacios _ S), E, H45, H43. exact R.
  - assert (Q : NilEmpty.string_of_uint (Pos.to_uint p)
                = match Pos.to_uint p with
                  | Decimal.Nil => "0"
                  | _ => NilEmpty.string_of_uint (Pos.to_uint p)
                  end).
    { destruct (Pos.to_uint p); [contradiction|..]; reflexivity. }
    rewrite <- Q.
    rewrite sin_blancos_sin_espacios
      by (simpl; constructor; [reflexivity | exact S]).
    simpl. rewrite E, R. reflexivity.
Qed.

(** ** More on the CSV store *)

(** X4.  The row that menu option 1 writes for a record is rebuilt by the
    engine into the same record: the port and the bitrate survive the trip
    through their decimal text. *)
Theorem alta_y_lectura (c : EventoConfig) :
  construir_config (fila_a_evento cabeceras (fila_nueva c)) = Ok c
  /\ nueve (fila_nueva c)
  /\ nth_error (fila_nueva c) 8 = Some "".
Proof.
  split; [|split; reflexivity].
  unfold fila_nueva. rewrite construir_config_nueve, !int_de_str_de_int.
  destruct c; reflexivity.
Qed.

Lemma leer_filas_app (filas filas' : list (list string)) :
  leer_filas (filas ++ filas') = (leer_filas filas ++ leer_filas filas')%list.
Proof.
  unfold leer_filas. rewrite filter_app, map_app. reflexivity.
Qed.

(** X5.  [_guardar_evento] refuses a row whose number of fields is not
    nine, with a [ValueError] and the world untouched; a row of nine fields
    goes after the rows already there, which stay as they were, and is the
    last event of the next read. *)
Theorem guardar_y_leer (evento : list string) (m : Mundo) :
  (length evento <> 9%nat ->
     exists msg, _guardar_evento evento m = (m, Lanza (ValueError msg)))
  /\ (length evento = 9%nat ->
      exists m1,
        _guardar_evento evento m = (m1, Ok tt)
        /\ csv m1 = (csv m ++ [evento])%list
        /\ snd (_leer_eventos_csv m1)
           = Ok (leer_filas (csv m) ++ [fila_a_evento cabeceras evento])%list).
Proof.
  unfold _guardar_evento. split; intros H.
  - apply Nat.eqb_neq in H. change (length cabeceras) with 9%nat.
    rewrite H. eexists. reflexivity.
  - change (length cabeceras) with 9%nat. rewrite H, Nat.eqb_refl.
    eexists. split; [reflexivity|]. split; [reflexivity|].
    unfold _leer_eventos_csv. cbn [snd csv anotar].
    rewrite leer_filas_app. f_equal. f_equal.
    destruct evento; [discriminate H | reflexivity].
Qed.

Lemma guardar_y_leer_testigo :
  length fila_demo = 9%nat
  /\ exists m1,
       _guardar_evento fila_demo mundo_demo = (m1, Ok tt)
       /\ csv m1 = [fila_demo; fila_demo].
Proof.
  assert (H : length fila_demo = 9%nat) by reflexivity.
  split; [exact H|].
  destruct (guardar_y_leer fila_demo mundo_demo) as [_ G].
  destruct (G H) as (m1 & E & C & _).
  exists m1. split; [exact E | exact C].
Defined.

Lemma claves_de_fila (fila : list string) (campo : string) :
  In campo cabeceras ->
  exists v, dict_buscar (fila_a_evento cabeceras fila) campo = Some v.
Proof.
  intros H.
  destruct fila as [|n [|t [|p [|tk [|tr [|s [|h [|b [|cid resto]]]]]]]]];
    simpl in H;
    repeat (destruct H as [<- | H]; [eexists; reflexivity|]);
    contradiction.
Qed.

Lemma construir_config_casos (fila : list string) :
  (exists c, construir_config (fila_a_evento cabeceras fila) = Ok c)
  \/ (exists msg,
        construir_config (fila_a_evento cabeceras fila) = Lanza (ValueError msg))
  \/ (construir_config (fila_a_evento cabeceras fila) = Lanza TypeError
      /\ (length fila < 8)%nat).
Proof.
  destruct fila as [|n [|t [|p [|tk [|tr [|s [|h [|b resto]]]]]]]];
    unfold construir_config; simpl; unfold py_int;
    try (right; right; split; [reflexivity | simpl; lia]);
    try (destruct (int_de_str p); simpl;
         [right; right; split; [reflexivity | simpl; lia]
         | right; left; eexists; reflexivity]).
  destruct (int_de_str p); simpl; [|right; left; eexists; reflexivity].
  destruct (int_de_str b); simpl; [|right; left; eexists; reflexivity].
  left. destruct resto; eexists; reflexivity.
Qed.

(** X6.  Every event read from the file has the nine keys of the header,
    so that no lookup of the engine raises [KeyError]: building the record
    from it succeeds, or raises the [ValueError] of a port or bitrate that
    is not an integer, or, for a row of fewer than eight fields, the
    [TypeError] of [int(None)]. *)
Theorem eventos_con_todas_las_claves (filas : list (list string))
    (evento : Evento) :
  In evento (leer_filas filas) ->
  (forall campo, In campo cabeceras ->
     exists v, dict_indice evento campo = Ok v)
  /\ (forall k, construir_config evento <> Lanza (KeyError k))
  /\ ((exists c, construir_config evento = Ok c)
      \/ (exists msg, construir_config evento = Lanza (ValueError msg))
      \/ construir_config evento = Lanza TypeError).
Proof.
  intros H. unfold leer_filas in H. apply in_map_iff in H.
  destruct H as (fila & <- & _).
  split.
  { intros campo Hc. destruct (claves_de_fila fila campo Hc) as (v & E).
    exists v. unfold dict_indice. rewrite E. reflexivity. }
  destruct (construir_config_casos fila) as [(c & E) | [(msg & E) | (E & _)]];
    rewrite E.
  - split; [discriminate | left; eauto].
  - split; [discriminate | right; left; eauto].
  - split; [discriminate | right; right; reflexivity].
Qed.

Lemma eventos_con_todas_las_claves_testigo :
  In evento_demo (leer_filas (csv mundo_demo))
  /\ exists c, construir_config evento_demo = Ok c.
Proof.
  assert (H : In evento_demo (leer_filas (csv mundo_demo))).
  { left. reflexivity. }
  split; [exact H|].
  destruct (eventos_con_todas_las_claves _ _ H)
    as (_ & _ & [E | [(msg & E) | E]]).
  - exact E.
  - exfalso. vm_compute in E. discriminate E.
  - exfalso. vm_compute in E. discriminate E.
Defined.

Lemma actualiza_fila_nueve (n : string) (c : option string)
    (fila : list string) :
  nueve fila ->
  nueve (actualiza_fila n c fila)
  /\ nth_error (actualiza_fila n c fila) 0 = nth_error fila 0
  /\ firstn 8 (actualiza_fila n c fila) = firstn 8 fila.
Proof.
  intros H. unfold actualiza_fila.
  destruct (igual_a (nth_error fila 0) n); [|auto].
  unfold nueve in H.
  destruct fila as [|a [|b [|d [|e [|f [|g [|h [|i [|j [|k fila]]]]]]]]]];
    simpl in H; try lia.
  repeat split.
Qed.

Lemma csv_actualizado (n : string) (c : option string) (m : Mundo) :
  Forall nueve (csv m) ->
  csv (fst (_actualizar_content_id n c m))
    = map (actualiza_fila n c) (csv m).
Proof.
  intros H. rewrite (actualizar_nueve n c m H). reflexivity.
Qed.

Lemma nueve_actualizado (n : string) (c : option string)
    (filas : list (list string)) :
  Forall nueve filas -> Forall nueve (map (actualiza_fila n c) filas).
Proof.
  intros H. apply Forall_map. apply Forall_impl with (2 := H).
  intros fila Hf. apply actualiza_fila_nueve. exact Hf.
Qed.

Lemma actualiza_fila_dos (n1 n2 : string) (c1 c2 : option string)
    (fila : list string) :
  nueve fila ->
  actualiza_fila n2 c2 (actualiza_fila n1 c1 fila) =
    if igual_a (nth_error fila 0) n2 then con_content_id fila (celda c2)
    else actualiza_fila n1 c1 fila.
Proof.
  intros H. unfold nueve in H.
  destruct fila as [|a [|b [|d [|e [|f [|g [|h [|i [|j [|k fila]]]]]]]]]];
    simpl in H; try lia.
  unfold actualiza_fila. simpl.
  destruct (String.eqb a n1); simpl; destruct (String.eqb a n2); reflexivity.
Qed.

(** X7.  On a store of nine-field rows, commits behave as assignments to
    the rows of a name: a commit repeated changes nothing more, the later
    of two commits for a name is the one that stays, commits for two
    different names can be made in either order, and a commit for a name
    that no row bears leaves every row as it was. *)
Theorem confirmaciones (n n' : string) (c c' : option string) (m : Mundo) :
  Forall nueve (csv m) ->
  let A := fun n c m => fst (_actualizar_content_id n c m) in
  csv (A n c (A n c m)) = csv (A n c m)
  /\ csv (A n c' (A n c m)) = csv (A n c' m)
  /\ (n <> n' -> csv (A n' c' (A n c m)) = csv (A n c (A n' c' m)))
  /\ ((forall fila, In fila (csv m) -> nth_error fila 0 <> Some n) ->
      csv (A n c m) = csv m).
Proof.
  intros H A. unfold A.
  assert (Q : forall a b a' b',
             csv (fst (_actualizar_content_id a' b'
                         (fst (_actualizar_content_id a b m))))
             = map (fun fila => actualiza_fila a' b' (actualiza_fila a b fila))
                 (csv m)).
  { intros a b a' b'. rewrite csv_actualizado.
    - rewrite csv_actualizado by exact H. apply map_map.
    - rewrite csv_actualizado by exact H. apply nueve_actualizado. exact H. }
  rewrite !Q, !csv_actualizado by exact H.
  rewrite Forall_forall in H.
  split; [|split; [|split]].
  - apply map_ext_in. intros fila Hf. rewrite actualiza_fila_dos by auto.
    unfold actualiza_fila. destruct (igual_a (nth_error fila 0) n); reflexivity.
  - apply map_ext_in. intros fila Hf. rewrite actualiza_fila_dos by auto.
    unfold actualiza_fila. destruct (igual_a (nth_error fila 0) n); reflexivity.
  - intros Hn. apply map_ext_in. intros fila Hf.
    rewrite !actualiza_fila_dos by auto. unfold actualiza_fila.
    destruct (igual_a (nth_error fila 0) n) eqn:E1;
      destruct (igual_a (nth_error fila 0) n') eqn:E2; try reflexivity.
    apply igual_a_sii in E1. apply igual_a_sii in E2. congruence.
  - intros Hnone. rewrite <- (map_id (csv m)) at 2.
    apply map_ext_in. intros fila Hf. unfold actualiza_fila.
    destruct (igual_a (nth_error fila 0) n) eqn:E; [|reflexivity].
    apply igual_a_sii in E. exfalso. exact (Hnone fila Hf E).
Qed.

Lemma confirmaciones_testigo :
  Forall nueve (csv mundo_repetido)
  /\ csv (fst (_actualizar_content_id "demo" (Some "b")
                 (fst (_actualizar_content_id "demo" (Some "a") mundo_repetido))))
     = csv (fst (_actualizar_content_id "demo" (Some "b") mundo_repetido)).
Proof.
  assert (H : Forall nueve (csv mundo_repetido)) by (repeat constructor).
  split; [exact H|].
  destruct (confirmaciones "demo" "otro" (Some "a") (Some "b") mundo_repetido H)
    as (_ & L & _).
  exact L.
Defined.

Lemma filas_normalizadas (n : string) (c : option string)
    (filas : list (list string)) :
  Forall2 (fila_normalizada n c) filas
    (map (fun f => fila_actualizada n c (fila_a_evento cabeceras f)) filas).
Proof.
  induction filas as [|f filas IH]; cbn [map]; constructor; [|exact IH].
  exact (fila_actualizada_columnas n c f).
Qed.

(** X8.  Whatever the rows of the file are, a commit writes one row for
    each row that was not blank, in the same order, and each row written
    has nine cells: the cells of the row it comes from at the first nine
    columns, so that a longer row is cut, empty cells where the row was
    shorter, and the committed value in the last column when the first cell
    is the name.  Repeating the commit on that file changes nothing. *)
Theorem reescritura_normaliza (n : string) (c : option string) (m : Mundo) :
  Forall2 (fila_normalizada n c)
    (filter (fun f => negb (fila_vacia f)) (csv m))
    (csv (fst (_actualizar_content_id n c m)))
  /\ Forall nueve (csv (fst (_actualizar_content_id n c m)))
  /\ length (csv (fst (_actualizar_content_id n c m)))
     = length (filter (fun f => negb (fila_vacia f)) (csv m))
  /\ csv (fst (_actualizar_content_id n c
                 (fst (_actualizar_content_id n c m))))
     = csv (fst (_actualizar_content_id n c m)).
Proof.
  assert (N : Forall nueve (csv (fst (_actualizar_content_id n c m)))).
  { apply (proj2 (esquema_conservado m)). }
  split.
  { cbn. unfold leer_filas. rewrite map_map. apply filas_normalizadas. }
  split; [exact N|]. split.
  - cbn. unfold leer_filas. rewrite !length_map. reflexivity.
  - set (m1 := fst (_actualizar_content_id n c m)) in *.
    rewrite csv_actualizado by exact N.
    rewrite <- (map_id (csv m1)) at 2. apply map_ext_in. intros fila Hf.
    unfold m1 in Hf. cbn in Hf. apply in_map_iff in Hf.
    destruct Hf as (ev & <- & Hev).
    unfold leer_filas in Hev. apply in_map_iff in Hev.
    destruct Hev as (f0 & <- & Hf0).
    apply filter_In in Hf0. destruct Hf0 as [_ Hnb].
    destruct f0 as [|y f0]; [discriminate Hnb|].
    destruct (fila_actualizada_columnas n c (y :: f0)) as [L C].
    remember (fila_actualizada n c (fila_a_evento cabeceras (y :: f0)))
      as fila eqn:Efila.
    pose proof (C 0%nat ltac:(lia)) as C0.
    pose proof (C 8%nat ltac:(lia)) as C8.
    clear Efila C.
    destruct fila as [|a [|b [|d [|e [|f [|g [|h [|i [|j [|k fila]]]]]]]]]];
      simpl in L; try lia.
    simpl in C0, C8. subst a.
    unfold actualiza_fila. simpl.
    destruct (String.eqb y n); [|reflexivity].
    subst j. reflexivity.
Qed.

(** ** The file under the store *)

Lemma evento_de_fila_cabeceras (fila : list string) :
  evento_de_fila cabeceras fila = fila_a_evento cabeceras fila.
Proof.
  destruct fila as [|a [|b [|d [|e [|f [|g [|h [|i [|j resto]]]]]]]]];
    try reflexivity.
  unfold evento_de_fila. cbn [length skipn cabeceras].
  rewrite skipn_nil. reflexivity.
Qed.

Lemma dict_buscar_poner (d : Dict) (k k' : string) (v : option string) :
  dict_buscar (dict_poner d k v) k' =
    if String.eqb k k' then Some v else dict_buscar d k'.
Proof.
  induction d as [|[k0 v0] d IH]; simpl.
  - reflexivity.
  - destruct (String.eqb k0 k) eqn:E; simpl.
    + apply String.eqb_eq in E. subst k0.
      destruct (String.eqb k k'); reflexivity.
    + rewrite IH. destruct (String.eqb k0 k') eqn:E'; [|reflexivity].
      apply String.eqb_eq in E'. subst k0.
      rewrite String.eqb_sym, E. reflexivity.
Qed.

Lemma dict_de_pares_sin_clave (k : string) (campos : list string) :
  ~ In k campos ->
  forall fila d,
    dict_buscar d k = None ->
    dict_buscar (dict_de_pares campos fila d) k = None.
Proof.
  induction campos as [|c cs IH]; intros Hn fila d Hd; [exact Hd|].
  destruct fila as [|v vs]; [exact Hd|]. simpl.
  apply IH.
  - intros H. apply Hn. right. exact H.
  - rewrite dict_buscar_poner.
    destruct (String.eqb_spec c k) as [->|_]; [|exact Hd].
    exfalso. apply Hn. left. reflexivity.
Qed.

Lemma evento_de_fila_sin_clave (k : string) (campos fila : list string) :
  ~ In k campos -> dict_buscar (evento_de_fila campos fila) k = None.
Proof.
  intros Hn. unfold evento_de_fila.
  assert (G : forall claves d,
             (forall x, In x claves -> In x campos) ->
             dict_buscar d k = None ->
             dict_buscar (fold_left (fun d key => dict_poner d key None) claves d) k
             = None).
  { induction claves as [|x claves IH]; intros d Hin Hd; [exact Hd|].
    simpl. apply IH.
    - intros y Hy. apply Hin. right. exact Hy.
    - rewrite dict_buscar_poner.
      destruct (String.eqb_spec x k) as [->|_]; [|exact Hd].
      exfalso. apply Hn, Hin. left. reflexivity. }
  apply G.
  - intros x Hx. clear -Hx. revert campos Hx.
    induction (length fila) as [|n IH]; intros campos Hx; [exact Hx|].
    destruct campos; [destruct Hx|]. right. apply IH. exact Hx.
  - apply dict_de_pares_sin_clave; [exact Hn | reflexivity].
Qed.

Lemma reescribir_con_nombre (n : string) (c : option string)
    (eventos : list Evento) :
  (forall ev, In ev eventos -> exists v, dict_buscar ev "name" = Some v) ->
  reescribir n c eventos = (map (fila_actualizada n c) eventos, Ok tt).
Proof.
  induction eventos as [|ev eventos IH]; intros H; [reflexivity|].
  cbn [reescribir map].
  destruct (H ev (or_introl eq_refl)) as (v & E).
  unfold dict_indice. rewrite E.
  rewrite IH by (intros ev' H'; apply H; right; exact H').
  unfold fila_actualizada, dict_get. rewrite E. reflexivity.
Qed.

Lemma leer_fichero_cabeceras (filas : list (list string)) :
  leer_fichero (Some (cabeceras :: filas)) = Some (leer_filas filas).
Proof.
  unfold leer_fichero, leer_filas. f_equal.
  apply map_ext. apply evento_de_fila_cabeceras.
Qed.

Lemma actualizar_fichero_cabeceras (n : string) (c : option string)
    (filas : list (list string)) :
  actualizar_fichero n c (Some (cabeceras :: filas)) =
    Some (Some (cabeceras :: map (fila_actualizada n c) (leer_filas filas)),
          Ok tt).
Proof.
  unfold actualizar_fichero. rewrite leer_fichero_cabeceras.
  rewrite reescribir_con_nombre; [reflexivity|].
  intros ev H. unfold leer_filas in H. apply in_map_iff in H.
  destruct H as (fila & <- & _).
  apply claves_de_fila. left. reflexivity.
Qed.

(** X9.  The file the program creates begins with its header and reads as
    no event; an existing file is left as it is; appends and commits keep
    the header, a commit even puts it on a file that lacked it.  On a file
    with the header, reading, appending and committing are what the store
    of data rows does. *)
Theorem fichero_con_cabecera :
  con_cabecera (_inicializar_csv None)
  /\ leer_fichero (_inicializar_csv None) = Some []
  /\ (forall filas, _inicializar_csv (Some filas) = Some filas)
  /\ (forall f n c f' r,
        actualizar_fichero n c f = Some (f', r) -> con_cabecera f')
  /\ (forall m,
        leer_fichero (Some (cabeceras :: csv m))
        = match snd (_leer_eventos_csv m) with
          | Ok eventos => Some eventos
          | Lanza _ => None
          end)
  /\ (forall m evento m1,
        _guardar_evento evento m = (m1, Ok tt) ->
        guardar_en_fichero evento (Some (cabeceras :: csv m))
        = Ok (Some (cabeceras :: csv m1)))
  /\ (forall m n c,
        actualizar_fichero n c (Some (cabeceras :: csv m))
        = Some (Some (cabeceras :: csv (fst (_actualizar_content_id n c m))),
                Ok tt)).
Proof.
  split; [exists []; reflexivity|].
  split; [reflexivity|].
  split; [reflexivity|].
  split.
  { intros f n c f' r. unfold actualizar_fichero.
    destruct (leer_fichero f) as [eventos|]; [|discriminate].
    destruct (reescribir n c eventos) as [filas r0].
    intros [= <- _]. exists filas. reflexivity. }
  split; [intros m; apply leer_fichero_cabeceras|].
  split.
  { intros m evento m1. unfold _guardar_evento, guardar_en_fichero.
    destruct (Nat.eqb (length evento) (length cabeceras)); [|discriminate].
    intros [= <-]. reflexivity. }
  intros m n c. apply actualizar_fichero_cabeceras.
Qed.

(** X10.  On a file whose header has no [name] column and that holds a row
    that is not blank, a commit raises [KeyError] at the first event, after
    the file has been opened for writing: the file is left with the header
    of the program alone and its rows are lost. *)
Theorem cabecera_ajena (campos : list string) (filas : list (list string))
    (n : string) (c : option string) :
  ~ In "name" campos ->
  (exists fila, In fila filas /\ fila <> []) ->
  actualizar_fichero n c (Some (campos :: filas))
    = Some (Some [cabeceras], Lanza (KeyError "name")).
Proof.
  intros Hn (fila & Hin & Hne).
  unfold actualizar_fichero, leer_fichero.
  assert (F : In fila (filter (fun fila => negb (fila_vacia fila)) filas)).
  { apply filter_In. split; [exact Hin|]. destruct fila; [contradiction|reflexivity]. }
  destruct (filter (fun fila => negb (fila_vacia fila)) filas) as [|f0 fs];
    [destruct F|].
  cbn [map reescribir]. unfold dict_indice.
  rewrite (evento_de_fila_sin_clave "name" campos f0 Hn). reflexivity.
Qed.

Lemma cabecera_ajena_testigo :
  ~ In "name" ["nombre"; "puerto"]
  /\ (exists fila, In fila [["a"; "1"]] /\ fila <> [])
  /\ actualizar_fichero "a" (Some "abc123") (Some [["nombre"; "puerto"]; ["a"; "1"]])
     = Some (Some [cabeceras], Lanza (KeyError "name")).
Proof.
  assert (H1 : ~ In "name" ["nombre"; "puerto"]).
  { simpl. intuition discriminate. }
  assert (H2 : exists fila, In fila [["a"; "1"]] /\ fila <> []).
  { exists ["a"; "1"]. split; [left; reflexivity | discriminate]. }
  split; [exact H1|]. split; [exact H2|].
  exact (cabecera_ajena ["nombre"; "puerto"] [["a"; "1"]] "a" (Some "abc123") H1 H2).
Defined.

(** ** More on the volume cleanup *)

Lemma filtro_del_resto {A : Type} (p : A -> bool) (l : list A) :
  filter p (filter (fun x => negb (p x)) l) = []
  /\ filter (fun x => negb (p x)) (filter (fun x => negb (p x)) l)
     = filter (fun x => negb (p x)) l.
Proof.
  induction l as [|x l [IH1 IH2]]; [split; reflexivity|].
  simpl. destruct (p x) eqn:E; simpl; [split; assumption|].
  rewrite E. simpl. rewrite IH1, IH2. split; reflexivity.
Qed.

Lemma limpiar_en_carpeta (s : Sistema) (f : string -> EstadoRuta)
    (nombre_volumen ruta : string) (entradas : list Entrada) :
  ruta_base s nombre_volumen = Some ruta ->
  f ruta = Carpeta entradas ->
  limpiar_en s f nombre_volumen =
    (Z.of_nat (length (filter se_elimina entradas)),
     poner_ruta f ruta
       (Carpeta (filter (fun e => negb (se_elimina e)) entradas))).
Proof.
  intros R E. unfold limpiar_en. rewrite R, E, recorrer_filtra. reflexivity.
Qed.

(** X11.  The cleanup is idempotent: run again on the file system it left,
    it deletes nothing, returns 0 and leaves every path as it was. *)
Theorem limpieza_repetida (s : Sistema) (f : string -> EstadoRuta)
    (nombre_volumen : string) :
  fst (limpiar_en s (snd (limpiar_en s f nombre_volumen)) nombre_volumen) = 0
  /\ forall r,
       snd (limpiar_en s (snd (limpiar_en s f nombre_volumen)) nombre_volumen) r
       = snd (limpiar_en s f nombre_volumen) r.
Proof.
  destruct (ruta_base s nombre_volumen) as [ruta|] eqn:R.
  2:{ unfold limpiar_en. rewrite R. split; reflexivity. }
  destruct (f ruta) as [| |entradas] eqn:E.
  - assert (L : limpiar_en s f nombre_volumen = (0, f))
      by (unfold limpiar_en; rewrite R, E; reflexivity).
    rewrite L. cbn [snd]. rewrite L. split; reflexivity.
  - assert (L : limpiar_en s f nombre_volumen = (0, f))
      by (unfold limpiar_en; rewrite R, E; reflexivity).
    rewrite L. cbn [snd]. rewrite L. split; reflexivity.
  - rewrite (limpiar_en_carpeta s f nombre_volumen ruta entradas R E).
    cbn [snd].
    set (quedan := filter (fun e => negb (se_elimina e)) entradas).
    assert (E' : poner_ruta f ruta (Carpeta quedan) ruta = Carpeta quedan).
    { unfold poner_ruta. rewrite String.eqb_refl. reflexivity. }
    rewrite (limpiar_en_carpeta s _ nombre_volumen ruta quedan R E').
    destruct (filtro_del_resto se_elimina entradas) as [F1 F2].
    fold quedan in F1, F2. rewrite F1, F2. cbn [fst snd length].
    split; [reflexivity|].
    intros r. unfold poner_ruta. destruct (String.eqb r ruta); reflexivity.
Qed.

Lemma sin_punto_final (body : list ascii) :
  Forall (fun c => es_caracter 46 c = false) body -> ultimo_punto body = None.
Proof.
  induction 1 as [|c body Hc _ IH]; simpl; [reflexivity|].
  rewrite IH, Hc. reflexivity.
Qed.

Lemma ultimo_punto_app (pre body : list ascii) (p : ascii) :
  es_caracter 46 p = true ->
  Forall (fun c => es_caracter 46 c = false) body ->
  ultimo_punto (pre ++ p :: body) = Some (p :: body).
Proof.
  intros Hp Hb. induction pre as [|c pre IH]; simpl.
  - rewrite (sin_punto_final body Hb), Hp. reflexivity.
  - rewrite IH. reflexivity.
Qed.

Lemma ultimo_punto_sufijo (l suf : list ascii) :
  ultimo_punto l = Some suf -> exists pre, l = (pre ++ suf)%list.
Proof.
  revert suf. induction l as [|c l IH]; intros suf; simpl; [discriminate|].
  destruct (ultimo_punto l) as [s0|].
  - intros [= <-]. destruct (IH s0 eq_refl) as (pre & ->).
    exists (c :: pre). reflexivity.
  - destruct (es_caracter 46 c); [|discriminate].
    intros [= <-]. exists []. reflexivity.
Qed.

Lemma list_ascii_of_string_app (a b : string) :
  list_ascii_of_string (a ++ b)
  = (list_ascii_of_string a ++ list_ascii_of_string b)%list.
Proof.
  induction a as [|c a IH]; simpl; [reflexivity | rewrite IH; reflexivity].
Qed.

Lemma string_of_list_ascii_app (a b : list ascii) :
  string_of_list_ascii (a ++ b)
  = string_of_list_ascii a ++ string_of_list_ascii b.
Proof.
  induction a as [|c a IH]; simpl; [reflexivity | rewrite IH; reflexivity].
Qed.

Lemma suffix_protegido (stem ext : string) :
  stem <> "" -> In ext extensiones_permitidas -> suffix (stem ++ ext) = ext.
Proof.
  intros Hs He. destruct stem as [|c0 stem]; [contradiction|].
  unfold suffix. simpl list_ascii_of_string. rewrite list_ascii_of_string_app.
  destruct He as [<- | [<- | []]]; simpl list_ascii_of_string at 2;
    (rewrite ultimo_punto_app;
     [reflexivity | reflexivity | repeat constructor]).
Qed.

Lemma suffix_sufijo (n ext : string) :
  suffix n = ext -> ext <> "" -> exists stem, n = stem ++ ext /\ stem <> "".
Proof.
  unfold suffix. intros H Hne.
  destruct (list_ascii_of_string n) as [|c0 resto] eqn:E; [congruence|].
  destruct (ultimo_punto resto) as [[|p [|q suf]]|] eqn:U; try congruence.
  apply ultimo_punto_sufijo in U. destruct U as (pre & ->).
  exists (String c0 (string_of_list_ascii pre)). split; [|discriminate].
  rewrite <- (string_of_list_ascii_of_string n), E. simpl.
  rewrite string_of_list_ascii_app, <- H. reflexivity.
Qed.

(** X12.  The cleanup spares a regular file exactly when its name is a
    non-empty stem followed by [.acelive] or [.sauth]; a file named just
    [.acelive], or with the extension in other letter case, is not
    spared. *)
Theorem archivo_conservado_sii (n : string) :
  (en_lista (suffix n) extensiones_permitidas = true <-> nombre_protegido n)
  /\ (se_elimina (Archivo n true) = false <-> nombre_protegido n)
  /\ ~ nombre_protegido ".acelive"
  /\ ~ nombre_protegido "x.ACELIVE".
Proof.
  assert (P : forall x,
             en_lista (suffix x) extensiones_permitidas = true
             <-> nombre_protegido x).
  { intros x. unfold nombre_protegido. split.
    - intros H. unfold en_lista in H. apply existsb_exists in H.
      destruct H as (ext & Hin & He). apply String.eqb_eq in He.
      destruct (suffix_sufijo x ext He) as (stem & -> & Hs).
      + destruct Hin as [<- | [<- | []]]; discriminate.
      + exists stem, ext. auto.
    - intros (stem & ext & -> & Hs & Hin).
      rewrite (suffix_protegido stem ext Hs Hin).
      unfold en_lista. apply existsb_exists. exists ext.
      split; [exact Hin | apply String.eqb_refl]. }
  split; [apply P|]. split.
  - unfold se_elimina. rewrite andb_true_r, negb_false_iff. apply P.
  - split; intros H; apply P in H; discriminate H.
Qed.

(** ** Counting the actions of a step *)

Lemma acotado_mono {A : Type} (h w o h' w' o' : nat) (s s' : Z) (c : M A) :
  acotado h w o s c ->
  (h <= h')%nat -> (w <= w')%nat -> (o <= o')%nat -> s <= s' ->
  acotado h' w' o' s' c.
Proof.
  intros H Hh Hw Ho Hs m m' r E.
  destruct (H m m' r E) as (B1 & B2 & B3 & B4). repeat split; lia.
Qed.

Lemma acotado_ret {A : Type} (a : A) : acotado 0 0 0 0 (ret a).
Proof. intros m m' r [= <- _]. repeat split; lia. Qed.

Lemma acotado_lanzar {A : Type} (e : Excepcion) : acotado 0 0 0 0 (@lanzar A e).
Proof. intros m m' r [= <- _]. repeat split; lia. Qed.

Lemma acotado_bind {A B : Type} (h1 w1 o1 h2 w2 o2 : nat) (s1 s2 : Z)
    (c : M A) (k : A -> M B) :
  acotado h1 w1 o1 s1 c ->
  (forall a, acotado h2 w2 o2 s2 (k a)) ->
  0 <= s2 ->
  acotado (h1 + h2) (w1 + w2) (o1 + o2) (s1 + s2) (bind c k).
Proof.
  intros Hc Hk Hs m m' r. unfold bind.
  destruct (c m) as [m1 [a|e]] eqn:E; intros H.
  - destruct (Hc _ _ _ E) as (B1 & B2 & B3 & B4).
    destruct (Hk a _ _ _ H) as (K1 & K2 & K3 & K4). repeat split; lia.
  - injection H as <- _. destruct (Hc _ _ _ E) as (B1 & B2 & B3 & B4).
    repeat split; lia.
Qed.

Lemma acotado_atrapar {A : Type} (h1 w1 o1 h2 w2 o2 : nat) (s1 s2 : Z)
    (clase : Excepcion -> bool) (c : M A) (k : Excepcion -> M A) :
  acotado h1 w1 o1 s1 c ->
  (forall e, acotado h2 w2 o2 s2 (k e)) ->
  0 <= s2 ->
  acotado (h1 + h2) (w1 + w2) (o1 + o2) (s1 + s2) (atrapar clase c k).
Proof.
  intros Hc Hk Hs m m' r. unfold atrapar.
  destruct (c m) as [m1 [a|e]] eqn:E; intros H.
  - injection H as <- _. destruct (Hc _ _ _ E) as (B1 & B2 & B3 & B4).
    repeat split; lia.
  - destruct (Hc _ _ _ E) as (B1 & B2 & B3 & B4). destruct (clase e).
    + destruct (Hk e _ _ _ H) as (K1 & K2 & K3 & K4). repeat split; lia.
    + injection H as <- _. repeat split; lia.
Qed.

Lemma acotado_subprocess_run (env : Entorno) (args : list string) :
  acotado 0 0 1 0 (subprocess_run env args).
Proof.
  intros m m' r [= <- _]. cbn [anotar traza].
  change (operaciones (Subproceso args :: traza m))
    with (S (operaciones (traza m))).
  repeat split; try lia.
  - change (peticiones (Subproceso args :: traza m)) with (peticiones (traza m)). lia.
  - change (escrituras (Subproceso args :: traza m)) with (escrituras (traza m)). lia.
  - simpl. lia.
Qed.

Lemma acotado_requests_get (env : Entorno) (url : string) :
  acotado 1 0 0 0 (requests_get env url).
Proof.
  intros m m' r [= <- _]. cbn [anotar traza].
  change (peticiones (HttpGet url :: traza m)) with (S (peticiones (traza m))).
  change (escrituras (HttpGet url :: traza m)) with (escrituras (traza m)).
  change (operaciones (HttpGet url :: traza m)) with (operaciones (traza m)).
  simpl dormido. repeat split; lia.
Qed.

Lemma acotado_sleep (s : Z) : acotado 0 0 0 s (sleep s).
Proof.
  intros m m' r [= <- _]. cbn [anotar traza].
  change (peticiones (Dormir s :: traza m)) with (peticiones (traza m)).
  change (escrituras (Dormir s :: traza m)) with (escrituras (traza m)).
  change (operaciones (Dormir s :: traza m)) with (operaciones (traza m)).
  simpl dormido. repeat split; lia.
Qed.

Lemma acotado_json (response : Response) : acotado 0 0 0 0 (json response).
Proof.
  unfold json. destruct (cuerpo response);
    [apply acotado_ret | apply acotado_lanzar].
Qed.

Lemma acotado_json_get (j : Json) (k : string) : acotado 0 0 0 0 (json_get j k).
Proof. destruct j; [apply acotado_ret | apply acotado_lanzar]. Qed.

Lemma acotado_limpiar (env : Entorno) (v : string) :
  acotado 0 0 0 0 (limpiar_archivos_temporales env v).
Proof.
  intros m m' r. unfold limpiar_archivos_temporales.
  destruct (limpiar_en (sistema env) (fs m) v).
  intros [= <- _]. cbn [traza]. repeat split; lia.
Qed.

Lemma acotado_actualizar (n : string) (c : option string) :
  acotado 0 1 0 0 (_actualizar_content_id n c).
Proof.
  intros m m' r [= <- _]. cbn [traza].
  match goal with |- context [CsvEscribir ?f :: CsvLeer :: traza m] =>
    change (peticiones (CsvEscribir f :: CsvLeer :: traza m))
      with (peticiones (traza m));
    change (escrituras (CsvEscribir f :: CsvLeer :: traza m))
      with (S (escrituras (traza m)));
    change (operaciones (CsvEscribir f :: CsvLeer :: traza m))
      with (operaciones (traza m))
  end.
  simpl dormido. repeat split; lia.
Qed.

Lemma acotado_intento_monitor (env : Entorno) (puerto : Z) :
  acotado 1 0 0 0 (intento_monitor env puerto).
Proof.
  intros m m' r. rewrite intento_monitor_eq. intros [= <- _].
  exact (acotado_requests_get env (url_monitor puerto) m _ _ eq_refl).
Qed.

Lemma acotado_bucle_monitor (env : Entorno) (puerto : Z) (n : nat) :
  acotado n 0 0 (5 * Z.of_nat n) (bucle_monitor env puerto n).
Proof.
  induction n as [|n IH].
  - apply acotado_lanzar.
  - cbn [bucle_monitor].
    apply (acotado_mono (1 + n) (0 + 0) (0 + 0) _ _ _ (0 + (5 + 5 * Z.of_nat n)));
      try lia.
    apply acotado_bind; [apply acotado_intento_monitor | | lia].
    intros [info|].
    + apply (acotado_mono 0 0 0 _ _ _ 0); try lia. apply acotado_ret.
    + apply (acotado_mono (0 + n) (0 + 0) (0 + 0) _ _ _ (5 + 5 * Z.of_nat n));
        try lia.
      apply acotado_bind; [apply acotado_sleep | intros _; exact IH | lia].
Qed.

Lemma acotado_obtener_monitor (env : Entorno) (id : string)
    (puerto intentos : Z) :
  acotado (Z.to_nat intentos) 0 0 (15 + 5 * Z.max 0 intentos)
    (obtener_monitor env id puerto intentos).
Proof.
  unfold obtener_monitor.
  apply (acotado_mono (0 + Z.to_nat intentos) (0 + 0) (0 + 0) _ _ _
           (15 + 5 * Z.of_nat (Z.to_nat intentos))); try lia.
  apply acotado_bind; [apply acotado_sleep | | lia].
  intros _. apply acotado_bucle_monitor.
Qed.

(** ** More on the status poller *)

(** X13.  Whatever the endpoint answers, a poll makes at most [intentos]
    requests, sleeps at most 15 + 5 * [intentos] seconds, runs no container
    command and leaves the file alone.  With [intentos] zero or negative it
    makes no request and raises after the warm-up.  The container id it is
    given plays no part. *)
Theorem sondeo_acotado (env : Entorno) (id : string) (puerto intentos : Z)
    (m : Mundo) :
  (peticiones (traza (fst (obtener_monitor env id puerto intentos m)))
   <= peticiones (traza m) + Z.to_nat intentos)%nat
  /\ dormido (traza (fst (obtener_monitor env id puerto intentos m)))
     <= dormido (traza m) + 15 + 5 * Z.max 0 intentos
  /\ (operaciones (traza (fst (obtener_monitor env id puerto intentos m)))
      <= operaciones (traza m))%nat
  /\ escrituras (traza (fst (obtener_monitor env id puerto intentos m)))
     = escrituras (traza m)
  /\ csv (fst (obtener_monitor env id puerto intentos m)) = csv m
  /\ (intentos <= 0 ->
      obtener_monitor env id puerto intentos m
      = (anotar (Dormir 15) m, Lanza (RuntimeError msg_agotado)))
  /\ (forall id',
        obtener_monitor env id' puerto intentos m
        = obtener_monitor env id puerto intentos m).
Proof.
  destruct (obtener_monitor env id puerto intentos m) as [m' r] eqn:E.
  destruct (acotado_obtener_monitor env id puerto intentos m m' r E)
    as (B1 & B2 & B3 & B4).
  destruct (conserva_obtener_monitor env id puerto intentos m m' r E)
    as (C1 & C2).
  cbn [fst]. repeat split; try assumption; try lia.
  - intros Hn. rewrite <- E. unfold obtener_monitor, bind, sleep.
    replace (Z.to_nat intentos) with 0%nat by lia. reflexivity.
  - intros id'. rewrite <- E. reflexivity.
Qed.

Lemma intento_no_objeto (env : Entorno) (puerto : Z) (m : Mundo) :
  http env (traza m) (url_monitor puerto) = respuesta_no_objeto ->
  intento_monitor env puerto m =
    (anotar (HttpGet (url_monitor puerto)) m, Lanza AttributeError).
Proof.
  intros H. rewrite intento_monitor_eq, H. reflexivity.
Qed.

Lemma bucle_monitor_no_objeto (env : Entorno) (puerto : Z) :
  forall (n k : nat) (m : Mundo),
    (k < n)%nat ->
    (forall j, (j < k)%nat ->
       no_lista (http env (tras_fallos (url_monitor puerto) j (traza m))
                   (url_monitor puerto))) ->
    http env (tras_fallos (url_monitor puerto) k (traza m)) (url_monitor puerto)
      = respuesta_no_objeto ->
    exists m',
      bucle_monitor env puerto n m = (m', Lanza AttributeError)
      /\ traza m' =
           HttpGet (url_monitor puerto)
             :: tras_fallos (url_monitor puerto) k (traza m).
Proof.
  induction n as [|n IH]; intros k m Hk Hfallos Hno; [lia|].
  cbn [bucle_monitor]. unfold bind at 1.
  destruct k as [|k].
  - rewrite (intento_no_objeto env puerto m Hno).
    eexists. split; reflexivity.
  - rewrite (intento_no_lista env puerto m (Hfallos 0%nat ltac:(lia))).
    unfold bind, sleep.
    destruct (IH k (anotar (Dormir 5) (anotar (HttpGet (url_monitor puerto)) m)))
      as (m' & E & T).
    + lia.
    + intros j Hj. cbn [anotar traza]. rewrite tras_fallos_desplaza.
      apply (Hfallos (S j)). lia.
    + cbn [anotar traza]. rewrite tras_fallos_desplaza. exact Hno.
    + exists m'. split; [exact E|]. rewrite T. cbn [anotar traza].
      rewrite tras_fallos_desplaza. reflexivity.
Qed.

(** X14.  A response with status 200 whose JSON body is not an object ends
    the poll at once: the lookup of [content_id] raises [AttributeError],
    which the poller does not catch, and the attempts that were left are
    not made. *)
Theorem cuerpo_no_objeto (env : Entorno) (id : string) (puerto intentos : Z)
    (m : Mundo) (k : nat) :
  (k < Z.to_nat intentos)%nat ->
  (forall j, (j < k)%nat -> no_lista (respuesta_n env puerto (traza m) j)) ->
  respuesta_n env puerto (traza m) k = respuesta_no_objeto ->
  exists m',
    obtener_monitor env id puerto intentos m = (m', Lanza AttributeError)
    /\ peticiones (traza m') = (peticiones (traza m) + k + 1)%nat.
Proof.
  intros Hk Hfallos Hno. unfold obtener_monitor, bind, sleep.
  destruct (bucle_monitor_no_objeto env puerto (Z.to_nat intentos) k
              (anotar (Dormir 15) m) Hk Hfallos Hno) as (m' & E & T).
  exists m'. split; [exact E|]. rewrite T.
  change (peticiones (HttpGet (url_monitor puerto)
            :: tras_fallos (url_monitor puerto) k (traza (anotar (Dormir 15) m))))
    with (S (peticiones (tras_fallos (url_monitor puerto) k
                           (traza (anotar (Dormir 15) m))))).
  rewrite peticiones_tras_fallos.
  change (peticiones (traza (anotar (Dormir 15) m))) with (peticiones (traza m)).
  lia.
Qed.

Lemma cuerpo_no_objeto_testigo :
  (0 < Z.to_nat 10)%nat
  /\ respuesta_n env_lista 8642 (traza mundo_demo) 0 = respuesta_no_objeto
  /\ exists m',
       obtener_monitor env_lista "c0ffee" 8642 10 mundo_demo
       = (m', Lanza AttributeError)
       /\ peticiones (traza m') = 1%nat.
Proof.
  assert (H1 : (0 < Z.to_nat 10)%nat) by (vm_compute; repeat constructor).
  assert (H2 : respuesta_n env_lista 8642 (traza mundo_demo) 0
               = respuesta_no_objeto) by reflexivity.
  split; [exact H1|]. split; [exact H2|].
  apply (cuerpo_no_objeto env_lista "c0ffee" 8642 10 mundo_demo 0 H1);
    [|exact H2].
  intros j Hj. exfalso. lia.
Defined.

(** ** Counting the actions of the engine *)

Lemma acotado_relanzar {A : Type} (f : string -> Excepcion) (e : Excepcion) :
  acotado 0 0 0 0
    (match e with
     | CalledProcessError err => @lanzar A (f err)
     | _ => lanzar e
     end).
Proof. destruct e; apply acotado_lanzar. Qed.

Lemma acotado_un_comando (env : Entorno) (args : list string)
    (f : string -> Excepcion) :
  acotado 0 0 1 0
    (atrapar es_CalledProcessError
       (bind (subprocess_run env args) (fun _ => ret tt))
       (fun e =>
          match e with
          | CalledProcessError err => lanzar (f err)
          | _ => lanzar e
          end)).
Proof.
  apply (acotado_mono (0 + 0 + 0) (0 + 0 + 0) (1 + 0 + 0) _ _ _ (0 + 0 + 0));
    try lia.
  apply acotado_atrapar; [|intros e; apply acotado_relanzar | lia].
  apply acotado_bind; [apply acotado_subprocess_run | | lia].
  intros _. apply acotado_ret.
Qed.

Lemma acotado_parar (env : Entorno) (id : string) :
  acotado 0 0 1 0 (parar_contenedor env id).
Proof. apply acotado_un_comando. Qed.

Lemma acotado_borrar (env : Entorno) (id : string) :
  acotado 0 0 1 0 (borrar_contenedor env id).
Proof. apply acotado_un_comando. Qed.

Lemma acotado_ejecutar_docker (env : Entorno) (config : EventoConfig) :
  acotado 0 0 1 0 (ejecutar_docker env config).
Proof. apply acotado_un_comando. Qed.

Lemma acotado_verificar (env : Entorno) (n : string) :
  acotado 0 0 3 0 (verificar_y_limpiar_contenedor env n).
Proof.
  unfold verificar_y_limpiar_contenedor.
  apply (acotado_mono (0 + 0) (0 + 0) (1 + 2) _ _ _ (0 + 0)); try lia.
  apply acotado_bind; [apply acotado_subprocess_run | | lia].
  intros out. destruct (no_vacia (strip out)).
  - apply (acotado_mono (0 + 0) (0 + 0) (1 + 1) _ _ _ (0 + 0)); try lia.
    apply acotado_bind; [apply acotado_parar | | lia].
    intros _. apply acotado_borrar.
  - apply (acotado_mono 0 0 0 _ _ _ 0); try lia. apply acotado_ret.
Qed.

Lemma acotado_lanzar_contenedor (env : Entorno) (config : EventoConfig) :
  acotado 0 0 4 10 (lanzar_contenedor env config).
Proof.
  unfold lanzar_contenedor.
  apply (acotado_mono (0 + (0 + (0 + 0))) (0 + (0 + (0 + 0)))
           (3 + (0 + (1 + 0))) _ _ _ (0 + (0 + (0 + 10)))); try lia.
  apply acotado_bind; [apply acotado_verificar | | lia].
  intros _. apply acotado_bind; [apply acotado_limpiar | | lia].
  intros _. apply acotado_bind; [apply acotado_ejecutar_docker | | lia].
  intros _. apply acotado_sleep.
Qed.

Lemma acotado_resolver (env : Entorno) (config : EventoConfig) :
  acotado 10 1 1 65 (resolver_content_id env config).
Proof.
  unfold resolver_content_id.
  apply (acotado_mono (0 + (10 + (0 + 0)) + 0) (0 + (0 + (1 + 0)) + 0)
           (1 + (0 + (0 + 0)) + 0) _ _ _ (0 + (65 + (0 + 0)) + 0)); try lia.
  apply acotado_atrapar; [|intros e; apply acotado_ret | lia].
  apply acotado_bind; [apply acotado_subprocess_run | | lia].
  intros out. apply acotado_bind; [|intros info | lia].
  - apply (acotado_mono (Z.to_nat 10) 0 0 _ _ _ (15 + 5 * Z.max 0 10));
      try lia.
    apply acotado_obtener_monitor.
  - apply acotado_bind; [apply acotado_actualizar | | lia].
    intros _. apply acotado_ret.
Qed.

Lemma acotado_procesar (ip : string -> bool) (env : Entorno) (evento : Evento) :
  acotado 10 1 5 75 (procesar_evento ip env evento).
Proof.
  unfold procesar_evento.
  apply (acotado_mono (10 + 0) (1 + 0) (5 + 0) _ _ _ (75 + 0)); try lia.
  apply acotado_atrapar; [|intros e; apply acotado_ret | lia].
  destruct (construir_config evento) as [config|e].
  2:{ apply (acotado_mono 0 0 0 _ _ _ 0); try lia. apply acotado_lanzar. }
  destruct (validar ip config).
  2:{ apply (acotado_mono 0 0 0 _ _ _ 0); try lia. apply acotado_ret. }
  apply (acotado_mono (0 + 10) (0 + 1) (4 + 1) _ _ _ (10 + 65)); try lia.
  apply acotado_bind; [apply acotado_lanzar_contenedor | | lia].
  intros _. apply acotado_resolver.
Qed.

Lemma acotado_bucle_indices (ip : string -> bool) (env : Entorno)
    (eventos : list Evento) (indices : list Z) :
  acotado (10 * length indices) (length indices) (5 * length indices)
    (75 * Z.of_nat (length indices)) (bucle_indices ip env eventos indices).
Proof.
  induction indices as [|idx indices IH]; cbn [bucle_indices].
  - apply acotado_ret.
  - destruct ((0 <=? idx) && (idx <? Z.of_nat (length eventos))).
    2:{ apply (acotado_mono 0 0 0 _ _ _ 0); cbn [length]; try lia.
        apply acotado_lanzar. }
    destruct (nth_evento eventos idx) as [evento|].
    2:{ apply (acotado_mono 0 0 0 _ _ _ 0); cbn [length]; try lia.
        apply acotado_lanzar. }
    apply (acotado_mono (10 + 10 * length indices) (1 + length indices)
             (5 + 5 * length indices) _ _ _
             (75 + 75 * Z.of_nat (length indices))); cbn [length]; try lia.
    apply acotado_bind; [apply acotado_procesar | intros _; exact IH | lia].
Qed.

(** X15.  A batch of [n] indices makes at most [10 n] requests to status
    endpoints, [n] writes to the file and [5 n] container commands, and
    sleeps at most [75 n] seconds, whatever the records and the outside
    world are. *)
Theorem lote_acotado (ip : string -> bool) (env : Entorno)
    (indices : list Z) (m : Mundo) :
  let m' := fst (crear_desde_csv ip env indices m) in
  (peticiones (traza m') <= peticiones (traza m) + 10 * length indices)%nat
  /\ (escrituras (traza m') <= escrituras (traza m) + length indices)%nat
  /\ (operaciones (traza m') <= operaciones (traza m) + 5 * length indices)%nat
  /\ dormido (traza m') <= dormido (traza m) + 75 * Z.of_nat (length indices).
Proof.
  intros m'. unfold m', crear_desde_csv, bind, _leer_eventos_csv.
  destruct (bucle_indices ip env (leer_filas (csv m)) indices (anotar CsvLeer m))
    as [m1 r] eqn:E.
  destruct (acotado_bucle_indices ip env _ indices _ _ _ E) as (B1 & B2 & B3 & B4).
  cbn [fst].
  cbn [anotar traza] in B1, B2, B3, B4;
    change (peticiones (CsvLeer :: traza m)) with (peticiones (traza m)) in B1;
    change (escrituras (CsvLeer :: traza m)) with (escrituras (traza m)) in B2;
    change (operaciones (CsvLeer :: traza m)) with (operaciones (traza m)) in B3;
    simpl dormido in B4; repeat split; lia.
Qed.

(** ** The actions of a step *)















Lemma procesar_evento_casos (ip : string -> bool) (env : Entorno)
    (evento : Evento) (m : Mundo) :
  procesar_evento ip env evento m =
    match construir_config evento with
    | Lanza e => (m, Ok (ErrorAlProcesar e))
    | Ok config =>
        match validar ip config with
        | (_ :: _) as errores => (m, Ok (ErroresDeValidacion errores))
        | [] =>
            match lanzar_contenedor env config m with
            | (m1, Ok _) => resolver_content_id env config m1
            | (m1, Lanza e) => (m1, Ok (ErrorAlProcesar e))
            end
        end
    end.
Proof.
  destruct (construir_config evento) as [config|e] eqn:Hc.
  - destruct (validar ip config) as [|x errores] eqn:Hv.
    + apply procesar_evento_eq; assumption.
    + unfold procesar_evento, atrapar. rewrite Hc, Hv. reflexivity.
  - unfold procesar_evento, atrapar. rewrite Hc. reflexivity.
Qed.

(** ** More on the engine *)

(** X17.  The branch in which the cycle of a record ends tells what was
    done.  Validation errors: nothing was done.  An error while processing:
    the record could not be built, or the eviction or the launch raised; no
    request was sent to the endpoint and the file was not written.  An
    error while resolving the content id: the container had been launched,
    and the file was not written.  A content id saved: the container had
    been launched and the file was rewritten once, with that value. *)
Theorem desenlace_veraz (ip : string -> bool) (env : Entorno)
    (evento : Evento) (m m' : Mundo) (d : Desenlace) :
  procesar_evento ip env evento m = (m', Ok d) ->
  match d with
  | ErroresDeValidacion errores =>
      m' = m /\ errores <> []
      /\ exists config,
           construir_config evento = Ok config /\ validar ip config = errores
  | ErrorAlProcesar e =>
      csv m' = csv m
      /\ escrituras (traza m') = escrituras (traza m)
      /\ (peticiones (traza m') <= peticiones (traza m))%nat
      /\ ((construir_config evento = Lanza e /\ m' = m)
          \/ exists config,
               construir_config evento = Ok config
               /\ validar ip config = []
               /\ lanzar_contenedor env config m = (m', Lanza e))
  | ErrorAlObtenerContentId e =>
      csv m' = csv m
      /\ escrituras (traza m') = escrituras (traza m)
      /\ exists config m1,
           construir_config evento = Ok config
           /\ validar ip config = []
           /\ lanzar_contenedor env config m = (m1, Ok tt)
  | ContentIdGuardado v =>
      escrituras (traza m') = S (escrituras (traza m))
      /\ exists config m1,
           construir_config evento = Ok config
           /\ validar ip config = []
           /\ lanzar_contenedor env config m = (m1, Ok tt)
           /\ csv m' = map (fila_actualizada (nombre config) v)
                           (leer_filas (csv m))
  end.
Proof.
  rewrite procesar_evento_casos.
  destruct (construir_config evento) as [config|e0] eqn:Hc.
  2:{ intros [= <- <-]. repeat split; auto. }
  destruct (validar ip config) as [|x errores] eqn:Hv.
  2:{ intros [= <- <-]. split; [reflexivity|]. split; [discriminate|].
      exists config. split; [reflexivity | exact Hv]. }
  destruct (lanzar_contenedor env config m) as [m1 [[]|e1]] eqn:Hl.
  2:{ intros [= <- <-].
      destruct (conserva_lanzar_contenedor env config _ _ _ Hl) as [C W].
      destruct (acotado_lanzar_contenedor env config _ _ _ Hl) as (B & _).
      split; [exact C|]. split; [exact W|]. split; [lia|].
      right. exists config. repeat split; assumption. }
  destruct (conserva_lanzar_contenedor env config _ _ _ Hl) as [C1 W1].
  rewrite resolver_content_id_eq.
  destruct (subprocess_run env (docker_ps config) m1) as [m2 [out|e2]] eqn:Hp.
  2:{ intros [= <- <-].
      destruct (conserva_subprocess_run env _ _ _ _ Hp) as [C2 W2].
      split; [congruence|]. split; [congruence|].
      exists config, m1. repeat split; assumption. }
  destruct (conserva_subprocess_run env _ _ _ _ Hp) as [C2 W2].
  destruct (obtener_monitor env (strip out) (puerto config) 10 m2)
    as [m3 [info|e3]] eqn:Ho.
  2:{ intros [= <- <-].
      destruct (conserva_obtener_monitor env _ _ _ _ _ _ Ho) as [C3 W3].
      split; [congruence|]. split; [congruence|].
      exists config, m1. repeat split; assumption. }
  destruct (conserva_obtener_monitor env _ _ _ _ _ _ Ho) as [C3 W3].
  intros [= <- <-]. split.
  - cbn. fold (escrituras (traza m3)). congruence.
  - exists config, m1. split; [reflexivity|]. split; [exact Hv|].
    split; [exact Hl|]. cbn. rewrite C3, C2, C1. reflexivity.
Qed.

Lemma desenlace_veraz_testigo :
  procesar_evento ip_ninguna env_mudo evento_demo mundo_demo
    = (mundo_agotado, Ok (ErrorAlObtenerContentId (RuntimeError msg_agotado)))
  /\ csv mundo_agotado = csv mundo_demo.
Proof.
  assert (H : procesar_evento ip_ninguna env_mudo evento_demo mundo_demo
              = (mundo_agotado,
                 Ok (ErrorAlObtenerContentId (RuntimeError msg_agotado))))
    by reflexivity.
  split; [exact H|].
  destruct (desenlace_veraz ip_ninguna env_mudo evento_demo mundo_demo _ _ H)
    as (C & _).
  exact C.
Defined.

Lemma bucle_indices_resultado (ip : string -> bool) (env : Entorno)
    (eventos : list Evento) (indices : list Z) :
  forall m,
    (Forall (en_rango (length eventos)) indices
     /\ snd (bucle_indices ip env eventos indices m) = Ok tt)
    \/ exists pre idx post,
         indices = (pre ++ idx :: post)%list
         /\ Forall (en_rango (length eventos)) pre
         /\ ~ en_rango (length eventos) idx
         /\ snd (bucle_indices ip env eventos indices m)
            = Lanza (ValueError
                       ("Índice " ++ str_de_int (idx + 1) ++ " fuera de rango")).
Proof.
  induction indices as [|idx indices IH]; intros m.
  - left. split; [constructor | reflexivity].
  - destruct ((0 <=? idx) && (idx <? Z.of_nat (length eventos))) eqn:R.
    + apply en_rango_sii_estricto in R.
      destruct (nth_evento eventos idx) as [evento|] eqn:Hn.
      2:{ unfold nth_evento in Hn. apply nth_error_None in Hn. lia. }
      rewrite (bucle_indices_paso ip env eventos idx indices evento m R Hn).
      destruct (IH (fst (procesar_evento ip env evento m)))
        as [[F E] | (pre & i & post & -> & F & N & E)].
      * left. split; [constructor; assumption | exact E].
      * right. exists (idx :: pre), i, post.
        split; [reflexivity|]. split; [constructor; assumption|].
        split; [exact N | exact E].
    + right. exists [], idx, indices. split; [reflexivity|].
      split; [constructor|]. split.
      * intros H. apply en_rango_sii_estricto in H. congruence.
      * cbn [bucle_indices]. rewrite R. reflexivity.
Qed.

(** X18.  A batch ends without raising exactly when all its indices are in
    range.  The only exception it can raise is the [ValueError] of the
    first index out of range, negative indices included: no failure of a
    record, of the container runtime or of the endpoint gets out of it. *)
Theorem resultado_del_lote (ip : string -> bool) (env : Entorno)
    (indices : list Z) (m : Mundo) :
  (Forall (en_rango (length (leer_filas (csv m)))) indices
   <-> snd (crear_desde_csv ip env indices m) = Ok tt)
  /\ (forall e,
        snd (crear_desde_csv ip env indices m) = Lanza e ->
        exists pre idx post,
          indices = (pre ++ idx :: post)%list
          /\ Forall (en_rango (length (leer_filas (csv m)))) pre
          /\ ~ en_rango (length (leer_filas (csv m))) idx
          /\ e = ValueError
                   ("Índice " ++ str_de_int (idx + 1) ++ " fuera de rango")).
Proof.
  assert (E : snd (crear_desde_csv ip env indices m)
              = snd (bucle_indices ip env (leer_filas (csv m)) indices
                       (anotar CsvLeer m))).
  { unfold crear_desde_csv, bind, _leer_eventos_csv.
    destruct (bucle_indices ip env (leer_filas (csv m)) indices
                (anotar CsvLeer m)) as [m1 [[]|e]]; reflexivity. }
  rewrite E.
  destruct (bucle_indices_resultado ip env (leer_filas (csv m)) indices
              (anotar CsvLeer m))
    as [[F R] | (pre & idx & post & I & F & N & R)]; rewrite R.
  - split; [tauto | discriminate].
  - split.
    + split; [|discriminate]. intros H. exfalso. rewrite I in H.
      apply Forall_app in H. destruct H as [_ H].
      inversion H; subst. contradiction.
    + intros e [= <-]. exists pre, idx, post. auto.
Qed.

Lemma solo_content_id_refl (filas : list (list string)) :
  Forall nueve filas -> solo_content_id filas filas.
Proof.
  induction 1 as [|f filas Hf _ IH]; constructor; auto.
Qed.

Lemma solo_content_id_trans (a b c : list (list string)) :
  solo_content_id a b -> solo_content_id b c -> solo_content_id a c.
Proof.
  intros H. revert c. induction H as [|x y a b [Hy Hxy] _ IH]; intros c Hc.
  - inversion Hc. constructor.
  - inversion Hc as [|y' z b' c' [Hz Hyz] Hbc]; subst.
    constructor; [split; [exact Hz | congruence] | apply IH; exact Hbc].
Qed.

Lemma solo_content_id_nueve (a b : list (list string)) :
  solo_content_id a b -> Forall nueve b.
Proof.
  induction 1 as [|x y a b [Hy _] _ IH]; constructor; assumption.
Qed.

Lemma solo_content_id_actualizar (n : string) (c : option string)
    (m : Mundo) :
  Forall nueve (csv m) ->
  solo_content_id (csv m) (csv (fst (_actualizar_content_id n c m))).
Proof.
  intros H. rewrite csv_actualizado by exact H.
  induction H as [|f filas Hf _ IH]; simpl; constructor; [|exact IH].
  destruct (actualiza_fila_nueve n c f Hf) as (N & _ & F). auto.
Qed.

Lemma csv_tras_procesar (ip : string -> bool) (env : Entorno)
    (evento : Evento) (m : Mundo) :
  csv (fst (procesar_evento ip env evento m)) = csv m
  \/ exists n c,
       csv (fst (procesar_evento ip env evento m))
       = csv (fst (_actualizar_content_id n c m)).
Proof.
  rewrite procesar_evento_casos.
  destruct (construir_config evento) as [config|e0]; [|left; reflexivity].
  destruct (validar ip config) as [|x errores]; [|left; reflexivity].
  destruct (lanzar_contenedor env config m) as [m1 [[]|e1]] eqn:Hl.
  2:{ left. exact (proj1 (conserva_lanzar_contenedor env config _ _ _ Hl)). }
  destruct (conserva_lanzar_contenedor env config _ _ _ Hl) as [C1 _].
  rewrite resolver_content_id_eq.
  destruct (subprocess_run env (docker_ps config) m1) as [m2 [out|e2]] eqn:Hp.
  2:{ left. cbn [fst].
      rewrite (proj1 (conserva_subprocess_run env _ _ _ _ Hp)). exact C1. }
  destruct (conserva_subprocess_run env _ _ _ _ Hp) as [C2 _].
  destruct (obtener_monitor env (strip out) (puerto config) 10 m2)
    as [m3 [info|e3]] eqn:Ho.
  2:{ left. cbn [fst].
      rewrite (proj1 (conserva_obtener_monitor env _ _ _ _ _ _ Ho)). congruence. }
  destruct (conserva_obtener_monitor env _ _ _ _ _ _ Ho) as [C3 _].
  right. exists (nombre config), (dict_get info "content_id" (Some no_encontrado)).
  cbn. rewrite C3, C2, C1. reflexivity.
Qed.

Lemma bucle_solo_content_id (ip : string -> bool) (env : Entorno)
    (eventos : list Evento) (indices : list Z) :
  forall m,
    Forall nueve (csv m) ->
    solo_content_id (csv m) (csv (fst (bucle_indices ip env eventos indices m))).
Proof.
  induction indices as [|idx indices IH]; intros m H.
  - apply solo_content_id_refl. exact H.
  - cbn [bucle_indices].
    destruct ((0 <=? idx) && (idx <? Z.of_nat (length eventos)));
      [|apply solo_content_id_refl; exact H].
    destruct (nth_evento eventos idx) as [evento|];
      [|apply solo_content_id_refl; exact H].
    unfold bind.
    destruct (procesar_evento_ok ip env evento m) as (m1 & d & E).
    rewrite E.
    assert (S1 : solo_content_id (csv m) (csv m1)).
    { destruct (csv_tras_procesar ip env evento m) as [C | (n & c & C)];
        rewrite E in C; cbn [fst] in C; rewrite C.
      - apply solo_content_id_refl. exact H.
      - apply solo_content_id_actualizar. exact H. }
    apply (solo_content_id_trans _ _ _ S1).
    apply IH. exact (solo_content_id_nueve _ _ S1).
Qed.

(** X19.  On a store of nine-field rows, a whole batch changes nothing but
    [content_id] cells: the file keeps its rows, in their order, each with
    nine fields and with its first eight fields as they were, whatever the
    containers and the endpoints do. *)
Theorem lote_solo_content_id (ip : string -> bool) (env : Entorno)
    (indices : list Z) (m : Mundo) :
  Forall nueve (csv m) ->
  length (csv (fst (crear_desde_csv ip env indices m))) = length (csv m)
  /\ forall i fila,
       nth_error (csv m) i = Some fila ->
       exists fila',
         nth_error (csv (fst (crear_desde_csv ip env indices m))) i = Some fila'
         /\ nueve fila'
         /\ firstn 8 fila' = firstn 8 fila.
Proof.
  intros H.
  assert (S : solo_content_id (csv m)
                (csv (fst (crear_desde_csv ip env indices m)))).
  { unfold crear_desde_csv, bind, _leer_eventos_csv.
    pose proof (bucle_solo_content_id ip env (leer_filas (csv m)) indices
                  (anotar CsvLeer m) H) as B.
    destruct (bucle_indices ip env (leer_filas (csv m)) indices
                (anotar CsvLeer m)) as [m1 [[]|e]]; exact B. }
  revert S. generalize (csv (fst (crear_desde_csv ip env indices m))).
  generalize (csv m). clear.
  intros a b S. induction S as [|x y a b [Hy Hxy] _ [IHl IHn]].
  - split; [reflexivity|]. intros i fila Hi. destruct i; discriminate Hi.
  - split; [simpl; congruence|].
    intros [|i] fila Hi; simpl in Hi |- *.
    + injection Hi as <-. exists y. auto.
    + apply IHn. exact Hi.
Qed.

Lemma lote_solo_content_id_testigo :
  Forall nueve (csv mundo_demo)
  /\ length (csv (fst (crear_desde_csv ip_ninguna env_demo [0] mundo_demo)))
     = length (csv mundo_demo).
Proof.
  assert (H : Forall nueve (csv mundo_demo)) by (repeat constructor).
  split; [exact H|].
  exact (proj1 (lote_solo_content_id ip_ninguna env_demo [0] mundo_demo H)).
Defined.

(** ** The eviction of a stale container *)



(** ** The menu *)










Lemma guardar_fila_nueva (config : EventoConfig) (m : Mundo) :
  _guardar_evento (fila_nueva config) m =
    ({| csv := (csv m ++ [fila_nueva config])%list; fs := fs m;
        traza := CsvAnexar (fila_nueva config) :: traza m |}, Ok tt).
Proof. reflexivity. Qed.

(** X22.  Menu option 1 never raises.  It saves an event only when the
    answers could be read, the record is valid and the eviction of a
    container of that name went through; the row is then appended after the
    rows of the file, which stay as they were, and the engine rebuilds the
    same record from it.  In every other case the file is not written, and
    when the answers are unreadable or the record is invalid nothing is
    done at all.  The field-count error of [_guardar_evento] cannot occur
    here: a failure while saving is a failure of the eviction. *)
Theorem alta_de_evento (ip : string -> bool) (env : Entorno)
    (r : Respuestas) (m : Mundo) :
  exists m' a,
    opcion_crear_evento ip env r m = (m', Ok a)
    /\ match a with
       | DatosIlegibles e => m' = m /\ solicitar_datos_evento r = Lanza e
       | DatosRechazados errores =>
           m' = m /\ errores <> []
           /\ exists config,
                solicitar_datos_evento r = Ok config
                /\ validar ip config = errores
       | ErrorAlCrearEvento e =>
           csv m' = csv m
           /\ escrituras (traza m') = escrituras (traza m)
           /\ exists config,
                solicitar_datos_evento r = Ok config
                /\ validar ip config = []
                /\ verificar_y_limpiar_contenedor env (nombre config) m
                   = (m', Lanza e)
       | EventoGuardado =>
           exists config m1,
             solicitar_datos_evento r = Ok config
             /\ validar ip config = []
             /\ verificar_y_limpiar_contenedor env (nombre config) m
                = (m1, Ok tt)
             /\ csv m' = (csv m ++ [fila_nueva config])%list
             /\ escrituras (traza m') = S (escrituras (traza m))
             /\ construir_config (fila_a_evento cabeceras (fila_nueva config))
                = Ok config
       end.
Proof.
  unfold opcion_crear_evento, atrapar.
  destruct (solicitar_datos_evento r) as [config|e0] eqn:Hs.
  2:{ exists m, (DatosIlegibles e0). split; [reflexivity | auto]. }
  destruct (validar ip config) as [|x errores] eqn:Hv.
  2:{ exists m, (DatosRechazados (x :: errores)).
      split; [reflexivity|]. split; [reflexivity|]. split; [discriminate|].
      exists config. auto. }
  unfold bind at 1.
  destruct (verificar_y_limpiar_contenedor env (nombre config) m)
    as [m1 [[]|e1]] eqn:Hd.
  - destruct (conserva_verificar env _ _ _ _ Hd) as [C W].
    unfold bind. rewrite guardar_fila_nueva. cbn [ret es_Exception].
    eexists. exists EventoGuardado. split; [reflexivity|].
    exists config, m1. split; [reflexivity|]. split; [exact Hv|].
    split; [exact Hd|]. cbn [csv traza]. split; [rewrite C; reflexivity|].
    split.
    + change (escrituras (CsvAnexar (fila_nueva config) :: traza m1))
        with (S (escrituras (traza m1))). rewrite W. reflexivity.
    + unfold fila_nueva. rewrite construir_config_nueve, !int_de_str_de_int.
      destruct config; reflexivity.
  - destruct (conserva_verificar env _ _ _ _ Hd) as [C W].
    cbn [es_Exception ret].
    exists m1, (ErrorAlCrearEvento e1). split; [reflexivity|].
    split; [exact C|]. split; [exact W|].
    exists config. auto.
Qed.

Lemma mostrar_eventos_csv_eq (m : Mundo) :
  mostrar_eventos_csv m = (anotar CsvLeer m, Ok (leer_filas (csv m))).
Proof.
  unfold mostrar_eventos_csv, bind, _leer_eventos_csv.
  destruct (leer_filas (csv m)); reflexivity.
Qed.

(** X23.  Menu option 3 never raises.  With no event in the file it only
    reads the file, and the selection is not looked at.  A selection that
    cannot be read as comma-separated integers is reported before any
    record is processed: the file has only been read.  Otherwise the batch
    of the numbers typed, each less one, is run on the file as read, and
    the index error of the batch is reported, not raised. *)
Theorem lote_del_menu (ip : string -> bool) (env : Entorno)
    (entrada : string) (m : Mundo) :
  exists m' l,
    opcion_crear_contenedores ip env entrada m = (m', Ok l)
    /\ match l with
       | SinEventos => leer_filas (csv m) = [] /\ m' = anotar CsvLeer m
       | ErrorAlCrearContenedores e =>
           leer_filas (csv m) <> []
           /\ ((indices_de (split_comas (strip entrada)) = Lanza e
                /\ m' = anotar CsvLeer m)
               \/ exists indices,
                    indices_de (split_comas (strip entrada)) = Ok indices
                    /\ crear_desde_csv ip env indices (anotar CsvLeer m)
                       = (m', Lanza e))
       | ContenedoresCreados =>
           leer_filas (csv m) <> []
           /\ exists indices,
                indices_de (split_comas (strip entrada)) = Ok indices
                /\ crear_desde_csv ip env indices (anotar CsvLeer m)
                   = (m', Ok tt)
       | ErrorInesperado _ => False
       end.
Proof.
  unfold opcion_crear_contenedores. unfold atrapar at 1. unfold bind at 1.
  rewrite mostrar_eventos_csv_eq.
  destruct (leer_filas (csv m)) as [|ev eventos] eqn:L.
  { exists (anotar CsvLeer m), SinEventos. split; [reflexivity | auto]. }
  unfold atrapar.
  destruct (indices_de (split_comas (strip entrada))) as [indices|e] eqn:I.
  2:{ exists (anotar CsvLeer m), (ErrorAlCrearContenedores e).
      split; [reflexivity|]. split; [discriminate | left; auto]. }
  unfold bind.
  destruct (crear_desde_csv ip env indices (anotar CsvLeer m))
    as [m1 [[]|e]] eqn:C.
  - exists m1, ContenedoresCreados. split; [reflexivity|].
    split; [discriminate|]. exists indices. auto.
  - exists m1, (ErrorAlCrearContenedores e). split; [reflexivity|].
    split; [discriminate|]. right. exists indices. auto.
Qed.










(** ** The launch *)

Lemma str_de_int_inyectiva (a b : Z) : str_de_int a = str_de_int b -> a = b.
Proof.
  intros H. pose proof (int_de_str_de_int a) as Ha.
  rewrite H, int_de_str_de_int in Ha. congruence.
Qed.

(** X25.  The launch command determines the record: two records with the
    same command are the same record. *)
Theorem comando_determina_registro (c1 c2 : EventoConfig) :
  _construir_comando_docker c1 = _construir_comando_docker c2 -> c1 = c2.
Proof.
  unfold _construir_comando_docker. intros H.
  destruct c1 as [n1 t1 p1 tr1 s1 h1 b1 tk1].
  destruct c2 as [n2 t2 p2 tr2 s2 h2 b2 tk2].
  cbn [nombre titulo puerto tracker source host bitrate token] in H.
  injection H as Hn _ _ _ Hp Htr _ Ht Htk Hh Hs Hb.
  apply str_de_int_inyectiva in Hp. apply str_de_int_inyectiva in Hb.
  congruence.
Qed.

Lemma comando_determina_registro_testigo :
  _construir_comando_docker config_demo = _construir_comando_docker config_demo
  /\ config_demo = config_demo.
Proof.
  assert (H : _construir_comando_docker config_demo
              = _construir_comando_docker config_demo) by reflexivity.
  split; [exact H|].
  exact (comando_determina_registro config_demo config_demo H).
Defined.




(** ** The effects of a cycle *)








